(** * Pezzy money-market backend: interest engine and multi-signature workflow

    A shallow embedding of

    - [services/interestService.js] (class [InterestService]), and
    - [controllers/managerController.js] ([initiateTokenCreation],
      [approveTokenCreation], [updateInterestRate]) together with the parts
      of [models/index.js] and [services/hederaService.js] they rely on,

    followed by the properties of the specification that concern them.

    The handlers are modelled twice: as functions of the state, which is a
    call served with no other in flight, and step by step between their
    [await]s ([Async]), which is the server under any interleaving.  The
    arithmetic of the interest engine is modelled twice as well: on exact
    rationals ([Number]), and rounded to binary64 ([Double]) where the
    rounding decides. *)

From Stdlib Require Import ZArith QArith Qround Qabs Qpower Lqa Lia Bool.
From stdpp Require Import base option list strings gmap.

Local Open Scope string_scope.
Local Open Scope list_scope.

(** ** JavaScript numbers

    A JavaScript number is modelled as an exact rational, or one of the
    IEEE special values.  Arithmetic on finite values is exact: the binary64
    rounding error of each operation is abstracted away, and so is the sign
    of zero (a zero divisor is taken to be [+0]).  The special values follow
    IEEE 754 as ECMAScript prescribes it. *)

Inductive number : Type :=
| Num (q : Q)
| Infinity (negative : bool)
| NaN.

Module Number.
Local Open Scope Q_scope.

Definition isNeg (q : Q) : bool := negb (Qle_bool 0 q).
Definition isZero (q : Q) : bool := Qeq_bool q 0.

Definition neg (a : number) : number :=
  match a with
  | Num q => Num (- q)
  | Infinity s => Infinity (negb s)
  | NaN => NaN
  end.

Definition add (a b : number) : number :=
  match a, b with
  | NaN, _ | _, NaN => NaN
  | Num x, Num y => Num (x + y)
  | Num _, Infinity s | Infinity s, Num _ => Infinity s
  | Infinity s, Infinity t => if Bool.eqb s t then Infinity s else NaN
  end.

Definition sub (a b : number) : number :=
  match a, b with
  | Num x, Num y => Num (x - y)
  | _, _ => add a (neg b)
  end.

Definition mul (a b : number) : number :=
  match a, b with
  | NaN, _ | _, NaN => NaN
  | Num x, Num y => Num (x * y)
  | Num x, Infinity s | Infinity s, Num x =>
      if isZero x then NaN else Infinity (xorb s (isNeg x))
  | Infinity s, Infinity t => Infinity (xorb s t)
  end.

Definition div (a b : number) : number :=
  match a, b with
  | NaN, _ | _, NaN => NaN
  | Num x, Num y =>
      if isZero y then (if isZero x then NaN else Infinity (isNeg x))
      else Num (x / y)
  | Num _, Infinity _ => Num 0
  | Infinity s, Num y => Infinity (xorb s (isNeg y))
  | Infinity _, Infinity _ => NaN
  end.

(** [a < b], [a <= b], [a > b]: every comparison with [NaN] is false. *)
Definition lt (a b : number) : bool :=
  match a, b with
  | NaN, _ | _, NaN => false
  | Num x, Num y => negb (Qle_bool y x)
  | Num _, Infinity s => negb s
  | Infinity s, Num _ => s
  | Infinity s, Infinity t => s && negb t
  end.

Definition le (a b : number) : bool :=
  match a, b with
  | NaN, _ | _, NaN => false
  | Num x, Num y => Qle_bool x y
  | Num _, Infinity s => negb s
  | Infinity s, Num _ => s
  | Infinity s, Infinity t => s || negb t
  end.

Definition gt (a b : number) : bool := lt b a.

(** [!a]: a number is falsy when it is zero or [NaN]. *)
Definition falsy (a : number) : bool :=
  match a with
  | Num q => isZero q
  | Infinity _ => false
  | NaN => true
  end.

(** [Math.round]: the nearest integer, ties towards [+Infinity]. *)
Definition Math_round (a : number) : number :=
  match a with
  | Num q => Num (inject_Z (Qfloor (q + (1 # 2))))
  | _ => a
  end.

Definition Math_floor (a : number) : number :=
  match a with
  | Num q => Num (inject_Z (Qfloor q))
  | _ => a
  end.

(** [Math.pow] at an integer exponent. *)
Definition Math_pow (base : number) (n : Z) : number :=
  if (n =? 0)%Z then Num 1
  else match base with
       | NaN => NaN
       | Num q =>
           if (n <? 0)%Z && isZero q then Infinity false
           else Num (q ^ n)
       | Infinity s =>
           if (n <? 0)%Z then Num 0 else Infinity (s && Z.odd n)
       end.

(** [parseFloat] applied to a number returns that number. *)
Definition parseFloat (a : number) : number := a.

(** Equality of numbers up to the representation of the rational. *)
Definition eq (a b : number) : Prop :=
  match a, b with
  | Num x, Num y => x == y
  | Infinity s, Infinity t => s = t
  | NaN, NaN => True
  | _, _ => False
  end.

End Number.

Infix "==#" := Number.eq (at level 70, no associativity).

(** ** Results of code that may throw *)

Inductive result (A : Type) : Type :=
| Ok (value : A)
| Throw (message : string).
Arguments Ok {A} value.
Arguments Throw {A} message.

(** ** Dates

    A [Date] is its time value, in milliseconds.  The methods that set a
    field of the local calendar ([setHours], [setDate]) go through the time
    zone of the process: [LocalTime] turns a time value into the local one,
    [UTC] turns a local one back, as ECMAScript defines them; the field is
    changed in between.  Where the clocks are never changed both add and
    take away one fixed offset; where they are, a local day can last 23 or
    25 hours. *)

Record TimeZone : Type := mkTimeZone {
  LocalTime : Z -> Z;
  UTC : Z -> Z
}.

(** [d.setHours(d.getHours() + h)] and [d.setDate(d.getDate() + n)] move the
    local time value by [ms] milliseconds. *)
Definition plusLocal (zone : TimeZone) (t ms : Z) : Z :=
  UTC zone (LocalTime zone t + ms).

Definition utcZone : TimeZone := {| LocalTime := fun t => t; UTC := fun t => t |}.

(** A zone whose clocks are never changed. *)
Definition fixedOffset (zone : TimeZone) : Prop :=
  exists offset : Z,
    (forall t, LocalTime zone t = (t + offset)%Z) /\ (forall t, UTC zone t = (t - offset)%Z).

(** ** services/interestService.js *)

Module Calc.
(** The object returned by the calculation methods; a field that the
    method does not set is [None]. *)
Record t : Type := mk {
  principal : number;
  interest : number;
  totalValue : number;
  days : Z;
  annualRate : number;
  dailyRate : option number;
  effectiveRate : option number
}.
End Calc.

Module RateUpdate.
Record t : Type := mk {
  success : bool;
  newAnnualRate : number;
  newDailyRate : number;
  apy : number
}.
End RateUpdate.

Record InterestService : Type := mkInterestService {
  annualRate : number;
  compoundingPeriodsPerYear : number;
  dailyRate : number
}.

Section InterestService.
Import Number.
Local Open Scope Q_scope.

(** [FUND_ANNUAL_INTEREST_RATE] of the environment, as [parseFloat] reads
    it; [None] when the variable is unset or empty. *)
Definition constructor (FUND_ANNUAL_INTEREST_RATE : option number) : InterestService :=
  let annualRate := div (parseFloat (default (Num 8.5) FUND_ANNUAL_INTEREST_RATE)) (Num 100) in
  let compoundingPeriodsPerYear := Num 365 in
  {| annualRate := annualRate;
     compoundingPeriodsPerYear := compoundingPeriodsPerYear;
     dailyRate := div annualRate compoundingPeriodsPerYear |}.

(** Rounding to cents, [Math.round(x * 100) / 100]. *)
Definition cents (x : number) : number :=
  div (Math_round (mul x (Num 100))) (Num 100).

(** A [Date] is its time value in milliseconds, and a count of days is an
    integer: [daysElapsed] is what [Math.floor] returns. *)
Definition millisecondsPerDay : Z := 1000 * 60 * 60 * 24.

Definition daysBetween (startDate endDate : Z) : Z :=
  Qfloor (inject_Z (endDate - startDate) / inject_Z millisecondsPerDay).

Definition calculateInterest (this : InterestService)
    (principal : number) (startDate endDate : Z) : result Calc.t :=
  let body : result Calc.t :=
    let principalAmount := parseFloat principal in
    if le principalAmount (Num 0) then
      Ok {| Calc.principal := Num 0;
            Calc.interest := Num 0;
            Calc.totalValue := Num 0;
            Calc.days := 0;
            Calc.annualRate := mul (annualRate this) (Num 100);
            Calc.dailyRate := None;
            Calc.effectiveRate := None |}
    else
      let daysElapsed := daysBetween startDate endDate in
      if (daysElapsed <? 0)%Z then
        Throw "End date cannot be before start date"
      else
        let timeInYears := div (Num (inject_Z daysElapsed)) (Num 365) in
        let compoundFactor := Math_pow (add (Num 1) (dailyRate this)) daysElapsed in
        let totalValue := mul principalAmount compoundFactor in
        let interestEarned := sub totalValue principalAmount in
        Ok {| Calc.principal := div (Math_round (mul principalAmount (Num 100))) (Num 100);
              Calc.interest := div (Math_round (mul interestEarned (Num 100))) (Num 100);
              Calc.totalValue := div (Math_round (mul totalValue (Num 100))) (Num 100);
              Calc.days := daysElapsed;
              Calc.annualRate := div (Math_round (mul (annualRate this) (Num 10000))) (Num 100);
              Calc.dailyRate := Some (div (Math_round (mul (dailyRate this) (Num 1000000))) (Num 10000));
              Calc.effectiveRate :=
                Some (div (Math_round
                             (mul (div (sub (div totalValue principalAmount) (Num 1)) timeInYears)
                                  (Num 10000)))
                          (Num 100)) |}
  in
  match body with
  | Ok r => Ok r
  | Throw message => Throw ("Failed to calculate interest: " +:+ message)
  end.

Definition calculateInterestForPeriod (this : InterestService)
    (principal : number) (days : Z) : Calc.t :=
  let principalAmount := parseFloat principal in
  let compoundFactor := Math_pow (add (Num 1) (dailyRate this)) days in
  let totalValue := mul principalAmount compoundFactor in
  let interestEarned := sub totalValue principalAmount in
  {| Calc.principal := principalAmount;
     Calc.days := days;
     Calc.interest := div (Math_round (mul interestEarned (Num 100))) (Num 100);
     Calc.totalValue := div (Math_round (mul totalValue (Num 100))) (Num 100);
     Calc.annualRate := div (Math_round (mul (annualRate this) (Num 10000))) (Num 100);
     Calc.dailyRate := None;
     Calc.effectiveRate := None |}.

(** The [apy] field of [calculateAPY()]. *)
Definition calculateAPY_apy (this : InterestService) : number :=
  let apy := sub (Math_pow (add (Num 1) (dailyRate this)) 365) (Num 1) in
  div (Math_round (mul apy (Num 10000))) (Num 100).

(** The method mutates [this]; the state after the call is returned with
    its outcome. *)
Definition updateInterestRate (this : InterestService) (newRate : number)
    : InterestService * result RateUpdate.t :=
  let rate := parseFloat newRate in
  if lt rate (Num 0) || gt rate (Num 100) then
    (this, Throw "Interest rate must be between 0 and 100")
  else
    let annualRate' := div rate (Num 100) in
    let this' := {| annualRate := annualRate';
                    compoundingPeriodsPerYear := compoundingPeriodsPerYear this;
                    dailyRate := div annualRate' (compoundingPeriodsPerYear this) |} in
    (this', Ok {| RateUpdate.success := true;
                  RateUpdate.newAnnualRate := rate;
                  RateUpdate.newDailyRate :=
                    div (Math_round (mul (dailyRate this') (Num 1000000))) (Num 10000);
                  RateUpdate.apy := calculateAPY_apy this' |}).

End InterestService.

(** ** services/interestService.js in binary64

    The numbers of [Number] are exact.  Where the rounding of the engine
    matters the operations are those of IEEE 754 binary64: the exact
    result, rounded to the nearest representable number. *)

Module Double.
Local Open Scope Q_scope.

(** The nearest integer, a tie going to the even one. *)
Definition nearestEven (x : Q) : Z :=
  let f := Qfloor x in
  match Qcompare (x - inject_Z f) (1 # 2) with
  | Lt => f
  | Gt => (f + 1)%Z
  | Eq => if Z.even f then f else (f + 1)%Z
  end.

(** The exponent [e] of a rational other than 0: [2 ^ e <= |q| < 2 ^ (e + 1)].
    The difference of the binary logarithms of numerator and denominator
    is [e] or [e + 1]. *)
Definition exponent (q : Q) : Z :=
  let e := (Z.log2 (Z.abs (Qnum q)) - Z.log2 (Z.pos (Qden q)))%Z in
  if Qle_bool (2 ^ e) (Qabs q) then e else (e - 1)%Z.

(** Rounding to binary64, to the nearest with ties to even: 53 bits of
    significand, the unit in the last place is [2 ^ (e - 52)] and never
    less than [2 ^ (-1074)], and what rounds to [2 ^ 1024] or more is an
    infinity. *)
Definition round64 (q : Q) : number :=
  if Qeq_bool q 0 then Num 0
  else
    let k := Z.max (exponent q - 52) (-1074) in
    let v := inject_Z (nearestEven (q / 2 ^ k)) * 2 ^ k in
    if Qle_bool (2 ^ 1024) (Qabs v) then Infinity (Number.isNeg q) else Num v.

(** The relative error of a rounding is at most [u], and its absolute
    error near zero at most [eta]. *)
Definition u : Q := 2 ^ (-53).
Definition eta : Q := 2 ^ (-1075).

(** An operation of binary64 arithmetic: the exact result, rounded. *)
Definition rounded (exact : number) : number :=
  match exact with
  | Num q => round64 q
  | _ => exact
  end.

Definition add (a b : number) : number := rounded (Number.add a b).
Definition sub (a b : number) : number := rounded (Number.sub a b).
Definition mul (a b : number) : number := rounded (Number.mul a b).
Definition div (a b : number) : number := rounded (Number.div a b).

(** [Math.pow] at an integer exponent: 1 at exponent 0 whatever the base;
    for a finite base and another exponent ECMAScript leaves the value
    to the implementation, which is [pow]; the special bases are as in
    [Number.Math_pow]. *)
Definition Math_pow (pow : Q -> Z -> number) (base : number) (n : Z) : number :=
  if (n =? 0)%Z then Num 1
  else match base with
       | Num q => pow q n
       | _ => Number.Math_pow base n
       end.

(** A [Math.pow] that is within one unit in the last place of the exact
    power, where that power is neither tiny nor huge. *)
Definition accurate (pow : Q -> Z -> number) : Prop :=
  forall (x : Q) (n : Z),
    0 < x -> (0 < n)%Z -> 1 # 2 <= x ^ n -> x ^ n <= 2 ^ 1000 ->
    exists r, pow x n = Num r /\ Qabs (r - x ^ n) <= 2 * u * x ^ n.

(** The [Math.pow] that rounds the exact power. *)
Definition nearestPow (x : Q) (n : Z) : number := round64 (x ^ n).

(** The constructor and [calculateInterestForPeriod] once more, with
    every operation rounded as the engine runs it.  [Math.round] returns
    an integer, which is a binary64 number when its argument is. *)
Definition constructor (FUND_ANNUAL_INTEREST_RATE : option number) : InterestService :=
  let annualRate :=
    div (Number.parseFloat (default (Num 8.5) FUND_ANNUAL_INTEREST_RATE)) (Num 100) in
  let compoundingPeriodsPerYear := Num 365 in
  {| annualRate := annualRate;
     compoundingPeriodsPerYear := compoundingPeriodsPerYear;
     dailyRate := div annualRate compoundingPeriodsPerYear |}.

(** The daily rate of the service when the environment sets no rate. *)
Definition defaultDailyRate : Q :=
  Eval vm_compute in
    match dailyRate (constructor None) with
    | Num q => q
    | _ => 0
    end.

Definition calculateInterestForPeriod (pow : Q -> Z -> number) (this : InterestService)
    (principal : number) (days : Z) : Calc.t :=
  let principalAmount := Number.parseFloat principal in
  let compoundFactor := Math_pow pow (add (Num 1) (dailyRate this)) days in
  let totalValue := mul principalAmount compoundFactor in
  let interestEarned := sub totalValue principalAmount in
  {| Calc.principal := principalAmount;
     Calc.days := days;
     Calc.interest := div (Number.Math_round (mul interestEarned (Num 100))) (Num 100);
     Calc.totalValue := div (Number.Math_round (mul totalValue (Num 100))) (Num 100);
     Calc.annualRate :=
       div (Number.Math_round (mul (annualRate this) (Num 10000))) (Num 100);
     Calc.dailyRate := None;
     Calc.effectiveRate := None |}.

End Double.

(** ** models/index.js

    Object ids are strings; a collection keyed by [_id] is a list whose
    positions are the ids, or a finite map. *)

Inductive Role : Type := investor | manager | admin.

Module User.
Record t : Type := mk {
  email : string;
  hederaAccountId : option string;
  role : Role
}.
End User.

Inductive RequestType : Type :=
| token_creation | token_mint | token_burn | interest_distribution | rate_change.

Inductive Status : Type := pending | approved | rejected | executed.

#[global] Instance Role_eq_dec : EqDecision Role.
Proof. solve_decision. Defined.

#[global] Instance Status_eq_dec : EqDecision Status.
Proof. solve_decision. Defined.

Definition Status_toString (s : Status) : string :=
  match s with
  | pending => "pending"
  | approved => "approved"
  | rejected => "rejected"
  | executed => "executed"
  end.

Definition Status_eqb (a b : Status) : bool :=
  match a, b with
  | pending, pending | approved, approved | rejected, rejected | executed, executed => true
  | _, _ => false
  end.

Definition Role_eqb (a b : Role) : bool :=
  match a, b with
  | investor, investor | manager, manager | admin, admin => true
  | _, _ => false
  end.

(** [requestData] is of type [Mixed]: the two payloads the controller builds. *)
Inductive RequestData : Type :=
| TokenConfig (tokenName tokenSymbol : option string) (decimals initialSupply : number)
| RateChange (newRate previousRate : number).

(** A template literal: its text pieces and the numbers interpolated. *)
Definition Template : Type := list (string + number).

Module Signature.
Record t : Type := mk {
  managerId : string;
  managerAccountId : option string;
  signedAt : Z
}.
End Signature.

Module MultiSigRequest.
(** The paths of [multiSigRequestSchema]. *)
Record t : Type := mk {
  requestType : RequestType;
  description : Template;
  requestData : RequestData;
  requiredSignatures : Z;
  signatures : list Signature.t;
  status : Status;
  executedAt : option Z;
  executionTransactionId : option string;
  createdBy : string;
  expiresAt : Z
}.

Definition schema : list string :=
  ["requestType"; "description"; "requestData"; "requiredSignatures"; "signatures";
   "status"; "executedAt"; "executionTransactionId"; "createdBy"; "expiresAt"].

Definition set_status (s : Status) (r : t) : t :=
  mk (requestType r) (description r) (requestData r) (requiredSignatures r)
     (signatures r) s (executedAt r) (executionTransactionId r) (createdBy r) (expiresAt r).

Definition push_signature (sig : Signature.t) (r : t) : t :=
  mk (requestType r) (description r) (requestData r) (requiredSignatures r)
     (signatures r ++ [sig]) (status r) (executedAt r) (executionTransactionId r)
     (createdBy r) (expiresAt r).

Definition set_execution (at_ : Z) (transactionId : string) (r : t) : t :=
  mk (requestType r) (description r) (requestData r) (requiredSignatures r)
     (signatures r) (status r) (Some at_) (Some transactionId) (createdBy r) (expiresAt r).

End MultiSigRequest.

Module Document.
(** A [MultiSigRequest] document in memory: the paths of its schema, and
    the property [metadata] that [approveTokenCreation] assigns.  The
    schema declares no path [metadata] (the transaction schema does), so
    the property lives on the object only and [save] does not write it. *)
Record t : Type := mk {
  paths : MultiSigRequest.t;
  metadata : option string
}.

Definition load (r : MultiSigRequest.t) : t := mk r None.
Definition map (f : MultiSigRequest.t -> MultiSigRequest.t) (d : t) : t :=
  mk (f (paths d)) (metadata d).
Definition set_metadata (error : string) (d : t) : t := mk (paths d) (Some error).
End Document.

Module TokenResult.
(** What [hederaService.createTokenWithMultiSig] returns. *)
Record t : Type := mk {
  tokenId : string;
  transactionId : string;
  name : string;
  symbol : string;
  decimals : number;
  initialSupply : number;
  treasuryAccount : string;
  managers : string * string
}.
End TokenResult.

Module Token.
(** [totalSupply] holds [initialSupply.toString()]; the number stands for
    its decimal string. *)
Record t : Type := mk {
  tokenId : string;
  name : string;
  symbol : string;
  decimals : number;
  totalSupply : number;
  treasuryAccountId : string;
  manager1AccountId : string;
  manager2AccountId : string;
  creationTransactionId : string;
  isActive : bool
}.
End Token.

(** ** The HTTP response of a controller *)

Inductive ResponseData : Type :=
| NoData
| InitiatedData (requestId : nat) (requestType : RequestType) (status : Status)
    (signaturesCollected signaturesRequired : Z) (expiresAt : Z)
| TokenCreatedData (tokenId tokenName tokenSymbol transactionId treasuryAccount : string)
| RateInitiatedData (requestId : nat) (newRate : number) (status : Status).

Module Response.
Record t : Type := mk {
  statusCode : Z;
  success : bool;
  message : string;
  error : option string;
  data : ResponseData
}.

Definition fail (code : Z) (message : string) : t := mk code false message None NoData.
Definition serverError (message error : string) : t :=
  mk 500 false message (Some error) NoData.
Definition ok (message : string) (data : ResponseData) : t :=
  mk 200 true message None data.
End Response.

(** ** The state the controller works on

    The three collections, the singletons [hederaService] (its [tokenId])
    and [interestService], and the log of the calls made to the ledger's
    [createTokenWithMultiSig], each with the id of the request whose approval
    made it.  A controller call is served at one time [now], which every
    [new Date()] in it reads.  Reads and writes of the collections succeed,
    but for the unique index on [tokenId]; the ledger call is the one
    operation whose failure is part of the model. *)

Record World : Type := mkWorld {
  users : gmap string User.t;
  tokens : list Token.t;
  requests : list MultiSigRequest.t;
  hederaTokenId : option string;
  interestService : InterestService;
  ledgerCalls : list (nat * RequestData)
}.

(** [process.env], as the controller reads it. [TOKEN_DECIMALS] is the
    result of [parseInt], [NaN] when the variable is unset.  [TZ] is the
    time zone that the variable, or the system when it is unset, gives to
    every [Date] of the process. *)
Record Env : Type := mkEnv {
  TOKEN_NAME : option string;
  TOKEN_SYMBOL : option string;
  TOKEN_DECIMALS : number;
  FUND_ANNUAL_INTEREST_RATE : option number;
  TZ : TimeZone
}.

(** [req.body] of [initiate-token-creation]. *)
Record TokenBody : Type := mkTokenBody {
  tokenName : option string;
  tokenSymbol : option string;
  decimals : option number;
  initialSupply : option number
}.

(** The outcome of one call of [createTokenWithMultiSig]: the ledger's
    answer to the configuration it is given. *)
Definition Ledger : Type := RequestData -> result TokenResult.t.

Module managerController.

(** [a || b] on strings and on numbers. *)
Definition orString (a b : option string) : option string :=
  match a with
  | Some s => if String.eqb s "" then b else Some s
  | None => b
  end.

Definition orNumber (a : option number) (b : number) : number :=
  match a with
  | Some x => if Number.falsy x then b else x
  | None => b
  end.

(** [!user || user.role !== 'manager'] *)
Definition notManager (user : option User.t) : bool :=
  match user with
  | Some u => negb (Role_eqb (User.role u) manager)
  | None => true
  end.

(** [expiresAt.setHours(expiresAt.getHours() + 24)]: 24 hours later on the
    local clock, which is the time value 24 hours later only when the
    clocks are not changed in between. *)
Definition hours24 : Z := 24 * 60 * 60 * 1000.

Definition in24Hours (env : Env) (now : Z) : Z := plusLocal (TZ env) now hours24.

Definition set_requests (rs : list MultiSigRequest.t) (w : World) : World :=
  mkWorld (users w) (tokens w) rs (hederaTokenId w) (interestService w) (ledgerCalls w).

(** [new MultiSigRequest({...}).save()]: the new document gets the next id. *)
Definition insertRequest (r : MultiSigRequest.t) (w : World) : World :=
  set_requests (requests w ++ [r]) w.

(** [multiSigRequest.save()] of a document found by id: the schema's
    paths are written. *)
Definition save (requestId : nat) (d : Document.t) (w : World) : World :=
  set_requests (<[requestId := Document.paths d]> (requests w)) w.

(** [hederaService.createTokenWithMultiSig(config)]: the call is logged,
    and on success the service remembers the token id. *)
Definition createTokenWithMultiSig (ledger : Ledger) (requestId : nat)
    (config : RequestData) (w : World) : World * result TokenResult.t :=
  let logged := ledgerCalls w ++ [(requestId, config)] in
  match ledger config with
  | Ok tokenResult =>
      (mkWorld (users w) (tokens w) (requests w)
               (Some (TokenResult.tokenId tokenResult)) (interestService w) logged,
       Ok tokenResult)
  | Throw message =>
      (mkWorld (users w) (tokens w) (requests w)
               (hederaTokenId w) (interestService w) logged,
       Throw message)
  end.

Definition setTokenId (tokenId : string) (w : World) : World :=
  mkWorld (users w) (tokens w) (requests w) (Some tokenId) (interestService w) (ledgerCalls w).

(** A path of type [Number] does not cast [NaN], and a [required] path of
    type [String] is not the empty string. *)
Definition castsToNumber (a : number) : bool :=
  match a with
  | NaN => false
  | _ => true
  end.

Definition present (s : string) : bool := negb (String.eqb s "").

(** The validation of [tokenSchema], which [save] runs before the insert:
    the paths that are [required], and [decimals], a [Number].
    [totalSupply] is a string with a default and [isActive] is set. *)
Definition validToken (token : Token.t) : bool :=
  present (Token.tokenId token) && present (Token.name token)
  && present (Token.symbol token) && castsToNumber (Token.decimals token)
  && present (Token.treasuryAccountId token) && present (Token.manager1AccountId token)
  && present (Token.manager2AccountId token) && present (Token.creationTransactionId token).

(** [token.save()]: the document is validated, then inserted; [tokenId] is
    declared [unique].  The messages stand for those of Mongoose and of
    the database, which name the paths and the key. *)
Definition saveToken (token : Token.t) (w : World) : result World :=
  if negb (validToken token) then
    Throw "Token validation failed"
  else if existsb (fun t => String.eqb (Token.tokenId t) (Token.tokenId token)) (tokens w) then
    Throw "E11000 duplicate key error"
  else
    Ok (mkWorld (users w) (tokens w ++ [token]) (requests w)
                (hederaTokenId w) (interestService w) (ledgerCalls w)).

Definition signatureOf (userId : string) (user : User.t) (now : Z) : Signature.t :=
  {| Signature.managerId := userId;
     Signature.managerAccountId := User.hederaAccountId user;
     Signature.signedAt := now |}.

Definition initiateTokenCreation (env : Env) (now : Z) (userId : string)
    (body : TokenBody) (w : World) : World * Response.t :=
  match users w !! userId with
  | Some user =>
      if notManager (Some user) then
        (w, Response.fail 403 "Only managers can initiate token creation")
      else
        match tokens w with
        | _ :: _ => (w, Response.fail 400 "Token already exists")
        | [] =>
            let expiresAt := in24Hours env now in
            let multiSigRequest :=
              {| MultiSigRequest.requestType := token_creation;
                 MultiSigRequest.description := [inl "Create Pezzy Money Market Token"];
                 MultiSigRequest.requestData :=
                   TokenConfig (orString (tokenName body) (TOKEN_NAME env))
                               (orString (tokenSymbol body) (TOKEN_SYMBOL env))
                               (orNumber (decimals body) (TOKEN_DECIMALS env))
                               (orNumber (initialSupply body) (Num 0));
                 MultiSigRequest.requiredSignatures := 2;
                 MultiSigRequest.signatures := [signatureOf userId user now];
                 MultiSigRequest.status := pending;
                 MultiSigRequest.executedAt := None;
                 MultiSigRequest.executionTransactionId := None;
                 MultiSigRequest.createdBy := userId;
                 MultiSigRequest.expiresAt := expiresAt |} in
            (insertRequest multiSigRequest w,
             Response.ok "Token creation initiated. Awaiting second manager approval."
               (InitiatedData (length (requests w)) token_creation pending 1 2 expiresAt))
        end
  | None => (w, Response.fail 403 "Only managers can initiate token creation")
  end.

Definition tokenOf (tokenResult : TokenResult.t) : Token.t :=
  {| Token.tokenId := TokenResult.tokenId tokenResult;
     Token.name := TokenResult.name tokenResult;
     Token.symbol := TokenResult.symbol tokenResult;
     Token.decimals := TokenResult.decimals tokenResult;
     Token.totalSupply := TokenResult.initialSupply tokenResult;
     Token.treasuryAccountId := TokenResult.treasuryAccount tokenResult;
     Token.manager1AccountId := fst (TokenResult.managers tokenResult);
     Token.manager2AccountId := snd (TokenResult.managers tokenResult);
     Token.creationTransactionId := TokenResult.transactionId tokenResult;
     Token.isActive := true |}.

(** The inner [catch] of [approveTokenCreation], followed by the outer
    one that answers the error thrown again. *)
Definition executionFailed (requestId : nat) (d : Document.t) (message : string)
    (w : World) : World * Response.t * Document.t :=
  let d := Document.map (MultiSigRequest.set_status rejected) d in
  let d := Document.set_metadata message d in
  (save requestId d w,
   Response.serverError "Failed to approve token creation" message,
   d).

(** The inner [try] of [approveTokenCreation]. *)
Definition execute (ledger : Ledger) (now : Z) (requestId : nat) (d : Document.t)
    (w : World) : World * Response.t * Document.t :=
  match createTokenWithMultiSig ledger requestId
          (MultiSigRequest.requestData (Document.paths d)) w with
  | (w, Throw message) => executionFailed requestId d message w
  | (w, Ok tokenResult) =>
      match saveToken (tokenOf tokenResult) w with
      | Throw message => executionFailed requestId d message w
      | Ok w =>
          let d := Document.map (MultiSigRequest.set_status executed) d in
          let d := Document.map
                     (MultiSigRequest.set_execution now (TokenResult.transactionId tokenResult)) d in
          let w := save requestId d w in
          let w := setTokenId (TokenResult.tokenId tokenResult) w in
          (w,
           Response.ok "Token creation approved and executed successfully"
             (TokenCreatedData (TokenResult.tokenId tokenResult)
                               (TokenResult.name tokenResult)
                               (TokenResult.symbol tokenResult)
                               (TokenResult.transactionId tokenResult)
                               (TokenResult.treasuryAccount tokenResult)),
           d)
      end
  end.

(** [approveTokenCreation], with the document it leaves in memory when it
    has loaded one. *)
Definition approve (ledger : Ledger) (now : Z) (userId : string) (requestId : nat)
    (w : World) : World * Response.t * option Document.t :=
  match users w !! userId with
  | Some user =>
      if notManager (Some user) then
        (w, Response.fail 403 "Only managers can approve token creation", None)
      else
        match requests w !! requestId with
        | None => (w, Response.fail 404 "Request not found", None)
        | Some found =>
            let multiSigRequest := Document.load found in
            if negb (Status_eqb (MultiSigRequest.status found) pending) then
              (w,
               Response.fail 400
                 ("Request is already " +:+ Status_toString (MultiSigRequest.status found)),
               Some multiSigRequest)
            else if (MultiSigRequest.expiresAt found <? now)%Z then
              let multiSigRequest :=
                Document.map (MultiSigRequest.set_status rejected) multiSigRequest in
              (save requestId multiSigRequest w,
               Response.fail 400 "Request has expired",
               Some multiSigRequest)
            else
              let alreadySigned :=
                existsb (fun sig => String.eqb (Signature.managerId sig) userId)
                        (MultiSigRequest.signatures found) in
              if alreadySigned then
                (w, Response.fail 400 "You have already signed this request",
                 Some multiSigRequest)
              else
                let multiSigRequest :=
                  Document.map
                    (MultiSigRequest.push_signature (signatureOf userId user now))
                    multiSigRequest in
                let multiSigRequest :=
                  Document.map (MultiSigRequest.set_status approved) multiSigRequest in
                let w := save requestId multiSigRequest w in
                let '(w, response, multiSigRequest) :=
                  execute ledger now requestId multiSigRequest w in
                (w, response, Some multiSigRequest)
        end
  | None => (w, Response.fail 403 "Only managers can approve token creation", None)
  end.

Definition approveTokenCreation (ledger : Ledger) (now : Z) (userId : string)
    (requestId : nat) (w : World) : World * Response.t :=
  fst (approve ledger now userId requestId w).

(** [exports.updateInterestRate]; [newRate] is [None] when the body has
    no such field. *)
Definition updateInterestRate (env : Env) (now : Z) (userId : string)
    (newRate : option number) (w : World) : World * Response.t :=
  match users w !! userId with
  | Some user =>
      if notManager (Some user) then
        (w, Response.fail 403 "Only managers can update interest rate")
      else
        match newRate with
        | None => (w, Response.fail 400 "Invalid interest rate. Must be between 0 and 100.")
        | Some newRate =>
            if Number.falsy newRate || Number.lt newRate (Num 0)
               || Number.gt newRate (Num 100) then
              (w, Response.fail 400 "Invalid interest rate. Must be between 0 and 100.")
            else
              let expiresAt := in24Hours env now in
              let multiSigRequest :=
                {| MultiSigRequest.requestType := rate_change;
                   MultiSigRequest.description :=
                     [inl "Change interest rate to "; inr newRate; inl "%"];
                   MultiSigRequest.requestData :=
                     RateChange newRate
                       (Number.parseFloat
                          (default (Num 8.5%Q) (FUND_ANNUAL_INTEREST_RATE env)));
                   MultiSigRequest.requiredSignatures := 2;
                   MultiSigRequest.signatures := [signatureOf userId user now];
                   MultiSigRequest.status := pending;
                   MultiSigRequest.executedAt := None;
                   MultiSigRequest.executionTransactionId := None;
                   MultiSigRequest.createdBy := userId;
                   MultiSigRequest.expiresAt := expiresAt |} in
              (insertRequest multiSigRequest w,
               Response.ok "Interest rate change initiated. Awaiting second manager approval."
                 (RateInitiatedData (length (requests w)) newRate pending))
        end
  | None => (w, Response.fail 403 "Only managers can update interest rate")
  end.

End managerController.

(** ** Sequences of calls *)

Inductive Call : Type :=
| InitiateTokenCreation (env : Env) (userId : string) (body : TokenBody)
| ApproveTokenCreation (ledger : Ledger) (userId : string) (requestId : nat)
| UpdateInterestRate (env : Env) (userId : string) (newRate : option number).

Definition step (now : Z) (c : Call) (w : World) : World * Response.t :=
  match c with
  | InitiateTokenCreation env userId body =>
      managerController.initiateTokenCreation env now userId body w
  | ApproveTokenCreation ledger userId requestId =>
      managerController.approveTokenCreation ledger now userId requestId w
  | UpdateInterestRate env userId newRate =>
      managerController.updateInterestRate env now userId newRate w
  end.

(** The calls of a run are served one after the other, each at its time:
    a call is answered before the next one arrives, so no two handlers are
    in flight at once.  [Async.play] below is the server without that
    restriction. *)
Fixpoint run (calls : list (Z * Call)) (w : World) : World :=
  match calls with
  | [] => w
  | (now, c) :: calls => run calls (fst (step now c w))
  end.

(** A deployment before any request: its users, an empty request
    collection and no call to the ledger yet. *)
Definition initialWorld (us : gmap string User.t) (service : InterestService) : World :=
  {| users := us; tokens := []; requests := []; hederaTokenId := None;
     interestService := service; ledgerCalls := [] |}.

(** The states that calls served one after the other can reach. *)
Definition reachable (w : World) : Prop :=
  exists us service calls, w = run calls (initialWorld us service).

(** The calls the ledger received for one request. *)
Definition callsFor (requestId : nat) (w : World) : list (nat * RequestData) :=
  filter (fun c => fst c = requestId) (ledgerCalls w).

(** The manager identities among a request's signatures. *)
Definition signers (r : MultiSigRequest.t) : list string :=
  Signature.managerId <$> MultiSigRequest.signatures r.

(** ** Vocabulary of the statements *)

(** The service as the module exports it when the environment does not
    set the rate: 8.5% a year. *)
Definition defaultService : InterestService := constructor None.

Definition rateError : string := "Interest rate must be between 0 and 100".

Definition rangeError : string :=
  "Failed to calculate interest: End date cannot be before start date".

Definition isManager (w : World) (userId : string) (user : User.t) : Prop :=
  users w !! userId = Some user /\ User.role user = manager.

(** The request as [approveTokenCreation] first saves it on quorum, and as
    it leaves it when the execution fails or succeeds. *)
Definition approvedBy (userId : string) (user : User.t) (now : Z)
    (r : MultiSigRequest.t) : MultiSigRequest.t :=
  MultiSigRequest.set_status approved
    (MultiSigRequest.push_signature (managerController.signatureOf userId user now) r).

Definition rejectedAfter (userId : string) (user : User.t) (now : Z)
    (r : MultiSigRequest.t) : MultiSigRequest.t :=
  MultiSigRequest.set_status rejected (approvedBy userId user now r).

Definition executedAfter (userId : string) (user : User.t) (now : Z)
    (tokenResult : TokenResult.t) (r : MultiSigRequest.t) : MultiSigRequest.t :=
  MultiSigRequest.set_execution now (TokenResult.transactionId tokenResult)
    (MultiSigRequest.set_status executed (approvedBy userId user now r)).

Definition tokenIdTaken (tokenId : string) (w : World) : bool :=
  existsb (fun t => String.eqb (Token.tokenId t) tokenId) (tokens w).

Definition approveError : string := "Failed to approve token creation".
Definition duplicateKey : string := "E11000 duplicate key error".
Definition validationFailed : string := "Token validation failed".

(** The error of [token.save()] for the record of a ledger's answer, if
    there is one. *)
Definition tokenError (tokenResult : TokenResult.t) (w : World) : option string :=
  if negb (managerController.validToken (managerController.tokenOf tokenResult)) then
    Some validationFailed
  else if tokenIdTaken (TokenResult.tokenId tokenResult) w then Some duplicateKey
  else None.





(** ** A deployment with two managers and one investor *)

Module Scenario.

Definition m1 : User.t :=
  {| User.email := "manager1@pezzy.rw"; User.hederaAccountId := Some "0.0.4867330";
     User.role := manager |}.
Definition m2 : User.t :=
  {| User.email := "manager2@pezzy.rw"; User.hederaAccountId := Some "0.0.4867331";
     User.role := manager |}.
Definition i1 : User.t :=
  {| User.email := "investor@pezzy.rw"; User.hederaAccountId := None;
     User.role := investor |}.

Definition accounts : gmap string User.t :=
  <["u1" := m1]> (<["u2" := m2]> (<["u3" := i1]> ∅)).

Definition env : Env :=
  {| TOKEN_NAME := Some "Pezzy Money Market Token"; TOKEN_SYMBOL := Some "PMKT";
     TOKEN_DECIMALS := Num 2; FUND_ANNUAL_INTEREST_RATE := None; TZ := utcZone |}.

Definition body : TokenBody :=
  {| tokenName := None; tokenSymbol := None; decimals := None; initialSupply := None |}.

Definition created (tokenId transactionId : string) : TokenResult.t :=
  {| TokenResult.tokenId := tokenId;
     TokenResult.transactionId := transactionId;
     TokenResult.name := "Pezzy Money Market Token";
     TokenResult.symbol := "PMKT";
     TokenResult.decimals := Num 2;
     TokenResult.initialSupply := Num 0;
     TokenResult.treasuryAccount := "0.0.4867328";
     TokenResult.managers := ("0.0.4867330", "0.0.4867331") |}.

(** The clocks of Paris around 31 March 2024: an hour ahead of UTC until
    01:00 UTC of that day, two hours from then on; a local time that the
    change skips is read with the offset before it. *)
Definition paris : TimeZone :=
  {| LocalTime := fun t => if (t <? 1711846800000)%Z then (t + 3600000)%Z else (t + 7200000)%Z;
     UTC := fun t => if (t <? 1711854000000)%Z then (t - 3600000)%Z else (t - 7200000)%Z |}.

Definition parisEnv : Env :=
  {| TOKEN_NAME := Some "Pezzy Money Market Token"; TOKEN_SYMBOL := Some "PMKT";
     TOKEN_DECIMALS := Num 2; FUND_ANNUAL_INTEREST_RATE := None; TZ := paris |}.

(** A ledger that creates the token, and one that refuses. *)
Definition ledgerCreates (tokenId transactionId : string) : Ledger :=
  fun _ => Ok (created tokenId transactionId).
Definition ledgerRefuses : Ledger :=
  fun _ => Throw "Failed to create token: INSUFFICIENT_PAYER_BALANCE".

Definition start : World := initialWorld accounts (constructor None).

(** Manager 1 initiates the token creation, manager 2 approves it. *)
Definition creation : list (Z * Call) :=
  [ (1000, InitiateTokenCreation env "u1" body);
    (2000, ApproveTokenCreation (ledgerCreates "0.0.4867332" "tx-1") "u2" 0%nat) ]%Z.

(** Manager 1 initiates the token creation twice before any approval,
    manager 2 approves both requests. *)
Definition twoCreations : list (Z * Call) :=
  [ (1000, InitiateTokenCreation env "u1" body);
    (1500, InitiateTokenCreation env "u1" body);
    (2000, ApproveTokenCreation (ledgerCreates "0.0.4867332" "tx-1") "u2" 0%nat);
    (3000, ApproveTokenCreation (ledgerCreates "0.0.4867333" "tx-2") "u2" 1%nat) ]%Z.

(** The state once manager 1 has initiated the token creation, and once
    manager 1 has asked for a rate of 5%. *)
Definition initiated : World :=
  run [ (1000, InitiateTokenCreation env "u1" body) ]%Z start.
Definition rateRequested : World :=
  run [ (1000, UpdateInterestRate env "u1" (Some (Num 5))) ]%Z start.

(** The two requests as these calls store them. *)
Definition tokenRequest : MultiSigRequest.t :=
  {| MultiSigRequest.requestType := token_creation;
     MultiSigRequest.description := [inl "Create Pezzy Money Market Token"];
     MultiSigRequest.requestData :=
       TokenConfig (Some "Pezzy Money Market Token") (Some "PMKT") (Num 2) (Num 0);
     MultiSigRequest.requiredSignatures := 2;
     MultiSigRequest.signatures := [managerController.signatureOf "u1" m1 1000];
     MultiSigRequest.status := pending;
     MultiSigRequest.executedAt := None;
     MultiSigRequest.executionTransactionId := None;
     MultiSigRequest.createdBy := "u1";
     MultiSigRequest.expiresAt := 86401000 |}.

Definition rateRequest : MultiSigRequest.t :=
  {| MultiSigRequest.requestType := rate_change;
     MultiSigRequest.description := [inl "Change interest rate to "; inr (Num 5); inl "%"];
     MultiSigRequest.requestData := RateChange (Num 5) (Num 8.5);
     MultiSigRequest.requiredSignatures := 2;
     MultiSigRequest.signatures := [managerController.signatureOf "u1" m1 1000];
     MultiSigRequest.status := pending;
     MultiSigRequest.executedAt := None;
     MultiSigRequest.executionTransactionId := None;
     MultiSigRequest.createdBy := "u1";
     MultiSigRequest.expiresAt := 86401000 |}.

(** Manager 1 asks for a rate of 5%, manager 2 approves the request. *)
Definition rateChange : list (Z * Call) :=
  [ (1000, UpdateInterestRate env "u1" (Some (Num 5)));
    (2000, ApproveTokenCreation (ledgerCreates "0.0.4867332" "tx-1") "u2" 0%nat) ]%Z.

(** Manager 1 initiates the token creation, and the ledger refuses it
    when manager 2 approves. *)
Definition refused : list (Z * Call) :=
  [ (1000, InitiateTokenCreation env "u1" body);
    (2000, ApproveTokenCreation ledgerRefuses "u2" 0%nat) ]%Z.

End Scenario.

(** ** Handlers in flight

    The handlers are [async] functions: one runs until its next [await]
    and resumes once the operation it awaits has been done, and in between
    other handlers run.  Nothing in the source keeps two of them apart: no
    lock, no transaction, no check of the version of a document.  A step of
    a handler is here the operation that it was awaiting, on the
    collections or on the ledger, followed by its code up to the next
    [await]; [now] is the time of that code. *)

Module Async.
Import managerController.

(** What [save()] of a document that [findById] has loaded writes: the
    paths assigned since, and the signature pushed since, which is appended
    to the array that is stored (Mongoose sends [$set] for the first and
    [$push] for the second, and a push does not depend on the version of
    the document). *)
Record Changes : Type := mkChanges {
  pushed : option Signature.t;
  assigned : option Status;
  execution : option (Z * string)
}.

Definition write (c : Changes) (r : MultiSigRequest.t) : MultiSigRequest.t :=
  let r := match pushed c with
           | Some sig => MultiSigRequest.push_signature sig r
           | None => r
           end in
  let r := match assigned c with
           | Some status => MultiSigRequest.set_status status r
           | None => r
           end in
  match execution c with
  | Some (at_, transactionId) => MultiSigRequest.set_execution at_ transactionId r
  | None => r
  end.

Definition update (requestId : nat) (c : Changes) (w : World) : World :=
  match requests w !! requestId with
  | Some r => set_requests (<[requestId := write c r]> (requests w)) w
  | None => w
  end.

(** A handler between two steps: the operation it awaits, with what it
    holds in memory; or the response it has sent. *)
Inductive Task : Type :=
| InitiateFindUser (env : Env) (userId : string) (body : TokenBody)
| InitiateFindToken (env : Env) (userId : string) (user : User.t) (body : TokenBody)
| InitiateSave (multiSigRequest : MultiSigRequest.t)
| RateFindUser (env : Env) (userId : string) (newRate : option number)
| RateSave (multiSigRequest : MultiSigRequest.t) (newRate : number)
| ApproveFindUser (ledger : Ledger) (userId : string) (requestId : nat)
| ApproveFindRequest (ledger : Ledger) (userId : string) (user : User.t) (requestId : nat)
| ApproveSaveExpired (requestId : nat) (multiSigRequest : Document.t)
| ApproveSaveSigned (ledger : Ledger) (requestId : nat) (multiSigRequest : Document.t)
    (signature : Signature.t)
| ApproveCreateToken (ledger : Ledger) (requestId : nat) (multiSigRequest : Document.t)
| ApproveSaveToken (requestId : nat) (multiSigRequest : Document.t)
    (tokenResult : TokenResult.t)
| ApproveSaveExecuted (requestId : nat) (multiSigRequest : Document.t)
    (tokenResult : TokenResult.t) (executedAt : Z)
| ApproveSaveRejected (requestId : nat) (multiSigRequest : Document.t) (message : string)
| Responded (response : Response.t).

Definition start (c : Call) : Task :=
  match c with
  | InitiateTokenCreation env userId body => InitiateFindUser env userId body
  | ApproveTokenCreation ledger userId requestId => ApproveFindUser ledger userId requestId
  | UpdateInterestRate env userId newRate => RateFindUser env userId newRate
  end.

(** The inner [catch] of [approveTokenCreation], up to its [save()]. *)
Definition caught (requestId : nat) (multiSigRequest : Document.t) (message : string)
    : Task :=
  let multiSigRequest := Document.map (MultiSigRequest.set_status rejected) multiSigRequest in
  let multiSigRequest := Document.set_metadata message multiSigRequest in
  ApproveSaveRejected requestId multiSigRequest message.

Definition resume (now : Z) (t : Task) (w : World) : World * Task :=
  match t with
  | InitiateFindUser env userId body =>
      match users w !! userId with
      | Some user =>
          if notManager (Some user) then
            (w, Responded (Response.fail 403 "Only managers can initiate token creation"))
          else (w, InitiateFindToken env userId user body)
      | None => (w, Responded (Response.fail 403 "Only managers can initiate token creation"))
      end
  | InitiateFindToken env userId user body =>
      match tokens w with
      | _ :: _ => (w, Responded (Response.fail 400 "Token already exists"))
      | [] =>
          let expiresAt := in24Hours env now in
          let multiSigRequest :=
            {| MultiSigRequest.requestType := token_creation;
               MultiSigRequest.description := [inl "Create Pezzy Money Market Token"];
               MultiSigRequest.requestData :=
                 TokenConfig (orString (tokenName body) (TOKEN_NAME env))
                             (orString (tokenSymbol body) (TOKEN_SYMBOL env))
                             (orNumber (decimals body) (TOKEN_DECIMALS env))
                             (orNumber (initialSupply body) (Num 0));
               MultiSigRequest.requiredSignatures := 2;
               MultiSigRequest.signatures := [signatureOf userId user now];
               MultiSigRequest.status := pending;
               MultiSigRequest.executedAt := None;
               MultiSigRequest.executionTransactionId := None;
               MultiSigRequest.createdBy := userId;
               MultiSigRequest.expiresAt := expiresAt |} in
          (w, InitiateSave multiSigRequest)
      end
  | InitiateSave multiSigRequest =>
      (insertRequest multiSigRequest w,
       Responded
         (Response.ok "Token creation initiated. Awaiting second manager approval."
            (InitiatedData (length (requests w))
               (MultiSigRequest.requestType multiSigRequest)
               (MultiSigRequest.status multiSigRequest) 1 2
               (MultiSigRequest.expiresAt multiSigRequest))))
  | RateFindUser env userId newRate =>
      match users w !! userId with
      | Some user =>
          if notManager (Some user) then
            (w, Responded (Response.fail 403 "Only managers can update interest rate"))
          else
            match newRate with
            | None =>
                (w, Responded
                      (Response.fail 400 "Invalid interest rate. Must be between 0 and 100."))
            | Some newRate =>
                if Number.falsy newRate || Number.lt newRate (Num 0)
                   || Number.gt newRate (Num 100) then
                  (w, Responded
                        (Response.fail 400 "Invalid interest rate. Must be between 0 and 100."))
                else
                  let expiresAt := in24Hours env now in
                  let multiSigRequest :=
                    {| MultiSigRequest.requestType := rate_change;
                       MultiSigRequest.description :=
                         [inl "Change interest rate to "; inr newRate; inl "%"];
                       MultiSigRequest.requestData :=
                         RateChange newRate
                           (Number.parseFloat
                              (default (Num 8.5%Q) (FUND_ANNUAL_INTEREST_RATE env)));
                       MultiSigRequest.requiredSignatures := 2;
                       MultiSigRequest.signatures := [signatureOf userId user now];
                       MultiSigRequest.status := pending;
                       MultiSigRequest.executedAt := None;
                       MultiSigRequest.executionTransactionId := None;
                       MultiSigRequest.createdBy := userId;
                       MultiSigRequest.expiresAt := expiresAt |} in
                  (w, RateSave multiSigRequest newRate)
            end
      | None => (w, Responded (Response.fail 403 "Only managers can update interest rate"))
      end
  | RateSave multiSigRequest newRate =>
      (insertRequest multiSigRequest w,
       Responded
         (Response.ok "Interest rate change initiated. Awaiting second manager approval."
            (RateInitiatedData (length (requests w)) newRate pending)))
  | ApproveFindUser ledger userId requestId =>
      match users w !! userId with
      | Some user =>
          if notManager (Some user) then
            (w, Responded (Response.fail 403 "Only managers can approve token creation"))
          else (w, ApproveFindRequest ledger userId user requestId)
      | None => (w, Responded (Response.fail 403 "Only managers can approve token creation"))
      end
  | ApproveFindRequest ledger userId user requestId =>
      match requests w !! requestId with
      | None => (w, Responded (Response.fail 404 "Request not found"))
      | Some found =>
          let multiSigRequest := Document.load found in
          if negb (Status_eqb (MultiSigRequest.status found) pending) then
            (w, Responded
                  (Response.fail 400
                     ("Request is already "
                      +:+ Status_toString (MultiSigRequest.status found))))
          else if (MultiSigRequest.expiresAt found <? now)%Z then
            (w, ApproveSaveExpired requestId
                  (Document.map (MultiSigRequest.set_status rejected) multiSigRequest))
          else
            let alreadySigned :=
              existsb (fun sig => String.eqb (Signature.managerId sig) userId)
                      (MultiSigRequest.signatures found) in
            if alreadySigned then
              (w, Responded (Response.fail 400 "You have already signed this request"))
            else
              let signature := signatureOf userId user now in
              let multiSigRequest :=
                Document.map (MultiSigRequest.push_signature signature) multiSigRequest in
              let multiSigRequest :=
                Document.map (MultiSigRequest.set_status approved) multiSigRequest in
              (w, ApproveSaveSigned ledger requestId multiSigRequest signature)
      end
  | ApproveSaveExpired requestId multiSigRequest =>
      (update requestId
         {| pushed := None; assigned := Some rejected; execution := None |} w,
       Responded (Response.fail 400 "Request has expired"))
  | ApproveSaveSigned ledger requestId multiSigRequest signature =>
      (update requestId
         {| pushed := Some signature; assigned := Some approved; execution := None |} w,
       ApproveCreateToken ledger requestId multiSigRequest)
  | ApproveCreateToken ledger requestId multiSigRequest =>
      match createTokenWithMultiSig ledger requestId
              (MultiSigRequest.requestData (Document.paths multiSigRequest)) w with
      | (w, Throw message) => (w, caught requestId multiSigRequest message)
      | (w, Ok tokenResult) => (w, ApproveSaveToken requestId multiSigRequest tokenResult)
      end
  | ApproveSaveToken requestId multiSigRequest tokenResult =>
      match saveToken (tokenOf tokenResult) w with
      | Throw message => (w, caught requestId multiSigRequest message)
      | Ok w =>
          let multiSigRequest :=
            Document.map (MultiSigRequest.set_status executed) multiSigRequest in
          let multiSigRequest :=
            Document.map
              (MultiSigRequest.set_execution now (TokenResult.transactionId tokenResult))
              multiSigRequest in
          (w, ApproveSaveExecuted requestId multiSigRequest tokenResult now)
      end
  | ApproveSaveExecuted requestId multiSigRequest tokenResult executedAt =>
      let w :=
        update requestId
          {| pushed := None; assigned := Some executed;
             execution := Some (executedAt, TokenResult.transactionId tokenResult) |} w in
      let w := setTokenId (TokenResult.tokenId tokenResult) w in
      (w,
       Responded
         (Response.ok "Token creation approved and executed successfully"
            (TokenCreatedData (TokenResult.tokenId tokenResult)
                              (TokenResult.name tokenResult)
                              (TokenResult.symbol tokenResult)
                              (TokenResult.transactionId tokenResult)
                              (TokenResult.treasuryAccount tokenResult))))
  | ApproveSaveRejected requestId multiSigRequest message =>
      (update requestId
         {| pushed := None; assigned := Some rejected; execution := None |} w,
       Responded (Response.serverError "Failed to approve token creation" message))
  | Responded response => (w, Responded response)
  end.

(** A handler that nothing interrupts: its steps one after the other, all
    at one time. *)
Fixpoint finish (steps : nat) (now : Z) (t : Task) (w : World) : World * Task :=
  match steps with
  | O => (w, t)
  | S steps => let '(w, t) := resume now t w in finish steps now t w
  end.

(** The server: the state that the handlers share, and the handlers that
    have been started, each at the position at which it arrived. *)
Record Server : Type := mkServer {
  world : World;
  tasks : list Task
}.

Inductive Event : Type :=
| Arrives (c : Call)
| Resumes (task : nat).

Definition react (now : Z) (e : Event) (s : Server) : Server :=
  match e with
  | Arrives c => {| world := world s; tasks := tasks s ++ [start c] |}
  | Resumes i =>
      match tasks s !! i with
      | Some t =>
          let '(w, t) := resume now t (world s) in
          {| world := w; tasks := <[i := t]> (tasks s) |}
      | None => s
      end
  end.

Fixpoint play (events : list (Z * Event)) (s : Server) : Server :=
  match events with
  | [] => s
  | (now, e) :: events => play events (react now e s)
  end.

Definition boot (us : gmap string User.t) (service : InterestService) : Server :=
  {| world := initialWorld us service; tasks := [] |}.

(** The states that the server can reach, whatever the order in which the
    calls arrive and the handlers take their steps. *)
Definition reachable (s : Server) : Prop :=
  exists us service events, s = play events (boot us service).

(** A call served alone: it arrives and takes its steps, six at most,
    before anything else happens. *)
Definition alone (now : Z) (c : Call) (position : nat) : list (Z * Event) :=
  (now, Arrives c) :: replicate 6 (now, Resumes position).

Fixpoint oneByOne (calls : list (Z * Call)) (position : nat) : list (Z * Event) :=
  match calls with
  | [] => []
  | (now, c) :: calls => alone now c position ++ oneByOne calls (S position)
  end.

(** The identity of a registered manager. *)
Definition managerId (w : World) (userId : string) : Prop :=
  exists user, isManager w userId user.


(** A request whose first signer is followed by another one. *)
Definition secondSigner (r : MultiSigRequest.t) : Prop :=
  exists first rest other, signers r = first :: rest /\ other ∈ rest /\ other <> first.

(** What holds of a stored request whatever the handlers in flight. *)
Definition storedInv (w : World) (r : MultiSigRequest.t) : Prop :=
  MultiSigRequest.requiredSignatures r = 2%Z
  /\ signers r <> []
  /\ (forall userId, userId ∈ signers r -> managerId w userId)
  /\ (MultiSigRequest.status r = pending -> length (signers r) = 1)
  /\ (MultiSigRequest.status r = executed -> secondSigner r).

(** A request as the two calls that open one build it. *)
Definition opened (w : World) (r : MultiSigRequest.t) : Prop :=
  MultiSigRequest.requiredSignatures r = 2%Z
  /\ MultiSigRequest.status r = pending
  /\ exists userId, signers r = [userId] /\ managerId w userId.

Definition signedRequest (w : World) (requestId : nat) : Prop :=
  exists r, requests w !! requestId = Some r /\ secondSigner r.

(** What holds of a handler between two of its steps: the user it has
    found is a manager; the signature it is about to save is not that of
    the first signer of the request; once it has saved its signature, the
    request has a second signer. *)
Definition taskInv (w : World) (t : Task) : Prop :=
  match t with
  | InitiateFindToken _ userId user _ => isManager w userId user
  | InitiateSave r => opened w r
  | RateSave r _ => opened w r
  | ApproveFindRequest _ userId user _ => isManager w userId user
  | ApproveSaveSigned _ requestId _ signature =>
      managerId w (Signature.managerId signature)
      /\ exists r first rest,
           requests w !! requestId = Some r /\ signers r = first :: rest
           /\ Signature.managerId signature <> first
  | ApproveCreateToken _ requestId _ => signedRequest w requestId
  | ApproveSaveToken requestId _ _ => signedRequest w requestId
  | ApproveSaveExecuted requestId _ _ _ => signedRequest w requestId
  | _ => True
  end.

Definition worldInv (w : World) : Prop :=
  forall requestId r, requests w !! requestId = Some r -> storedInv w r.

Definition serverInv (s : Server) : Prop :=
  worldInv (world s) /\ (forall i t, tasks s !! i = Some t -> taskInv (world s) t).

(** One world after another: the users are the same, and every request
    is still there, under its id, with the signatures it had and maybe
    more after them. *)
Definition later (w w' : World) : Prop :=
  users w' = users w
  /\ forall requestId r,
       requests w !! requestId = Some r ->
       exists r' more,
         requests w' !! requestId = Some r' /\ signers r' = signers r ++ more.



End Async.

(** ** A deployment with three managers, and two approvals that overlap *)

Module Race.

Definition m3 : User.t :=
  {| User.email := "manager3@pezzy.rw"; User.hederaAccountId := Some "0.0.4867340";
     User.role := manager |}.

Definition accounts : gmap string User.t := <["u4" := m3]> Scenario.accounts.

(** Manager 1 initiates the token creation; managers 2 and 3 approve it,
    and each of their handlers finds the request before the other has saved
    its signature. *)
Definition events : list (Z * Async.Event) :=
  Async.alone 1000 (InitiateTokenCreation Scenario.env "u1" Scenario.body) 0
  ++ [ (2000, Async.Arrives
                (ApproveTokenCreation (Scenario.ledgerCreates "0.0.4867332" "tx-1") "u2" 0%nat));
       (2001, Async.Arrives
                (ApproveTokenCreation (Scenario.ledgerCreates "0.0.4867333" "tx-2") "u4" 0%nat));
       (2002, Async.Resumes 1); (2003, Async.Resumes 2);
       (2004, Async.Resumes 1); (2005, Async.Resumes 2);
       (2006, Async.Resumes 1); (2007, Async.Resumes 2);
       (2008, Async.Resumes 1); (2009, Async.Resumes 2);
       (2010, Async.Resumes 1); (2011, Async.Resumes 1);
       (2012, Async.Resumes 2); (2013, Async.Resumes 2) ]%Z.

Definition final : Async.Server :=
  Async.play events (Async.boot accounts (constructor None)).

(** The calls of [Scenario.creation], each served alone. *)
Definition served : Async.Server :=
  Async.play (Async.oneByOne Scenario.creation 0) (Async.boot Scenario.accounts (constructor None)).

End Race.

(** ** services/interestService.js, the other methods *)

Module DailyInterest.
Record t : Type := mk {
  principal : number;
  dailyInterest : number;
  monthlyInterest : number;
  yearlyInterest : number;
  dailyRate : number;
  annualRate : number
}.
End DailyInterest.

Module APY.
Record t : Type := mk {
  annualRate : number;
  apy : number;
  compoundingFrequency : string;
  periodsPerYear : number
}.
End APY.

Module Rates.
Record t : Type := mk {
  annualRate : number;
  dailyRate : number;
  apy : number;
  compoundingFrequency : string
}.
End Rates.

Module Holding.
(** An element of the array given to [calculatePortfolioInterest]. *)
Record t : Type := mk {
  id : string;
  amount : number;
  startDate : Z
}.
End Holding.

Module Portfolio.
(** [investments] pairs each [investmentId] with the calculation spread
    after it. *)
Record t : Type := mk {
  totalPrincipal : number;
  totalInterest : number;
  totalValue : number;
  numberOfInvestments : nat;
  annualRate : number;
  investments : list (string * Calc.t)
}.
End Portfolio.

Section InterestServiceMethods.
Import Number.
Local Open Scope Q_scope.

Definition calculateDailyInterest (this : InterestService) (principal : number)
    : DailyInterest.t :=
  let principalAmount := parseFloat principal in
  let dailyInterest := mul principalAmount (dailyRate this) in
  {| DailyInterest.principal := principalAmount;
     DailyInterest.dailyInterest := div (Math_round (mul dailyInterest (Num 100))) (Num 100);
     DailyInterest.monthlyInterest :=
       div (Math_round (mul (mul dailyInterest (Num 30)) (Num 100))) (Num 100);
     DailyInterest.yearlyInterest :=
       div (Math_round (mul (mul dailyInterest (Num 365)) (Num 100))) (Num 100);
     DailyInterest.dailyRate :=
       div (Math_round (mul (dailyRate this) (Num 1000000))) (Num 10000);
     DailyInterest.annualRate :=
       div (Math_round (mul (annualRate this) (Num 10000))) (Num 100) |}.

Definition calculateAPY (this : InterestService) : APY.t :=
  let apy := sub (Math_pow (add (Num 1) (dailyRate this)) 365) (Num 1) in
  {| APY.annualRate := div (Math_round (mul (annualRate this) (Num 10000))) (Num 100);
     APY.apy := div (Math_round (mul apy (Num 10000))) (Num 100);
     APY.compoundingFrequency := "Daily";
     APY.periodsPerYear := compoundingPeriodsPerYear this |}.

Definition getCurrentRates (this : InterestService) : Rates.t :=
  {| Rates.annualRate := div (Math_round (mul (annualRate this) (Num 10000))) (Num 100);
     Rates.dailyRate := div (Math_round (mul (dailyRate this) (Num 1000000))) (Num 10000);
     Rates.apy := APY.apy (calculateAPY this);
     Rates.compoundingFrequency := "Daily" |}.

(** [calculateProjectedInterest] reads the clock twice: [created] when it
    builds [futureDate], and [started] when it passes [new Date()] as the
    start of the period.  [setDate(getDate() + daysAhead)] moves the date
    by [daysAhead] days of the local calendar of [zone]; [daysAhead] is an
    integer. *)
Definition calculateProjectedInterest (this : InterestService) (zone : TimeZone)
    (principal : number) (daysAhead : Z) (created started : Z) : result Calc.t :=
  let futureDate := plusLocal zone created (daysAhead * millisecondsPerDay) in
  calculateInterest this principal started futureDate.

(** The callback of [investments.map] in [calculatePortfolioInterest], with
    the three running totals; [clock i] is the time that the default
    [endDate = new Date()] reads for the element at index [i]. *)
Fixpoint portfolioMap (this : InterestService) (clock : nat -> Z) (index : nat)
    (investments : list Holding.t) (totals : number * number * number)
    : result (number * number * number * list (string * Calc.t)) :=
  match investments with
  | [] => Ok (totals, [])
  | investment :: rest =>
      match calculateInterest this (Holding.amount investment)
              (Holding.startDate investment) (clock index) with
      | Throw message => Throw message
      | Ok calculation =>
          let '(totalPrincipal, totalInterest, totalValue) := totals in
          let totals :=
            (add totalPrincipal (Calc.principal calculation),
             add totalInterest (Calc.interest calculation),
             add totalValue (Calc.totalValue calculation)) in
          match portfolioMap this clock (S index) rest totals with
          | Throw message => Throw message
          | Ok (totals, details) =>
              Ok (totals, (Holding.id investment, calculation) :: details)
          end
      end
  end.

Definition calculatePortfolioInterest (this : InterestService) (clock : nat -> Z)
    (investments : list Holding.t) : result Portfolio.t :=
  match portfolioMap this clock 0 investments (Num 0, Num 0, Num 0) with
  | Ok (totalPrincipal, totalInterest, totalValue, investmentDetails) =>
      Ok {| Portfolio.totalPrincipal := div (Math_round (mul totalPrincipal (Num 100))) (Num 100);
            Portfolio.totalInterest := div (Math_round (mul totalInterest (Num 100))) (Num 100);
            Portfolio.totalValue := div (Math_round (mul totalValue (Num 100))) (Num 100);
            Portfolio.numberOfInvestments := length investments;
            Portfolio.annualRate :=
              div (Math_round (mul (annualRate this) (Num 10000))) (Num 100);
            Portfolio.investments := investmentDetails |}
  | Throw message => Throw ("Failed to calculate portfolio interest: " +:+ message)
  end.

End InterestServiceMethods.

(** Rounding a rational to two decimals, as [Math.round(x * 100) / 100]
    does on a finite number. *)
Definition roundTo2 (x : Q) : Q := (inject_Z (Qfloor (x * 100 + (1 # 2))) / 100)%Q.

(** A service as the constructor and [updateInterestRate] leave it: the
    daily rate is the annual rate over 365. *)
Definition ratesOf (this : InterestService) (a : Q) : Prop :=
  annualRate this = Num a /\ dailyRate this = Num (a / 365)%Q
  /\ compoundingPeriodsPerYear this = Num 365%Q.

Definition portfolioError : string :=
  "Failed to calculate portfolio interest: Failed to calculate interest: End date cannot be before start date".

(** A holding whose amount is not [<= 0] and whose start date is after the
    time read for it. *)
Definition startsInFuture (clock : nat -> Z) (investments : list Holding.t) : Prop :=
  exists (i : nat) (h : Holding.t),
    investments !! i = Some h
    /\ Number.le (Holding.amount h) (Num 0%Q) = false
    /\ (clock i < Holding.startDate h)%Z.

(** ** controllers/managerController.js, the two listings *)

(** A stored request with its id and, for the populated [createdBy], the
    email of its creator when that user exists. *)
Definition Listed : Type := nat * MultiSigRequest.t * option string.

Inductive Listing : Type :=
| Refused (response : Response.t)
| Pending (documents : list Listed)
| Page (documents : list Listed) (total page pages : Z).

Module managerListings.

Definition populate (w : World) (entry : nat * MultiSigRequest.t) : Listed :=
  (entry, User.email <$> users w !! MultiSigRequest.createdBy (snd entry)).

(** The collection with the ids, in the order of [sort({ createdAt: -1 })]:
    the documents were created in the order of their ids. *)
Definition newestFirst (w : World) : list (nat * MultiSigRequest.t) :=
  reverse (imap (fun requestId r => (requestId, r)) (requests w)).

(** The filter of [getPendingRequests]: pending, [expiresAt] after [now],
    and no signature of [userId]. *)
Definition awaits (now : Z) (userId : string) (r : MultiSigRequest.t) : bool :=
  Status_eqb (MultiSigRequest.status r) pending
  && (now <? MultiSigRequest.expiresAt r)%Z
  && negb (existsb (fun sig => String.eqb (Signature.managerId sig) userId)
                   (MultiSigRequest.signatures r)).

Definition getPendingRequests (now : Z) (userId : string) (w : World) : Listing :=
  if managerController.notManager (users w !! userId) then
    Refused (Response.fail 403 "Only managers can view pending requests")
  else
    let pendingRequests :=
      List.filter (fun entry => awaits now userId (snd entry)) (newestFirst w) in
    Pending (populate w <$> pendingRequests).

(** [query.status = status] when the parameter is a non-empty string. *)
Definition matches (status : option string) (r : MultiSigRequest.t) : bool :=
  match status with
  | None => true
  | Some s =>
      if String.eqb s "" then true
      else String.eqb (Status_toString (MultiSigRequest.status r)) s
  end.

(** [Math.ceil(total / limit)] for a positive [limit]. *)
Definition pagesOf (total : Z) (limit : positive) : Z :=
  Qceiling (inject_Z total / inject_Z (Zpos limit)).

(** [getAllRequests] for a [limit] and a [page] that are positive integers
    ([50] and [1] when the query leaves them out). *)
Definition getAllRequests (userId : string) (status : option string)
    (limit page : option positive) (w : World) : Listing :=
  if managerController.notManager (users w !! userId) then
    Refused (Response.fail 403 "Only managers can view requests")
  else
    let limit := default 50%positive limit in
    let page := default 1%positive page in
    let found := List.filter (fun entry => matches status (snd entry)) (newestFirst w) in
    let skipped := drop (Z.to_nat ((Zpos page - 1) * Zpos limit)) found in
    let requests := take (Pos.to_nat limit) skipped in
    let total := Z.of_nat (length found) in
    Page (populate w <$> requests) total (Zpos page) (pagesOf total limit).

End managerListings.


(** The bounds that the signatures of a stored request keep. *)
Definition signaturesInv (r : MultiSigRequest.t) : Prop :=
  MultiSigRequest.requiredSignatures r = 2%Z
  /\ NoDup (signers r)
  /\ (1 <= length (MultiSigRequest.signatures r) <= 2)%nat
  /\ (MultiSigRequest.status r = pending -> length (MultiSigRequest.signatures r) = 1%nat).

(** The documents that a listing answers. *)
Definition documentsOf (l : Listing) : list Listed :=
  match l with
  | Refused _ => []
  | Pending documents => documents
  | Page documents _ _ _ => documents
  end.

(** ** controllers/investmentController.js

    The controller works on the users, the investments and the
    transactions, on [hederaService] (its [tokenId], and the ledger behind
    [mintTokens]) and on [interestService]. *)

Inductive Piece : Type :=
| Text (s : string)
| Value (n : number)
| Ref (id : nat).

Module Account.
(** The paths of [userSchema] that the controller reads or writes. *)
Record t : Type := mk {
  email : string;
  hederaAccountId : option string;
  hederaPrivateKey : option string;
  tokenAssociated : bool
}.
End Account.

Inductive InvestmentStatus : Type := active | redeemed | pendingInvestment.

Module Investment.
Record t : Type := mk {
  userId : string;
  amountRWF : number;
  tokenAmount : number;
  investmentDate : Z;
  interestAccrued : number;
  interestRate : number;
  status : InvestmentStatus;
  hederaTransactionId : list Piece;
  redemptionDate : option Z;
  redemptionAmount : option number;
  redemptionTransactionId : option (list Piece)
}.
End Investment.

(** What went wrong: the message of an error thrown by a service, or the
    path that the validation of a document rejected. *)
Inductive Failure : Type :=
| Thrown (message : string)
| Invalid (path : string).

Inductive TransactionType : Type := deposit | withdrawal | interest_payment | fee.
Inductive TransactionStatus : Type := txPending | completed | failed | cancelled.

Module Transaction.
Record t : Type := mk {
  userId : string;
  investmentId : option nat;
  type : TransactionType;
  amountRWF : number;
  tokenAmount : number;
  paymentMethod : option string;
  paymentReference : option string;
  status : TransactionStatus;
  hederaTransactionId : option (list Piece);
  description : list Piece;
  metadata : option Failure;
  completedDate : option Z
}.

Definition complete (investment : nat) (transactionId : list Piece) (at_ : Z) (tx : t) : t :=
  mk (userId tx) (Some investment) (type tx) (amountRWF tx) (tokenAmount tx)
     (paymentMethod tx) (paymentReference tx) completed (Some transactionId)
     (description tx) (metadata tx) (Some at_).

Definition fail (error : Failure) (tx : t) : t :=
  mk (userId tx) (investmentId tx) (type tx) (amountRWF tx) (tokenAmount tx)
     (paymentMethod tx) (paymentReference tx) failed (hederaTransactionId tx)
     (description tx) (Some error) (completedDate tx).
End Transaction.

Inductive ReplyData : Type :=
| Nothing
| Invested (investmentId : nat) (amountRWF tokenAmount : number) (transactionId : list Piece)
    (investmentDate : Z) (interestRate : number)
| Redeemed (investmentId : nat) (principal interestEarned totalAmount tokensRedeemed : number)
    (transactionId : list Piece) (redemptionDate : Z)
| Associated (email : string) (hederaAccountId : string).

Module Reply.
Record t : Type := mk {
  statusCode : Z;
  success : bool;
  message : string;
  error : option Failure;
  data : ReplyData
}.
Definition refuse (code : Z) (message : string) : t := mk code false message None Nothing.
Definition crash (message : string) (error : Failure) : t :=
  mk 500 false message (Some error) Nothing.
Definition ok (message : string) (data : ReplyData) : t := mk 200 true message None data.
End Reply.

Record Fund : Type := mkFund {
  accounts : gmap string Account.t;
  investments : list Investment.t;
  transactions : list Transaction.t;
  fundTokenId : option string;
  fundService : InterestService;
  minted : list number
}.

(** The ledger's answer to one mint of an amount: a transaction id, or the
    message of its failure. *)
Definition Mint : Type := number -> result string.

Module investmentController.

(** The [enum] of [paymentMethod], which is [required]. *)
Definition validPaymentMethod (paymentMethod : option string) : bool :=
  match paymentMethod with
  | Some m => String.eqb m "mtn_momo" || String.eqb m "airtel_money"
              || String.eqb m "bank_transfer"
  | None => false
  end.

(** [!s] on a string that may be absent. *)
Definition missing (s : option string) : bool :=
  match s with
  | Some s => String.eqb s ""
  | None => true
  end.

(** A [Number] path does not cast [NaN]: the document is not saved. *)
Definition isNaN (a : number) : bool :=
  match a with
  | NaN => true
  | _ => false
  end.

(** [hederaService.mintTokens(amount)] *)
Definition mintTokens (mint : Mint) (amount : number) (f : Fund) : Fund * result string :=
  if missing (fundTokenId f) then
    (f, Throw "Token ID not set. Create token first.")
  else
    (mkFund (accounts f) (investments f) (transactions f) (fundTokenId f) (fundService f)
            (minted f ++ [amount]),
     match mint amount with
     | Ok transactionId => Ok transactionId
     | Throw message => Throw ("Failed to mint tokens: " +:+ message)
     end).

Definition set_transactions (ts : list Transaction.t) (f : Fund) : Fund :=
  mkFund (accounts f) (investments f) ts (fundTokenId f) (fundService f) (minted f).

Definition set_investments (invs : list Investment.t) (f : Fund) : Fund :=
  mkFund (accounts f) invs (transactions f) (fundTokenId f) (fundService f) (minted f).

(** [buyTokens]; [decimals] is [parseInt(process.env.TOKEN_DECIMALS || 2)],
    an integer, and [amountRWF] is the number of the JSON body, [None] when
    the body has no such field.  [now] is the time that [Date.now()] and
    the two [new Date()] of one call read, taken as one reading. *)
Definition buyTokens (decimals : Z) (mint : Mint) (now : Z) (userId : string)
    (amountRWF : option number) (paymentMethod paymentReference : option string)
    (f : Fund) : Fund * Reply.t :=
  match amountRWF with
  | None => (f, Reply.refuse 400 "Invalid investment amount")
  | Some amountRWF =>
      if Number.falsy amountRWF || Number.le amountRWF (Num 0) then
        (f, Reply.refuse 400 "Invalid investment amount")
      else
        match accounts f !! userId with
        | None => (f, Reply.refuse 404 "User not found")
        | Some user =>
            if missing (Account.hederaAccountId user) then
              (f, Reply.refuse 400 "Please set up your Hedera account first")
            else if negb (Account.tokenAssociated user) then
              (f, Reply.refuse 400 "Please associate the token with your account first")
            else
              let tokenAmount :=
                Number.Math_floor
                  (Number.mul amountRWF (Number.Math_pow (Num 10) decimals)) in
              let transaction :=
                {| Transaction.userId := userId;
                   Transaction.investmentId := None;
                   Transaction.type := deposit;
                   Transaction.amountRWF := amountRWF;
                   Transaction.tokenAmount := tokenAmount;
                   Transaction.paymentMethod := paymentMethod;
                   Transaction.paymentReference := paymentReference;
                   Transaction.status := txPending;
                   Transaction.hederaTransactionId := None;
                   Transaction.description :=
                     [Text "Investment of "; Value amountRWF; Text " RWF"];
                   Transaction.metadata := None;
                   Transaction.completedDate := None |} in
              if negb (validPaymentMethod paymentMethod) then
                (f, Reply.crash "Failed to process investment" (Invalid "paymentMethod"))
              else
                let transactionId := length (transactions f) in
                let f := set_transactions (transactions f ++ [transaction]) f in
                match mintTokens mint tokenAmount f with
                | (f, Throw message) =>
                    (set_transactions
                       (<[transactionId := Transaction.fail (Thrown message) transaction]>
                          (transactions f)) f,
                     Reply.crash "Failed to process investment" (Thrown message))
                | (f, Ok _) =>
                    let transferId :=
                      [Text "mock-transfer-"; Value (Num (inject_Z now))] in
                    let currentRates := getCurrentRates (fundService f) in
                    if isNaN (Rates.annualRate currentRates) then
                      (set_transactions
                         (<[transactionId :=
                              Transaction.fail (Invalid "interestRate") transaction]>
                            (transactions f)) f,
                       Reply.crash "Failed to process investment" (Invalid "interestRate"))
                    else
                      let investment :=
                        {| Investment.userId := userId;
                           Investment.amountRWF := amountRWF;
                           Investment.tokenAmount := tokenAmount;
                           Investment.investmentDate := now;
                           Investment.interestAccrued := Num 0;
                           Investment.interestRate := Rates.annualRate currentRates;
                           Investment.status := active;
                           Investment.hederaTransactionId := transferId;
                           Investment.redemptionDate := None;
                           Investment.redemptionAmount := None;
                           Investment.redemptionTransactionId := None |} in
                      let investmentId := length (investments f) in
                      let f := set_investments (investments f ++ [investment]) f in
                      let f :=
                        set_transactions
                          (<[transactionId :=
                               Transaction.complete investmentId transferId now transaction]>
                             (transactions f)) f in
                      (f,
                       Reply.ok "Investment successful"
                         (Invested investmentId amountRWF tokenAmount transferId now
                            (Rates.annualRate currentRates)))
                end
        end
  end.

(** [Investment.findOne({ _id, userId, status: 'active' })] *)
Definition findActive (investmentId : nat) (userId : string) (f : Fund)
    : option Investment.t :=
  match investments f !! investmentId with
  | Some investment =>
      if String.eqb (Investment.userId investment) userId then
        match Investment.status investment with
        | active => Some investment
        | _ => None
        end
      else None
  | None => None
  end.

Definition redeem (at_ : Z) (amount interest : number) (transactionId : list Piece)
    (i : Investment.t) : Investment.t :=
  Investment.mk (Investment.userId i) (Investment.amountRWF i) (Investment.tokenAmount i)
    (Investment.investmentDate i) interest (Investment.interestRate i) redeemed
    (Investment.hederaTransactionId i) (Some at_) (Some amount) (Some transactionId).

(** [redeemTokens]; the transfer and the burn are the mock objects of the
    source, so in its inner [try] only [investment.save()] can fail, when
    the interest is [NaN].  [now] is the one reading taken for the clock
    of the call, as in [buyTokens]. *)
Definition redeemTokens (now : Z) (userId : string) (investmentId : option nat)
    (tokenAmount : option number) (withdrawalMethod : option string)
    (f : Fund) : Fund * Reply.t :=
  match investmentId with
  | None => (f, Reply.refuse 400 "Investment ID is required")
  | Some investmentId =>
      match findActive investmentId userId f with
      | None => (f, Reply.refuse 404 "Investment not found or already redeemed")
      | Some investment =>
          match calculateInterest (fundService f) (Investment.amountRWF investment)
                  (Investment.investmentDate investment) now with
          | Throw message => (f, Reply.crash "Failed to process redemption" (Thrown message))
          | Ok interestCalc =>
              let totalValueRWF := Calc.totalValue interestCalc in
              let tokensToRedeem :=
                managerController.orNumber tokenAmount (Investment.tokenAmount investment) in
              match accounts f !! userId with
              | None => (f, Reply.refuse 400 "User Hedera account not properly configured")
              | Some user =>
                  if missing (Account.hederaPrivateKey user) then
                    (f, Reply.refuse 400 "User Hedera account not properly configured")
                  else
                    let paymentMethod :=
                      managerController.orString withdrawalMethod (Some "mtn_momo") in
                    let transaction :=
                      {| Transaction.userId := userId;
                         Transaction.investmentId := Some investmentId;
                         Transaction.type := withdrawal;
                         Transaction.amountRWF := totalValueRWF;
                         Transaction.tokenAmount := tokensToRedeem;
                         Transaction.paymentMethod := paymentMethod;
                         Transaction.paymentReference := None;
                         Transaction.status := txPending;
                         Transaction.hederaTransactionId := None;
                         Transaction.description :=
                           [Text "Redemption of investment "; Ref investmentId];
                         Transaction.metadata := None;
                         Transaction.completedDate := None |} in
                    if isNaN totalValueRWF then
                      (f, Reply.crash "Failed to process redemption" (Invalid "amountRWF"))
                    else if negb (validPaymentMethod paymentMethod) then
                      (f, Reply.crash "Failed to process redemption" (Invalid "paymentMethod"))
                    else
                      let transactionId := length (transactions f) in
                      let f := set_transactions (transactions f ++ [transaction]) f in
                      let transferId := [Text "mock-redeem-"; Value (Num (inject_Z now))] in
                      if isNaN (Calc.interest interestCalc) then
                        (set_transactions
                           (<[transactionId :=
                                Transaction.fail (Invalid "interestAccrued") transaction]>
                              (transactions f)) f,
                         Reply.crash "Failed to process redemption"
                           (Invalid "interestAccrued"))
                      else
                        let f :=
                          set_investments
                            (<[investmentId :=
                                 redeem now totalValueRWF (Calc.interest interestCalc)
                                   transferId investment]> (investments f)) f in
                        let f :=
                          set_transactions
                            (<[transactionId :=
                                 Transaction.complete investmentId transferId now transaction]>
                               (transactions f)) f in
                        (f,
                         Reply.ok "Redemption successful"
                           (Redeemed investmentId (Investment.amountRWF investment)
                              (Calc.interest interestCalc) totalValueRWF tokensToRedeem
                              transferId now))
              end
          end
      end
  end.

Definition associateToken (userId : string) (f : Fund) : Fund * Reply.t :=
  match accounts f !! userId with
  | None => (f, Reply.refuse 404 "User not found")
  | Some user =>
      if missing (Account.hederaAccountId user) then
        (f, Reply.refuse 400 "Please create your Hedera account first")
      else if Account.tokenAssociated user then
        (f, Reply.refuse 400 "Token is already associated with your account")
      else
        let user :=
          Account.mk (Account.email user) (Account.hederaAccountId user)
            (Account.hederaPrivateKey user) true in
        (mkFund (<[userId := user]> (accounts f)) (investments f) (transactions f)
                (fundTokenId f) (fundService f) (minted f),
         Reply.ok "Token associated successfully! You can now invest."
           (Associated (Account.email user) (default "" (Account.hederaAccountId user))))
  end.

End investmentController.

Inductive Order : Type :=
| BuyTokens (decimals : Z) (mint : Mint) (userId : string) (amountRWF : option number)
    (paymentMethod paymentReference : option string)
| RedeemTokens (userId : string) (investmentId : option nat) (tokenAmount : option number)
    (withdrawalMethod : option string)
| AssociateToken (userId : string).

Definition serve (now : Z) (o : Order) (f : Fund) : Fund * Reply.t :=
  match o with
  | BuyTokens decimals mint userId amountRWF paymentMethod paymentReference =>
      investmentController.buyTokens decimals mint now userId amountRWF paymentMethod
        paymentReference f
  | RedeemTokens userId investmentId tokenAmount withdrawalMethod =>
      investmentController.redeemTokens now userId investmentId tokenAmount
        withdrawalMethod f
  | AssociateToken userId => investmentController.associateToken userId f
  end.

Fixpoint serveAll (orders : list (Z * Order)) (f : Fund) : Fund :=
  match orders with
  | [] => f
  | (now, o) :: orders => serveAll orders (fst (serve now o f))
  end.

(** A user who may invest: known, with a Hedera account and the token
    associated. *)
Definition canInvest (f : Fund) (userId : string) (user : Account.t) : Prop :=
  accounts f !! userId = Some user
  /\ investmentController.missing (Account.hederaAccountId user) = false
  /\ Account.tokenAssociated user = true.

(** What the controller keeps of the transactions and the investments: no
    transaction is left pending, a completed one points to an investment of
    the same user, and no investment is pending. *)
Definition settled (f : Fund) : Prop :=
  (forall i tx, transactions f !! i = Some tx -> Transaction.status tx <> txPending)
  /\ (forall i tx,
        transactions f !! i = Some tx -> Transaction.status tx = completed ->
        exists id inv,
          Transaction.investmentId tx = Some id
          /\ investments f !! id = Some inv
          /\ Investment.userId inv = Transaction.userId tx)
  /\ (forall id inv,
        investments f !! id = Some inv -> Investment.status inv <> pendingInvestment).

Definition emptyFund (accounts : gmap string Account.t) (tokenId : option string)
    (service : InterestService) : Fund :=
  {| accounts := accounts; investments := []; transactions := [];
     fundTokenId := tokenId; fundService := service; minted := [] |}.

Module Investors.

Definition alice : Account.t :=
  {| Account.email := "alice@example.rw"; Account.hederaAccountId := Some "0.0.5001";
     Account.hederaPrivateKey := Some "302e-alice"; Account.tokenAssociated := true |}.

Definition bob : Account.t :=
  {| Account.email := "bob@example.rw"; Account.hederaAccountId := Some "0.0.5002";
     Account.hederaPrivateKey := Some "302e-bob"; Account.tokenAssociated := false |}.

Definition registry : gmap string Account.t := <["a" := alice]> (<["b" := bob]> ∅).

Definition mints : Mint := fun _ => Ok "0.0.4867329@1700000000.000000001".

(** The fund once the token exists, and before. *)
Definition open : Fund := emptyFund registry (Some "0.0.4867332") (constructor None).
Definition unready : Fund := emptyFund registry None (constructor None).

(** An investment of alice, and the fund that holds it. *)
Definition holding : Investment.t :=
  {| Investment.userId := "a";
     Investment.amountRWF := Num 100000;
     Investment.tokenAmount := Num 10000000;
     Investment.investmentDate := 1700000000000;
     Investment.interestAccrued := Num 0;
     Investment.interestRate := Num 8.5;
     Investment.status := active;
     Investment.hederaTransactionId := [Text "mock-transfer-"; Value (Num 1700000000000)];
     Investment.redemptionDate := None;
     Investment.redemptionAmount := None;
     Investment.redemptionTransactionId := None |}.

Definition invested : Fund :=
  {| accounts := registry; investments := [holding]; transactions := [];
     fundTokenId := Some "0.0.4867332"; fundService := constructor None;
     minted := [Num 10000000] |}.

End Investors.

(** ** controllers/authController.js: the validation helpers

    A JavaScript string is its sequence of UTF-16 code units; an argument
    that is [undefined] or [null] is [None]. *)

Definition jsString : Type := list N.

Definition codes (s : string) : jsString :=
  map Ascii.N_of_ascii (String.list_ascii_of_string s).

Module authController.

(** [\s]: the white space and the line terminators of ECMAScript. *)
Definition isWhiteSpace (c : N) : bool :=
  ((9 <=? c) && (c <=? 13) || (c =? 32) || (c =? 160) || (c =? 5760)
   || (8192 <=? c) && (c <=? 8202) || (c =? 8232) || (c =? 8233) || (c =? 8239)
   || (c =? 8287) || (c =? 12288) || (c =? 65279))%N.

(** [\d] *)
Definition isDigit (c : N) : bool := ((48 <=? c) && (c <=? 57))%N.

(** [s.replace(/\s/g, '')] and [s.replace(/[\s-]/g, '')] *)
Definition withoutSpaces (s : jsString) : jsString :=
  List.filter (fun c => negb (isWhiteSpace c)) s.

Definition withoutSpacesAndHyphens (s : jsString) : jsString :=
  List.filter (fun c => negb (isWhiteSpace c || (c =? 45)%N)) s.

(** What is left of [s] after [prefix], when [s] starts with it. *)
Fixpoint afterPrefix (prefix s : jsString) : option jsString :=
  match prefix, s with
  | [], _ => Some s
  | p :: prefix, c :: s => if (p =? c)%N then afterPrefix prefix s else None
  | _ :: _, [] => None
  end.

Definition startsWith (s prefix : jsString) : bool :=
  match afterPrefix prefix s with
  | Some _ => true
  | None => false
  end.

(** [/^\d{16}$/] *)
Definition sixteenDigits (s : jsString) : bool :=
  (length s =? 16)%nat && forallb isDigit s.

Definition validateNationalId (nationalId : option jsString) : bool :=
  match nationalId with
  | None | Some [] => false
  | Some nationalId => sixteenDigits (withoutSpaces nationalId)
  end.

(** [7[2-9]\d{7}$] *)
Definition subscriber (s : jsString) : bool :=
  match s with
  | seven :: c :: digits =>
      (seven =? 55)%N && ((50 <=? c) && (c <=? 57))%N
      && (length digits =? 7)%nat && forallb isDigit digits
  | _ => false
  end.

(** The strings that [(\+?250|0)?] matches. *)
Definition prefixes : list jsString := [codes "+250"; codes "250"; codes "0"; []].

(** [/^(\+?250|0)?7[2-9]\d{7}$/]: the pattern is tied to both ends, so it
    matches when one of the prefixes is followed by a subscriber number
    and nothing else. *)
Definition matchesPhone (s : jsString) : bool :=
  existsb
    (fun prefix =>
       match afterPrefix prefix s with
       | Some rest => subscriber rest
       | None => false
       end)
    prefixes.

Definition validatePhoneNumber (phoneNumber : option jsString) : bool :=
  match phoneNumber with
  | None | Some [] => false
  | Some phoneNumber => matchesPhone (withoutSpacesAndHyphens phoneNumber)
  end.

Definition normalizePhoneNumber (phoneNumber : jsString) : jsString :=
  let cleaned := withoutSpacesAndHyphens phoneNumber in
  if startsWith cleaned (codes "07") then codes "+25" ++ cleaned
  else if startsWith cleaned (codes "7") then codes "+250" ++ cleaned
  else if startsWith cleaned (codes "250") then codes "+" ++ cleaned
  else if negb (startsWith cleaned (codes "+")) then codes "+" ++ cleaned
  else cleaned.

End authController.

(** ** Properties of the interest engine *)

Section InterestFacts.
Import Number.
Local Open Scope Q_scope.

Lemma isZero_true (q : Q) : q == 0 -> isZero q = true.
Proof. intros H. unfold isZero. now apply Qeq_bool_iff. Qed.

Lemma isZero_false (q : Q) : ~ q == 0 -> isZero q = false.
Proof.
  intros H. unfold isZero. destruct (Qeq_bool q 0) eqn:E; [|reflexivity].
  apply Qeq_bool_iff in E. contradiction.
Qed.

Lemma add_Num (a b : Q) : add (Num a) (Num b) = Num (a + b).
Proof. reflexivity. Qed.

Lemma sub_Num (a b : Q) : sub (Num a) (Num b) = Num (a - b).
Proof. reflexivity. Qed.

Lemma mul_Num (a b : Q) : mul (Num a) (Num b) = Num (a * b).
Proof. reflexivity. Qed.

Lemma div_Num (a b : Q) : ~ b == 0 -> div (Num a) (Num b) = Num (a / b).
Proof. intros H. unfold div. now rewrite (isZero_false b H). Qed.

Lemma div_zero_zero (a b : Q) : a == 0 -> b == 0 -> div (Num a) (Num b) = NaN.
Proof. intros Ha Hb. unfold div. now rewrite (isZero_true b Hb), (isZero_true a Ha). Qed.

Lemma Math_round_Num (q : Q) :
  Math_round (Num q) = Num (inject_Z (Qfloor (q + (1 # 2)))).
Proof. reflexivity. Qed.

Lemma Math_pow_Num (q : Q) (n : Z) : (0 <= n)%Z -> Math_pow (Num q) n = Num (q ^ n).
Proof.
  intros Hn. unfold Math_pow. destruct n as [|p|p]; try reflexivity. lia.
Qed.

Lemma Math_pow_zero (base : number) : Math_pow base 0 = Num 1.
Proof. reflexivity. Qed.

Lemma cents_Num (x : Q) :
  cents (Num x) = Num (inject_Z (Qfloor (x * 100 + (1 # 2))) / 100).
Proof.
  unfold cents. rewrite mul_Num, Math_round_Num. apply div_Num. discriminate.
Qed.

Lemma cents_close (x : Q) :
  Qabs (inject_Z (Qfloor (x * 100 + (1 # 2))) / 100 - x) <= 1 # 200.
Proof.
  pose proof (Qfloor_le (x * 100 + (1 # 2))) as Hle.
  pose proof (Qlt_floor (x * 100 + (1 # 2))) as Hlt.
  rewrite inject_Z_plus in Hlt.
  change (inject_Z 1) with 1 in Hlt.
  set (f := inject_Z (Qfloor (x * 100 + (1 # 2)))) in *.
  apply Qabs_Qle_condition.
  assert (E : f / 100 == f * (1 # 100)) by (unfold Qdiv; reflexivity).
  rewrite E. split; lra.
Qed.

Lemma daysBetween_div (startDate endDate : Z) :
  daysBetween startDate endDate = ((endDate - startDate) / 86400000)%Z.
Proof.
  unfold daysBetween, millisecondsPerDay.
  change (inject_Z (1000 * 60 * 60 * 24)) with (86400000 # 1).
  unfold Qdiv, Qmult, Qinv, inject_Z, Qfloor. cbn [Qnum Qden].
  f_equal; lia.
Qed.

Lemma daysBetween_neg (startDate endDate : Z) :
  (daysBetween startDate endDate <? 0)%Z = (endDate <? startDate)%Z.
Proof.
  rewrite daysBetween_div.
  destruct (Z.ltb_spec endDate startDate) as [H|H].
  - apply Z.ltb_lt. apply Z.div_lt_upper_bound; lia.
  - apply Z.ltb_ge. apply Z.div_pos; lia.
Qed.

End InterestFacts.

(** ** Rounding to binary64 *)

Section DoubleFacts.
Import Double.
Local Open Scope Q_scope.

Lemma nearestEven_close (x : Q) :
  Qabs (inject_Z (nearestEven x) - x) <= 1 # 2.
Proof.
  pose proof (Qfloor_le x) as Hle.
  pose proof (Qlt_floor x) as Hlt.
  rewrite inject_Z_plus in Hlt. change (inject_Z 1) with 1 in Hlt.
  unfold nearestEven. cbv zeta.
  destruct (Qcompare (x - inject_Z (Qfloor x)) (1 # 2)) eqn:Hc.
  - apply Qeq_alt in Hc.
    destruct (Z.even (Qfloor x)).
    + apply Qabs_Qle_condition. split; lra.
    + rewrite inject_Z_plus. change (inject_Z 1) with 1.
      apply Qabs_Qle_condition. split; lra.
  - apply Qlt_alt in Hc. apply Qabs_Qle_condition. split; lra.
  - apply Qgt_alt in Hc. rewrite inject_Z_plus. change (inject_Z 1) with 1.
    apply Qabs_Qle_condition. split; lra.
Qed.

Lemma two_ne_0 : ~ 2 == 0.
Proof. discriminate. Qed.

Lemma pow2_pos (k : Z) : 0 < 2 ^ k.
Proof. now apply Qpower_0_lt. Qed.

Lemma exponent_le (q : Q) : ~ q == 0 -> 2 ^ exponent q <= Qabs q.
Proof.
  intros Hq. unfold exponent. cbv zeta.
  destruct (Qle_bool _ (Qabs q)) eqn:Hc; [now apply Qle_bool_iff|].
  clear Hc. destruct q as [n d]. cbn [Qnum Qden].
  assert (Hn : (0 < Z.abs n)%Z).
  { destruct n; [exfalso; apply Hq; reflexivity | lia | lia]. }
  pose proof (Z.log2_spec _ Hn) as [Ha _].
  pose proof (Z.log2_spec (Z.pos d) ltac:(lia)) as [_ Hb].
  pose proof (Z.log2_nonneg (Z.abs n)) as Ha0.
  pose proof (Z.log2_nonneg (Z.pos d)) as Hb0.
  set (a := Z.log2 (Z.abs n)) in *. set (b := Z.log2 (Z.pos d)) in *.
  replace (a - b - 1)%Z with (a - (Z.succ b))%Z by lia.
  rewrite (Qpower_minus 2 a (Z.succ b) two_ne_0).
  rewrite <- (Zpower_Qpower 2 a Ha0), <- (Zpower_Qpower 2 (Z.succ b)) by lia.
  change (Qabs (n # d)) with (Z.abs n # d).
  rewrite (Qmake_Qdiv (Z.abs n) d).
  assert (H1 : inject_Z (2 ^ a) <= inject_Z (Z.abs n)) by (rewrite <- Zle_Qle; exact Ha).
  assert (H2 : inject_Z (Z.pos d) <= inject_Z (2 ^ Z.succ b)) by (rewrite <- Zle_Qle; lia).
  assert (H3 : 0 < inject_Z (Z.pos d)) by (rewrite <- (Zlt_Qlt 0); lia).
  assert (H4 : 0 < inject_Z (2 ^ a)).
  { change 0 with (inject_Z 0). rewrite <- Zlt_Qlt. apply Z.pow_pos_nonneg; lia. }
  apply Qle_shift_div_l; [exact H3|].
  apply Qle_trans with (inject_Z (2 ^ a) / inject_Z (2 ^ Z.succ b) * inject_Z (2 ^ Z.succ b)).
  - apply Qmult_le_l; [|exact H2].
    apply Qlt_shift_div_l; lra.
  - field_simplify; [lra | lra].
Qed.

Lemma pow2_half (k : Z) : 2 ^ k * (1 # 2) == 2 ^ (k - 1).
Proof. rewrite (Qpower_minus 2 k 1 two_ne_0). reflexivity. Qed.

(** The error of rounding to the nearest binary64 number. *)
Lemma round64_error (q : Q) :
  Qabs q <= 2 ^ 1023 ->
  exists r,
    round64 q = Num r
    /\ Qabs (r - q) <= u * Qabs q + eta
    /\ (2 ^ (-1022) <= Qabs q -> Qabs (r - q) <= u * Qabs q).
Proof.
  intros Hmax. unfold round64.
  destruct (Qeq_bool q 0) eqn:Hz.
  { apply Qeq_bool_iff in Hz. exists 0. split; [reflexivity|].
    assert (H0 : Qabs (0 - q) == 0) by (rewrite Hz; reflexivity).
    assert (H1 : Qabs q == 0) by (rewrite Hz; reflexivity).
    rewrite H0, H1. split; [vm_compute; discriminate|].
    intros _. rewrite Qmult_0_r. apply Qle_refl. }
  assert (Hq : ~ q == 0).
  { intros H. apply Qeq_bool_iff in H. congruence. }
  cbv zeta.
  set (k := Z.max (exponent q - 52) (-1074)).
  set (x := q / 2 ^ k).
  pose proof (nearestEven_close x) as Hm.
  set (m := inject_Z (nearestEven x)) in *.
  pose proof (pow2_pos k) as Hk.
  assert (Hv : m * 2 ^ k - q == (m - x) * 2 ^ k).
  { unfold x. field. lra. }
  assert (Hh : Qabs (m * 2 ^ k - q) <= 2 ^ (k - 1)).
  { rewrite Hv, Qabs_Qmult, (Qabs_pos (2 ^ k)) by lra.
    rewrite <- pow2_half. rewrite (Qmult_comm (2 ^ k)).
    apply Qmult_le_compat_r; [exact Hm | lra]. }
  pose proof (Qabs_nonneg q) as Hq0.
  assert (Hu0 : 0 < u) by apply pow2_pos.
  assert (He0 : 0 < eta) by apply pow2_pos.
  assert (Hbound : 2 ^ (k - 1) <= u * Qabs q + eta
                   /\ (2 ^ (-1022) <= Qabs q -> 2 ^ (k - 1) <= u * Qabs q)).
  { destruct (Z.max_spec (exponent q - 52) (-1074)) as [[Hlt Hmaxk]|[Hle Hmaxk]];
      fold k in Hmaxk; rewrite Hmaxk.
    - change (2 ^ (-1074 - 1)) with eta. split.
      + assert (0 <= u * Qabs q) by (apply Qmult_le_0_compat; lra). lra.
      + intros Hn. change eta with (u * 2 ^ (-1022)).
        apply Qmult_le_l; [exact Hu0 | exact Hn].
    - assert (Hr : 2 ^ (exponent q - 52 - 1) <= u * Qabs q).
      { replace (exponent q - 52 - 1)%Z with (-53 + exponent q)%Z by lia.
        rewrite (Qpower_plus 2 _ _ two_ne_0). fold u.
        apply Qmult_le_l; [exact Hu0 | now apply exponent_le]. }
      split; [lra | intros _; exact Hr]. }
  destruct Hbound as [Hb1 Hb2].
  assert (Hfits : Qle_bool (2 ^ 1024) (Qabs (m * 2 ^ k)) = false).
  { destruct (Qle_bool _ _) eqn:Hc; [|reflexivity].
    apply Qle_bool_iff in Hc. exfalso.
    assert (Htri : Qabs (m * 2 ^ k) <= Qabs (m * 2 ^ k - q) + Qabs q).
    { assert (E : m * 2 ^ k == (m * 2 ^ k - q) + q) by ring.
      rewrite E at 1. apply Qabs_triangle. }
    assert (Hc1 : u * 2 ^ 1023 + eta + 2 ^ 1023 < 2 ^ 1024) by reflexivity.
    assert (Hc2 : u * Qabs q <= u * 2 ^ 1023) by (apply Qmult_le_l; assumption).
    set (M := 2 ^ 1023) in *. set (M' := 2 ^ 1024) in *.
    set (h := 2 ^ (k - 1)) in *. lra. }
  rewrite Hfits. exists (m * 2 ^ k). split; [reflexivity|].
  split; [lra|]. intros Hn. specialize (Hb2 Hn). lra.
Qed.

Lemma pow_succ (a : Q) (n : Z) : (0 <= n)%Z -> a ^ Z.succ n == a ^ n * a.
Proof.
  intros Hn. unfold Z.succ. rewrite Qpower_plus' by lia. now rewrite Qpower_1_r.
Qed.

Lemma pow_le_base (a b : Q) (n : Z) :
  0 <= a -> a <= b -> (0 <= n)%Z -> a ^ n <= b ^ n.
Proof.
  intros Ha Hab Hn. revert n Hn. apply natlike_ind.
  - apply Qle_refl.
  - intros n Hn IH. rewrite !pow_succ by exact Hn.
    pose proof (Qpower_0_le a n Ha) as H1.
    assert (H2 : 0 <= b ^ n) by (apply Qpower_0_le; lra).
    apply Qle_trans with (a ^ n * b).
    + rewrite !(Qmult_comm (a ^ n)). apply Qmult_le_compat_r; [exact Hab | exact H1].
    + apply Qmult_le_compat_r; [exact IH | lra].
Qed.

Lemma pow_upper (e : Q) (n : Z) :
  0 <= e -> (0 <= n)%Z -> 2 * inject_Z n * e <= 1 ->
  (1 + e) ^ n <= 1 + 2 * inject_Z n * e.
Proof.
  intros He Hn. revert n Hn. apply (natlike_ind (fun n =>
    2 * inject_Z n * e <= 1 -> (1 + e) ^ n <= 1 + 2 * inject_Z n * e)).
  - intros _. change (inject_Z 0) with 0. rewrite Qpower_0_r. lra.
  - intros n Hn IH Hs. rewrite pow_succ by exact Hn.
    unfold Z.succ in *. rewrite inject_Z_plus in *. change (inject_Z 1) with 1 in *.
    assert (H0 : 0 <= inject_Z n) by (change 0 with (inject_Z 0); now rewrite <- Zle_Qle).
    assert (Hs' : 2 * inject_Z n * e <= 1) by nra.
    specialize (IH Hs').
    apply Qle_trans with ((1 + 2 * inject_Z n * e) * (1 + e)).
    + apply Qmult_le_compat_r; [exact IH | lra].
    + nra.
Qed.

Lemma pow_lower (e : Q) (n : Z) :
  0 <= e -> e <= 1 -> (0 <= n)%Z -> inject_Z n * e <= 1 ->
  1 - inject_Z n * e <= (1 - e) ^ n.
Proof.
  intros He He1 Hn. revert n Hn. apply (natlike_ind (fun n =>
    inject_Z n * e <= 1 -> 1 - inject_Z n * e <= (1 - e) ^ n)).
  - intros _. change (inject_Z 0) with 0. rewrite Qpower_0_r. lra.
  - intros n Hn IH Hs. rewrite pow_succ by exact Hn.
    unfold Z.succ in *. rewrite inject_Z_plus in *. change (inject_Z 1) with 1 in *.
    assert (H0 : 0 <= inject_Z n) by (change 0 with (inject_Z 0); now rewrite <- Zle_Qle).
    assert (Hs' : inject_Z n * e <= 1) by nra.
    specialize (IH Hs').
    apply Qle_trans with ((1 - inject_Z n * e) * (1 - e)).
    + nra.
    + apply Qmult_le_compat_r; [exact IH | lra].
Qed.

Lemma eta_small : 0 < eta /\ eta <= u * (1 # 1000).
Proof. split; [apply pow2_pos | vm_compute; discriminate]. Qed.

Lemma big_value : 2 ^ 60 <= 2 ^ 1023 /\ 2 ^ 60 == 1152921504606846976.
Proof. split; [vm_compute; discriminate | reflexivity]. Qed.

(** Rounding with an error bound, for values far below the largest. *)
Lemma round64_small (q : Q) :
  Qabs q <= 2 ^ 60 ->
  exists r, Double.round64 q = Num r /\ Qabs (r - q) <= u * Qabs q + eta.
Proof.
  intros Hq. destruct (round64_error q) as (r & Hr & He & _).
  - eapply Qle_trans; [exact Hq | apply big_value].
  - now exists r.
Qed.

Lemma Qabs_le_iff (x y : Q) : Qabs x <= y <-> - y <= x <= y.
Proof. apply Qabs_Qle_condition. Qed.

(** [Math.round(y * 100) / 100] in binary64, for a [y] that is within [E]
    of an exact value [Y]. *)
Lemma cents_error (y Y E : Q) :
  Qabs (y - Y) <= E -> E <= 1 -> Qabs Y <= 2 ^ 44 ->
  exists t,
    Double.div (Number.Math_round (Double.mul (Num y) (Num 100))) (Num 100) = Num t
    /\ Qabs (t - Y) <= (1 # 200) + E + (2 * Qabs Y + 5) * u.
Proof.
  intros Hy HE HY.
  pose proof eta_small as [He0 He1].
  pose proof (Qabs_nonneg Y) as HY0.
  assert (HY' : Qabs Y <= 17592186044416) by exact HY.
  apply Qabs_le_iff in Hy.
  set (aY := Qabs Y) in *.
  assert (HaY : - aY <= Y <= aY) by (apply Qabs_le_iff; apply Qle_refl).
  assert (Hay : Qabs y <= aY + 1) by (apply Qabs_le_iff; lra).
  unfold Double.mul. cbn [Number.mul Double.rounded].
  destruct (round64_small (y * 100)) as (x & Hx & Hxe).
  { rewrite Qabs_Qmult. change (Qabs 100) with 100.
    destruct big_value as [_ ->]. lra. }
  rewrite Hx. cbn [Number.Math_round].
  set (r := inject_Z (Qfloor (x + (1 # 2)))).
  assert (Hr : - (1 # 2) <= r - x <= 1 # 2).
  { pose proof (Qfloor_le (x + (1 # 2))) as H1.
    pose proof (Qlt_floor (x + (1 # 2))) as H2.
    rewrite inject_Z_plus in H2. change (inject_Z 1) with 1 in H2.
    fold r in H1, H2. lra. }
  rewrite Qabs_Qmult in Hxe. change (Qabs 100) with 100 in Hxe.
  apply Qabs_le_iff in Hxe.
  change u with (1 # 9007199254740992) in *.
  set (ay := Qabs y) in *.
  assert (Hay0 : 0 <= ay) by apply Qabs_nonneg.
  assert (Hrb : Qabs (r / 100) <= aY + 3).
  { apply Qabs_le_iff. unfold Qdiv. change (/ 100) with (1 # 100). lra. }
  unfold Double.div.
  replace (Number.div (Num r) (Num 100)) with (Num (r / 100)) by reflexivity.
  cbn [Double.rounded].
  destruct (round64_small (r / 100)) as (t & Ht & Hte).
  { destruct big_value as [_ ->]. lra. }
  exists t. split; [exact Ht|].
  apply Qabs_le_iff in Hte. apply Qabs_le_iff.
  set (ar := Qabs (r / 100)) in *.
  unfold Qdiv in *. change (/ 100) with (1 # 100) in *.
  change u with (1 # 9007199254740992) in *.
  lra.
Qed.

Lemma inject_Z_nonneg (n : Z) : (0 <= n)%Z -> 0 <= inject_Z n.
Proof. intros H. change 0 with (inject_Z 0). now rewrite <- Zle_Qle. Qed.

(** The compound factor in binary64: the sum [1 + d] is rounded, and the
    power is as accurate as the platform's [Math.pow]. *)
Lemma compoundFactor_error (pow : Q -> Z -> number) (d : Q) (n : Z) :
  Double.accurate pow -> 0 <= d -> (0 <= n)%Z ->
  inject_Z n <= 2 ^ 50 -> (1 + d) ^ n <= 2 ^ 59 ->
  exists c,
    Double.Math_pow pow (Double.add (Num 1) (Num d)) n = Num c
    /\ Qabs (c - (1 + d) ^ n) <= (2 * inject_Z n + 3) * u * (1 + d) ^ n.
Proof.
  intros Hpow Hd Hn HN HG.
  pose proof (inject_Z_nonneg n Hn) as HN0.
  unfold Double.Math_pow. destruct (Z.eqb_spec n 0) as [->|Hn0].
  { exists 1. split; [reflexivity|]. rewrite Qpower_0_r.
    change (inject_Z 0) with 0. change u with (1 # 9007199254740992).
    vm_compute. discriminate. }
  assert (Hn1 : (1 <= n)%Z) by lia.
  set (D := 1 + d) in *. set (G := D ^ n) in *. set (N := inject_Z n) in *.
  assert (HD1 : 1 <= D) by (unfold D; lra).
  assert (HDG : D <= G).
  { unfold G. rewrite <- (Qpower_1_r D) at 1. now apply Qpower_le_compat_l. }
  assert (HG1 : 1 <= G) by lra.
  unfold Double.add. cbn [Number.add Double.rounded]. fold D.
  destruct (round64_error D) as (s & Hs & _ & Hse).
  { rewrite Qabs_pos by lra. apply Qle_trans with (2 ^ 59); [lra | vm_compute; discriminate]. }
  rewrite Hs. rewrite Qabs_pos in Hse by lra.
  assert (Hnormal : 2 ^ (-1022) <= D).
  { apply Qle_trans with 1; [vm_compute; discriminate | exact HD1]. }
  specialize (Hse Hnormal). apply Qabs_le_iff in Hse.
  pose proof Hse as Hse'. change u with (1 # 9007199254740992) in Hse'.
  assert (Hs0 : 0 < s) by lra.
  assert (HNu : N * u <= 1 # 8).
  { change u with (1 # 9007199254740992).
    assert (N <= 1125899906842624) by exact HN. lra. }
  assert (Hu0 : 0 <= u) by (vm_compute; discriminate).
  assert (Hu1 : u <= 1) by (vm_compute; discriminate).
  set (W := N * u * G).
  assert (HW0 : 0 <= W).
  { unfold W. apply Qmult_le_0_compat; [apply Qmult_le_0_compat; lra | lra]. }
  assert (HW1 : W <= (1 # 8) * G).
  { unfold W. apply Qmult_le_compat_r; lra. }
  assert (Hlow : G - W <= s ^ n).
  { apply Qle_trans with ((D * (1 - u)) ^ n).
    - rewrite Qmult_power. fold G.
      assert (E : G - W == G * (1 - N * u)) by (unfold W; ring).
      rewrite E. apply Qmult_le_l; [lra|]. apply pow_lower; try assumption. fold N. lra.
    - apply pow_le_base; [|lra|exact Hn].
      apply Qmult_le_0_compat; lra. }
  assert (Hup : s ^ n <= G + 2 * W).
  { apply Qle_trans with ((D * (1 + u)) ^ n).
    - apply pow_le_base; [lra|lra|exact Hn].
    - rewrite Qmult_power. fold G.
      assert (E : G + 2 * W == G * (1 + 2 * N * u)) by (unfold W; ring).
      rewrite E. apply Qmult_le_l; [lra|]. apply pow_upper; try assumption. fold N. lra. }
  destruct (Hpow s n Hs0 ltac:(lia)) as (c & Hc & Hce).
  { lra. }
  { apply Qle_trans with (2 ^ 60); [|vm_compute; discriminate].
    assert (G <= 576460752303423488) by exact HG.
    destruct big_value as [_ ->]. lra. }
  exists c. split; [exact Hc|].
  assert (HP0 : 0 <= s ^ n) by lra.
  apply Qabs_le_iff in Hce. apply Qabs_le_iff.
  assert (Hgoal : (2 * N + 3) * u * G == 2 * W + 3 * u * G) by (unfold W; ring).
  rewrite Hgoal.
  set (P := s ^ n) in *.
  change u with (1 # 9007199254740992) in *.
  lra.
Qed.

Lemma Qfloor_unique (z : Q) (k : Z) :
  inject_Z k <= z -> z < inject_Z k + 1 -> Qfloor z = k.
Proof.
  intros H1 H2.
  pose proof (Qfloor_le z) as H3. pose proof (Qlt_floor z) as H4.
  rewrite inject_Z_plus in H4. change (inject_Z 1) with 1 in H4.
  assert (H5 : inject_Z (Qfloor z) < inject_Z (k + 1)).
  { rewrite inject_Z_plus. change (inject_Z 1) with 1. lra. }
  assert (H6 : inject_Z k < inject_Z (Qfloor z + 1)).
  { rewrite inject_Z_plus. change (inject_Z 1) with 1. lra. }
  rewrite <- Zlt_Qlt in H5, H6. lia.
Qed.

(** [Math.round(y * 100) / 100] in binary64 when the exact value is close
    to a whole number [k] of cents: the result is the number that [k / 100]
    denotes. *)
Lemma cents_exact (y Y E : Q) (k : Z) :
  Qabs (y - Y) <= E -> E <= 1 # 10000 -> Qabs Y <= 2 ^ 40 ->
  Qabs (Y * 100 - inject_Z k) <= 2 # 5 ->
  Double.div (Number.Math_round (Double.mul (Num y) (Num 100))) (Num 100)
  = Double.round64 (inject_Z k / 100).
Proof.
  intros Hy HE HY Hk.
  pose proof eta_small as [He0 He1]. change u with (1 # 9007199254740992) in He1.
  assert (HY' : Qabs Y <= 1099511627776) by exact HY.
  apply Qabs_le_iff in Hy. apply Qabs_le_iff in Hk.
  set (aY := Qabs Y) in *.
  assert (HaY : - aY <= Y <= aY) by (apply Qabs_le_iff; apply Qle_refl).
  assert (Hay : Qabs y <= aY + 1) by (apply Qabs_le_iff; lra).
  unfold Double.mul. cbn [Number.mul Double.rounded].
  destruct (round64_small (y * 100)) as (x & Hx & Hxe).
  { rewrite Qabs_Qmult. change (Qabs 100) with 100.
    destruct big_value as [_ ->]. lra. }
  rewrite Hx. cbn [Number.Math_round].
  rewrite Qabs_Qmult in Hxe. change (Qabs 100) with 100 in Hxe.
  apply Qabs_le_iff in Hxe.
  set (ay := Qabs y) in *.
  change u with (1 # 9007199254740992) in *.
  rewrite (Qfloor_unique (x + (1 # 2)) k) by lra.
  reflexivity.
Qed.

(** The unrounded value [principal * compoundFactor] in binary64. *)
Lemma totalValue_error (pow : Q -> Z -> number) (d p : Q) (days : Z) :
  Double.accurate pow ->
  0 <= d -> 1 # 100 <= p -> (0 <= days)%Z ->
  p * (1 + d) ^ days * (inject_Z days + 6) <= 2 ^ 43 ->
  exists T,
    Double.mul (Num p) (Double.Math_pow pow (Double.add (Num 1) (Num d)) days) = Num T
    /\ Qabs (T - p * (1 + d) ^ days)
       <= (2 * inject_Z days + 5) * u * (p * (1 + d) ^ days) + eta.
Proof.
  intros Hpow Hd Hp Hdays Hrange.
  pose proof (inject_Z_nonneg days Hdays) as HN0.
  pose proof eta_small as [He0 He1].
  change u with (1 # 9007199254740992) in He1.
  set (G := (1 + d) ^ days) in *. set (N := inject_Z days) in *.
  assert (HG1 : 1 <= G) by (apply Qpower_1_le; [lra | exact Hdays]).
  set (V := p * G) in *.
  assert (HpV : p <= V).
  { unfold V. rewrite <- (Qmult_1_r p) at 1. apply Qmult_le_l; lra. }
  set (B := N * V).
  assert (HB0 : 0 <= B) by (unfold B; apply Qmult_le_0_compat; lra).
  assert (HBV : B + 6 * V <= 8796093022208).
  { assert (E : B + 6 * V == V * (N + 6)) by (unfold B; ring). rewrite E. exact Hrange. }
  assert (HN : N <= 2 ^ 50).
  { assert (H1 : (1 # 100) * (N + 6) <= V * (N + 6))
      by (apply Qmult_le_compat_r; lra).
    assert (H2 : V * (N + 6) <= 8796093022208) by exact Hrange.
    assert (N <= 1125899906842624); [lra | assumption]. }
  assert (HG : G <= 2 ^ 59).
  { assert (H1 : G * (1 # 100) <= V).
    { unfold V. rewrite (Qmult_comm p). apply Qmult_le_l; lra. }
    assert (G <= 576460752303423488); [lra | assumption]. }
  destruct (compoundFactor_error pow d days Hpow Hd Hdays HN HG) as (c & -> & Hc).
  fold G N in Hc. apply Qabs_le_iff in Hc.
  set (K := 2 * u * B + 3 * u * V).
  assert (HK : - K <= p * c - V <= K).
  { assert (E1 : p * ((2 * N + 3) * u * G) == K) by (unfold K, B, V; ring).
    assert (E2 : p * c - V == p * (c - G)) by (unfold V; ring).
    assert (E3 : - K == p * - ((2 * N + 3) * u * G)) by (rewrite <- E1; ring).
    rewrite E2, E3, <- E1. split; apply Qmult_le_l; lra. }
  assert (HK0 : K <= 1 # 100).
  { unfold K. change u with (1 # 9007199254740992). lra. }
  assert (HK1 : 0 <= K).
  { unfold K. change u with (1 # 9007199254740992). lra. }
  unfold Double.mul. cbn [Number.mul Double.rounded].
  destruct (round64_small (p * c)) as (T & HT & HTe).
  { apply Qabs_le_iff. destruct big_value as [_ ->]. lra. }
  exists T. split; [exact HT|].
  assert (Hpc : Qabs (p * c) <= V + K) by (apply Qabs_le_iff; lra).
  assert (Hgoal : (2 * N + 5) * u * V == K + 2 * u * V) by (unfold K, B; ring).
  rewrite Hgoal.
  apply Qabs_le_iff in HTe. apply Qabs_le_iff.
  set (a := Qabs (p * c)) in *.
  change u with (1 # 9007199254740992) in *. lra.
Qed.

(** The unrounded [interestEarned] in binary64, from a total that is
    within [E] of the exact one. *)
Lemma interestEarned_error (T V p E : Q) :
  Qabs (T - V) <= E -> E <= 1 -> 0 <= p -> p <= V -> V <= 2 ^ 44 ->
  exists I,
    Double.sub (Num T) (Num p) = Num I
    /\ Qabs (I - (V - p)) <= E + u * (2 * V + 1) + eta.
Proof.
  intros HTV HE Hp HpV HV.
  assert (HV' : V <= 17592186044416) by exact HV.
  apply Qabs_le_iff in HTV.
  unfold Double.sub. cbn [Number.sub Double.rounded].
  destruct (round64_small (T - p)) as (I & HI & HIe).
  { apply Qabs_le_iff. destruct big_value as [_ ->]. lra. }
  exists I. split; [exact HI|].
  assert (Ha : Qabs (T - p) <= 2 * V + 1) by (apply Qabs_le_iff; lra).
  apply Qabs_le_iff in HIe. apply Qabs_le_iff.
  set (a := Qabs (T - p)) in *.
  change u with (1 # 9007199254740992) in *. lra.
Qed.

(** The figures of [calculateInterestForPeriod] in binary64. *)
Lemma period_error (pow : Q -> Z -> number) (this : InterestService) (d p : Q) (days : Z) :
  Double.accurate pow -> dailyRate this = Num d ->
  0 <= d -> 1 # 100 <= p -> (0 <= days)%Z ->
  p * (1 + d) ^ days * (inject_Z days + 6) <= 2 ^ 43 ->
  exists t i,
    Calc.totalValue (Double.calculateInterestForPeriod pow this (Num p) days) = Num t
    /\ Calc.interest (Double.calculateInterestForPeriod pow this (Num p) days) = Num i
    /\ Qabs (t - p * (1 + d) ^ days) <= 1 # 100
    /\ Qabs (i - (p * (1 + d) ^ days - p)) <= 1 # 100.
Proof.
  intros Hpow Hrate Hd Hp Hdays Hrange.
  pose proof (inject_Z_nonneg days Hdays) as HN0.
  pose proof eta_small as [He0 He1].
  change u with (1 # 9007199254740992) in He1.
  destruct (totalValue_error pow d p days Hpow Hd Hp Hdays Hrange) as (T & HT & HTV).
  set (G := (1 + d) ^ days) in *. set (N := inject_Z days) in *.
  assert (HG1 : 1 <= G) by (apply Qpower_1_le; [lra | exact Hdays]).
  set (V := p * G) in *.
  assert (HpV : p <= V).
  { unfold V. rewrite <- (Qmult_1_r p) at 1. apply Qmult_le_l; lra. }
  set (B := N * V).
  assert (HB0 : 0 <= B) by (unfold B; apply Qmult_le_0_compat; lra).
  assert (HBV : B + 6 * V <= 8796093022208).
  { assert (E : B + 6 * V == V * (N + 6)) by (unfold B; ring). rewrite E. exact Hrange. }
  assert (HV0 : 0 <= V) by lra.
  set (E := 2 * u * B + 5 * u * V + eta).
  assert (HTV' : Qabs (T - V) <= E).
  { eapply Qle_trans; [exact HTV|]. unfold E, B. ring_simplify. apply Qle_refl. }
  assert (HE : E <= 1 # 10).
  { unfold E. change u with (1 # 9007199254740992). lra. }
  unfold Double.calculateInterestForPeriod, Number.parseFloat.
  cbn [Calc.totalValue Calc.interest]. rewrite Hrate, HT.
  assert (HV44 : V <= 2 ^ 44) by (assert (V <= 17592186044416); [lra | assumption]).
  destruct (cents_error T V E HTV' ltac:(lra)) as (t & Ht & Hte).
  { now rewrite Qabs_pos by exact HV0. }
  destruct (interestEarned_error T V p E HTV' ltac:(lra) ltac:(lra) HpV HV44)
    as (I & HI & HIe).
  rewrite HI.
  assert (HY : Qabs (V - p) <= V) by (apply Qabs_le_iff; lra).
  destruct (cents_error I (V - p) (E + u * (2 * V + 1) + eta) HIe) as (i & Hi & Hie).
  { change u with (1 # 9007199254740992). lra. }
  { apply Qle_trans with V; [exact HY | exact HV44]. }
  exists t, i. split; [exact Ht|]. split; [exact Hi|].
  rewrite (Qabs_pos V) in Hte by exact HV0.
  set (aY := Qabs (V - p)) in *.
  unfold E in *. change u with (1 # 9007199254740992) in *.
  split.
  - eapply Qle_trans; [exact Hte|]. lra.
  - eapply Qle_trans; [exact Hie|]. lra.
Qed.

Lemma nearestPow_accurate : Double.accurate Double.nearestPow.
Proof.
  intros x n Hx Hn Hlow Hhigh. unfold Double.nearestPow.
  assert (H0 : 0 <= x ^ n) by lra.
  destruct (round64_error (x ^ n)) as (r & Hr & _ & He).
  { rewrite Qabs_pos by exact H0.
    apply Qle_trans with (2 ^ 1000); [exact Hhigh | vm_compute; discriminate]. }
  exists r. split; [exact Hr|].
  rewrite Qabs_pos in He by exact H0.
  eapply Qle_trans; [apply He|].
  - apply Qle_trans with (1 # 2); [vm_compute; discriminate | exact Hlow].
  - change u with (1 # 9007199254740992). lra.
Qed.

(** At the default rate, 100000 over 90 days. *)
Lemma default_period (pow : Q -> Z -> number) :
  Double.accurate pow ->
  Calc.totalValue
    (Double.calculateInterestForPeriod pow (Double.constructor None) (Num 100000) 90)
  = Double.round64 102117.76
  /\ Calc.interest
       (Double.calculateInterestForPeriod pow (Double.constructor None) (Num 100000) 90)
     = Double.round64 2117.76.
Proof.
  intros Hpow.
  pose proof eta_small as [He0 He1]. change u with (1 # 9007199254740992) in He1.
  assert (Hrate : dailyRate (Double.constructor None) = Num Double.defaultDailyRate)
    by (vm_compute; reflexivity).
  assert (Hclose : Qabs (100000 * (1 + Double.defaultDailyRate) ^ 90 * 100
                         - inject_Z 10211776) <= 1 # 10)
    by (vm_compute; discriminate).
  destruct (totalValue_error pow Double.defaultDailyRate 100000 90 Hpow)
    as (T & HT & HTV);
    [vm_compute; discriminate | vm_compute; discriminate | lia
    | vm_compute; discriminate |].
  change (inject_Z 90) with 90 in HTV.
  set (V := 100000 * (1 + Double.defaultDailyRate) ^ 90) in *.
  apply Qabs_le_iff in Hclose.
  change (inject_Z 10211776) with 10211776 in Hclose.
  assert (HV : 102117 <= V <= 102118) by lra.
  set (E := (1 # 1000000)).
  assert (HTV' : Qabs (T - V) <= E).
  { eapply Qle_trans; [exact HTV|]. unfold E.
    change u with (1 # 9007199254740992). lra. }
  unfold Double.calculateInterestForPeriod, Number.parseFloat.
  cbn [Calc.totalValue Calc.interest]. rewrite Hrate, HT.
  split.
  - apply (cents_exact T V E 10211776 HTV').
    + vm_compute. discriminate.
    + rewrite Qabs_pos by lra. apply Qle_trans with 102118; [lra | vm_compute; discriminate].
    + apply Qabs_le_iff. change (inject_Z 10211776) with 10211776. lra.
  - destruct (interestEarned_error T V 100000 E HTV') as (I & HI & HIe).
    + vm_compute. discriminate.
    + lra.
    + lra.
    + apply Qle_trans with 102118; [lra | vm_compute; discriminate].
    + rewrite HI.
      apply (cents_exact I (V - 100000) (1 # 100000) 211776).
      * eapply Qle_trans; [exact HIe|]. unfold E.
        change u with (1 # 9007199254740992). lra.
      * vm_compute. discriminate.
      * rewrite Qabs_pos by lra.
        apply Qle_trans with 102118; [lra | vm_compute; discriminate].
      * apply Qabs_le_iff. change (inject_Z 211776) with 211776. lra.
Qed.

End DoubleFacts.

(** ** The claims about the interest engine *)

Section InterestClaims.
Import Number.
Local Open Scope Q_scope.

(** C5, as it is stated: at 8.5% a year the value of 100000 after 90 days
    would be 102118.79 up to the cent tolerance; the code returns
    102117.76, more than 1 away from it, with exact arithmetic and in
    binary64 alike.  And the tolerance does not hold for every principal:
    in binary64 a principal of 100000000000000.03125 over 0 days comes
    back as 100000000000000.046875, the product by 100 and the quotient
    by 100 each being rounded. *)
Lemma calculateInterestForPeriod_not_102118_79 :
  ~ (exists t : Q,
        Calc.totalValue (calculateInterestForPeriod defaultService (Num 100000) 90) = Num t
        /\ Qabs (t - 102118.79) <= 0.01)
  /\ ~ (exists t : Q,
          Calc.totalValue
            (Double.calculateInterestForPeriod Double.nearestPow (Double.constructor None)
               (Num 100000) 90) = Num t
          /\ Qabs (t - 102118.79) <= 0.01)
  /\ exists t : Q,
       Calc.totalValue
         (Double.calculateInterestForPeriod Double.nearestPow (Double.constructor None)
            (Num (3200000000000001 # 32)) 0) = Num t
       /\ t == 6400000000000003 # 64
       /\ 0.01 < Qabs (t - (3200000000000001 # 32) * (1 + Double.defaultDailyRate) ^ 0).
Proof.
  split; [|split].
  - intros [t [Ht Habs]].
    vm_compute in Ht. injection Ht as <-.
    apply Qabs_Qle_condition in Habs. destruct Habs as [Hlo _].
    vm_compute in Hlo. apply Hlo. reflexivity.
  - intros [t [Ht Habs]].
    vm_compute in Ht. injection Ht as <-.
    apply Qabs_Qle_condition in Habs. destruct Habs as [Hlo _].
    vm_compute in Hlo. apply Hlo. reflexivity.
  - eexists. split; [vm_compute; reflexivity|]. split; reflexivity.
Qed.

(** C5, amended: in binary64, with a [Math.pow] that is within one unit in
    the last place, for every daily rate [d >= 0], every principal [p] of
    one cent at least and every integer [days >= 0] such that
    [p * (1 + d) ^ days * (days + 6) <= 2 ^ 43], [calculateInterestForPeriod]
    returns a [totalValue] within 0.01 of [p * (1 + d) ^ days], and an
    [interest] within 0.01 of [p * (1 + d) ^ days - p], both rounded from
    the unrounded product.  At 8.5% a year the daily rate is 0.0002328767
    to ten decimals, and 100000 over 90 days gives [totalValue = 102117.76]
    and [interest = 2117.76], the binary64 numbers that these decimals
    denote. *)
Theorem calculateInterestForPeriod_compound
    (pow : Q -> Z -> number) (this : InterestService) (d p : Q) (days : Z)
    (Hpow : Double.accurate pow) (Hrate : dailyRate this = Num d)
    (Hd : 0 <= d) (Hp : 0.01 <= p) (Hdays : (0 <= days)%Z)
    (Hrange : p * (1 + d) ^ days * (inject_Z days + 6) <= 2 ^ 43) :
  (exists t i : Q,
      Calc.totalValue (Double.calculateInterestForPeriod pow this (Num p) days) = Num t
      /\ Calc.interest (Double.calculateInterestForPeriod pow this (Num p) days) = Num i
      /\ Qabs (t - p * (1 + d) ^ days) <= 0.01
      /\ Qabs (i - (p * (1 + d) ^ days - p)) <= 0.01)
  /\ (exists d0 : Q,
        dailyRate (Double.constructor None) = Num d0
        /\ Qabs (d0 - 0.0002328767) <= 0.0000000001)
  /\ Calc.totalValue
       (Double.calculateInterestForPeriod pow (Double.constructor None) (Num 100000) 90)
     = Double.round64 102117.76
  /\ Calc.interest
       (Double.calculateInterestForPeriod pow (Double.constructor None) (Num 100000) 90)
     = Double.round64 2117.76
  /\ (exists t i : Q,
        Double.round64 102117.76 = Num t /\ Double.round64 2117.76 = Num i
        /\ Qabs (t - 102117.76) <= 0.00000000001
        /\ Qabs (i - 2117.76) <= 0.00000000001).
Proof.
  split; [|split; [|split; [|split]]].
  - exact (period_error pow this d p days Hpow Hrate Hd Hp Hdays Hrange).
  - eexists. split; [vm_compute; reflexivity|]. vm_compute. discriminate.
  - exact (proj1 (default_period pow Hpow)).
  - exact (proj2 (default_period pow Hpow)).
  - eexists _, _. split; [vm_compute; reflexivity|]. split; [vm_compute; reflexivity|].
    split; vm_compute; discriminate.
Qed.

Lemma calculateInterestForPeriod_compound_witness :
  exists t : Q,
    Calc.totalValue
      (Double.calculateInterestForPeriod Double.nearestPow (Double.constructor None)
         (Num 100000) 90) = Num t
    /\ Qabs (t - 100000 * (1 + Double.defaultDailyRate) ^ 90) <= 0.01.
Proof.
  destruct (calculateInterestForPeriod_compound Double.nearestPow (Double.constructor None)
              Double.defaultDailyRate 100000 90 nearestPow_accurate eq_refl)
    as [[t [i [Ht [_ [Hc _]]]]] _].
  - vm_compute. discriminate.
  - vm_compute. discriminate.
  - lia.
  - vm_compute. discriminate.
  - exists t. split; [exact Ht | exact Hc].
Defined.

(** C6, as it is stated: [NaN], which [parseFloat] returns for an input
    that is not numeric, is not within [0, 100], yet [updateInterestRate]
    does not throw on it and replaces both rates by [NaN]. *)
Lemma updateInterestRate_accepts_NaN :
  (le (Num 0) NaN && le NaN (Num 100)) = false
  /\ (exists r : RateUpdate.t,
        updateInterestRate defaultService NaN
        = ({| annualRate := NaN; compoundingPeriodsPerYear := Num 365; dailyRate := NaN |},
           Ok r))
  /\ annualRate (fst (updateInterestRate defaultService NaN)) <> annualRate defaultService
  /\ dailyRate (fst (updateInterestRate defaultService NaN)) <> dailyRate defaultService.
Proof.
  split; [reflexivity|]. split; [eexists; reflexivity|]. split; discriminate.
Qed.

(** C6, amended: for every numeric [newRate] outside [0, 100], and for the
    two infinities, [updateInterestRate] throws and leaves the service as
    it was; for every [newRate] within [0, 100] it succeeds and the
    service then holds [annualRate = newRate / 100] and
    [dailyRate = (newRate / 100) / 365], which is the state every later
    calculation reads.  On any number the call throws exactly when
    [newRate < 0] or [newRate > 100] holds; [NaN] satisfies neither, so the
    call succeeds on it and both rates become [NaN]. *)
Theorem updateInterestRate_validates (this : InterestService) (newRate : Q)
    (Hperiods : compoundingPeriodsPerYear this = Num 365) :
  (~ (0 <= newRate <= 100) ->
     updateInterestRate this (Num newRate) = (this, Throw rateError))
  /\ (forall s : bool, updateInterestRate this (Infinity s) = (this, Throw rateError))
  /\ updateInterestRate this (Num (-1)) = (this, Throw rateError)
  /\ updateInterestRate this (Num 101) = (this, Throw rateError)
  /\ (0 <= newRate <= 100 ->
      exists r : RateUpdate.t,
        updateInterestRate this (Num newRate)
        = ({| annualRate := Num (newRate / 100);
              compoundingPeriodsPerYear := Num 365;
              dailyRate := Num (newRate / 100 / 365) |}, Ok r)
        /\ RateUpdate.success r = true
        /\ RateUpdate.newAnnualRate r = Num newRate
        /\ forall (principal : number) (days : Z),
             calculateInterestForPeriod (fst (updateInterestRate this (Num newRate))) principal days
             = calculateInterestForPeriod
                 {| annualRate := Num (newRate / 100);
                    compoundingPeriodsPerYear := Num 365;
                    dailyRate := Num (newRate / 100 / 365) |} principal days)
  /\ (forall rate : number,
        (exists message, snd (updateInterestRate this rate) = Throw message)
        <-> (lt rate (Num 0) || gt rate (Num 100)) = true)
  /\ (exists r : RateUpdate.t,
        updateInterestRate this NaN
        = ({| annualRate := NaN; compoundingPeriodsPerYear := Num 365; dailyRate := NaN |},
           Ok r)
        /\ RateUpdate.success r = true
        /\ RateUpdate.newAnnualRate r = NaN).
Proof.
  assert (Hguard : (lt (parseFloat (Num newRate)) (Num 0) || gt (parseFloat (Num newRate)) (Num 100))
                   = negb (Qle_bool 0 newRate && Qle_bool newRate 100)).
  { unfold gt, lt, parseFloat. now rewrite negb_andb. }
  split; [|split; [|split; [|split; [|split; [|split]]]]].
  - intros Hout. unfold updateInterestRate. rewrite Hguard.
    destruct (Qle_bool 0 newRate) eqn:E0; [|reflexivity].
    destruct (Qle_bool newRate 100) eqn:E1; [|reflexivity].
    exfalso. apply Hout. split; now apply Qle_bool_iff.
  - intros [|]; reflexivity.
  - reflexivity.
  - reflexivity.
  - intros [H0 H100]. unfold updateInterestRate. rewrite Hguard.
    apply Qle_bool_iff in H0 as ->. apply Qle_bool_iff in H100 as ->.
    cbn [andb negb fst]. rewrite Hperiods.
    unfold parseFloat.
    rewrite (div_Num newRate 100) by discriminate.
    rewrite (div_Num (newRate / 100) 365) by discriminate.
    eexists. split; [reflexivity|]. cbn [RateUpdate.success RateUpdate.newAnnualRate].
    repeat split; reflexivity.
  - intros rate. unfold updateInterestRate, parseFloat.
    destruct (lt rate (Num 0) || gt rate (Num 100)); cbn [snd].
    + split; [reflexivity|]. intros _. eexists. reflexivity.
    + split; [intros [message H]; discriminate|discriminate].
  - unfold updateInterestRate, parseFloat. cbn [lt gt orb]. rewrite Hperiods.
    eexists. split; [reflexivity|]. split; reflexivity.
Qed.

Lemma updateInterestRate_validates_witness :
  updateInterestRate defaultService (Num (-1)) = (defaultService, Throw rateError)
  /\ fst (updateInterestRate defaultService (Num 5))
     = {| annualRate := Num (5 / 100);
          compoundingPeriodsPerYear := Num 365;
          dailyRate := Num (5 / 100 / 365) |}
  /\ dailyRate (fst (updateInterestRate defaultService NaN)) = NaN.
Proof.
  pose proof (updateInterestRate_validates defaultService 5 eq_refl)
    as [_ [_ [Hm [_ [Hin [_ Hnan]]]]]].
  split; [exact Hm|]. split.
  - destruct Hin as [r [Hr _]]; [split; discriminate|].
    now rewrite Hr.
  - destruct Hnan as [r [Hr _]]. now rewrite Hr.
Defined.

(** C7, as it is stated: with [NaN] for the principal, which [parseFloat]
    returns for an input that is not numeric, and an end date before the
    start date, [calculateInterest] throws although [principal > 0] does
    not hold. *)
Lemma calculateInterest_NaN_throws :
  gt NaN (Num 0) = false
  /\ calculateInterest defaultService NaN 86400000 0 = Throw rangeError.
Proof. split; reflexivity. Qed.

(** C7, amended: for every [principal], numeric or not, and every pair of
    dates, [calculateInterest] throws if and only if [principal <= 0] does
    not hold and [endDate < startDate]; for a numeric principal that is
    [principal > 0] and [endDate < startDate].  When [principal <= 0] it
    returns the zeroed result with [days = 0], whatever the dates; when
    [principal > 0] and [endDate >= startDate] it returns with
    [days = floor ((endDate - startDate) / millisecondsPerDay)].  A
    principal that is [NaN] is not [<= 0]: with [endDate < startDate] the
    call throws, and otherwise it returns figures that are [NaN]. *)
Theorem calculateInterest_range (this : InterestService) (principal : Q)
    (startDate endDate : Z) :
  ((exists message, calculateInterest this (Num principal) startDate endDate = Throw message)
     <-> (0 < principal /\ (endDate < startDate)%Z))
  /\ (0 < principal -> (endDate < startDate)%Z ->
       calculateInterest this (Num principal) startDate endDate = Throw rangeError)
  /\ (principal <= 0 ->
       calculateInterest this (Num principal) startDate endDate
       = Ok {| Calc.principal := Num 0; Calc.interest := Num 0; Calc.totalValue := Num 0;
               Calc.days := 0; Calc.annualRate := mul (annualRate this) (Num 100);
               Calc.dailyRate := None; Calc.effectiveRate := None |})
  /\ (0 < principal -> (startDate <= endDate)%Z ->
       exists r : Calc.t,
         calculateInterest this (Num principal) startDate endDate = Ok r
         /\ Calc.days r = Qfloor (inject_Z (endDate - startDate) / inject_Z millisecondsPerDay))
  /\ (forall amount : number,
        (exists message, calculateInterest this amount startDate endDate = Throw message)
        <-> (le amount (Num 0) = false /\ (endDate < startDate)%Z))
  /\ ((endDate < startDate)%Z ->
      calculateInterest this NaN startDate endDate = Throw rangeError)
  /\ ((startDate <= endDate)%Z ->
      exists r : Calc.t,
        calculateInterest this NaN startDate endDate = Ok r
        /\ Calc.principal r = NaN /\ Calc.interest r = NaN /\ Calc.totalValue r = NaN
        /\ Calc.days r = Qfloor (inject_Z (endDate - startDate) / inject_Z millisecondsPerDay)).
Proof.
  assert (Hnumeric :
    ((exists message, calculateInterest this (Num principal) startDate endDate = Throw message)
       <-> (0 < principal /\ (endDate < startDate)%Z))
    /\ (0 < principal -> (endDate < startDate)%Z ->
         calculateInterest this (Num principal) startDate endDate = Throw rangeError)
    /\ (principal <= 0 ->
         calculateInterest this (Num principal) startDate endDate
         = Ok {| Calc.principal := Num 0; Calc.interest := Num 0; Calc.totalValue := Num 0;
                 Calc.days := 0; Calc.annualRate := mul (annualRate this) (Num 100);
                 Calc.dailyRate := None; Calc.effectiveRate := None |})
    /\ (0 < principal -> (startDate <= endDate)%Z ->
         exists r : Calc.t,
           calculateInterest this (Num principal) startDate endDate = Ok r
           /\ Calc.days r
              = Qfloor (inject_Z (endDate - startDate) / inject_Z millisecondsPerDay))).
  { unfold calculateInterest, parseFloat. cbn [le].
    rewrite daysBetween_neg.
    destruct (Qle_bool principal 0) eqn:Ep.
    - apply Qle_bool_iff in Ep.
      split; [|split; [|split]].
      + split; [intros [m Hm]; discriminate | intros [Hp _]; lra].
      + intros Hp; lra.
      + reflexivity.
      + intros Hp; lra.
    - assert (Hp : 0 < principal).
      { apply Qnot_le_lt. intros H. apply Qle_bool_iff in H. congruence. }
      destruct (Z.ltb_spec endDate startDate) as [Hd|Hd].
      + split; [|split; [|split]].
        * split; [tauto | intros _; eexists; reflexivity].
        * reflexivity.
        * intros H; lra.
        * intros _ H; lia.
      + split; [|split; [|split]].
        * split; [intros [m Hm]; discriminate | intros [_ H]; lia].
        * intros _ H; lia.
        * intros H; lra.
        * intros _ _. eexists. split; [reflexivity|]. reflexivity. }
  destruct Hnumeric as (H1 & H2 & H3 & H4).
  split; [exact H1|]. split; [exact H2|]. split; [exact H3|]. split; [exact H4|].
  split; [|split].
  - intros amount. unfold calculateInterest, parseFloat. rewrite daysBetween_neg.
    destruct (le amount (Num 0)).
    + split; [intros [m Hm]; discriminate|intros [H _]; discriminate].
    + destruct (Z.ltb_spec endDate startDate) as [Hd|Hd].
      * split; [now split|intros _; eexists; reflexivity].
      * split; [intros [m Hm]; discriminate|intros [_ H]; lia].
  - intros Hd. unfold calculateInterest, parseFloat. rewrite daysBetween_neg. cbn [le].
    apply Z.ltb_lt in Hd. now rewrite Hd.
  - intros Hd. unfold calculateInterest, parseFloat. rewrite daysBetween_neg. cbn [le].
    apply Z.ltb_ge in Hd. rewrite Hd. eexists. split; [reflexivity|]. now repeat split.
Qed.

Lemma calculateInterest_range_witness :
  calculateInterest defaultService (Num 1000) 86400000 0 = Throw rangeError
  /\ exists r : Calc.t,
       calculateInterest defaultService (Num 1000) 0 200000000 = Ok r /\ Calc.days r = 2%Z.
Proof.
  pose proof (calculateInterest_range defaultService 1000 86400000 0) as [_ [Hthrow _]].
  pose proof (calculateInterest_range defaultService 1000 0 200000000) as [_ [_ [_ [Hok _]]]].
  split.
  - apply Hthrow; reflexivity.
  - destruct Hok as [r [Hr Hdays]]; [reflexivity | discriminate |].
    exists r. split; [exact Hr | exact Hdays].
Defined.

(** C8: for every [principal > 0] and every date, [calculateInterest] with
    [endDate = startDate] returns normally with [days = 0], and its
    [effectiveRate] is [NaN]: the quotient [0 / 0] is not special-cased. *)
Theorem calculateInterest_effectiveRate_zero_days (this : InterestService)
    (principal : Q) (date : Z) (Hp : 0 < principal) :
  exists r : Calc.t,
    calculateInterest this (Num principal) date date = Ok r
    /\ Calc.days r = 0%Z
    /\ Calc.effectiveRate r = Some NaN.
Proof.
  unfold calculateInterest, parseFloat. cbn [le].
  assert (Ep : Qle_bool principal 0 = false).
  { destruct (Qle_bool principal 0) eqn:E; [|reflexivity].
    apply Qle_bool_iff in E. lra. }
  rewrite Ep, daysBetween_neg, Z.ltb_irrefl.
  assert (Hd : daysBetween date date = 0%Z).
  { rewrite daysBetween_div, Z.sub_diag. reflexivity. }
  rewrite Hd, Math_pow_zero.
  eexists. split; [reflexivity|]. split; [reflexivity|].
  cbn [Calc.effectiveRate]. f_equal.
  rewrite (mul_Num principal 1).
  rewrite (div_Num (principal * 1) principal) by lra.
  rewrite sub_Num.
  rewrite (div_Num (inject_Z 0) 365) by discriminate.
  rewrite div_zero_zero; [reflexivity | field; lra | reflexivity].
Qed.

Lemma calculateInterest_effectiveRate_zero_days_witness :
  exists r : Calc.t,
    calculateInterest defaultService (Num 100000) 0 0 = Ok r
    /\ Calc.effectiveRate r = Some NaN.
Proof.
  destruct (calculateInterest_effectiveRate_zero_days defaultService 100000 0 eq_refl)
    as [r [Hr [_ He]]].
  exists r. split; [exact Hr | exact He].
Defined.

End InterestClaims.

(** ** The branches of [approveTokenCreation] *)

Section ApproveBranches.
Import managerController.

Lemma notManager_false (u : User.t) :
  User.role u = manager -> notManager (Some u) = false.
Proof. intros H. unfold notManager. now rewrite H. Qed.

Lemma notManager_true (u : User.t) :
  User.role u <> manager -> notManager (Some u) = true.
Proof. intros H. unfold notManager. destruct (User.role u); try reflexivity. congruence. Qed.

Lemma notManager_inv (u : User.t) :
  notManager (Some u) = false -> User.role u = manager.
Proof. unfold notManager. destruct (User.role u); cbn; congruence. Qed.

Lemma Status_eqb_eq (a b : Status) : Status_eqb a b = true <-> a = b.
Proof. destruct a, b; split; intros H; try reflexivity; discriminate. Qed.

Lemma alreadySigned_spec (userId : string) (sigs : list Signature.t) :
  existsb (fun sig => String.eqb (Signature.managerId sig) userId) sigs = true
  <-> userId ∈ Signature.managerId <$> sigs.
Proof.
  induction sigs as [|s sigs IH]; cbn [existsb fmap list_fmap].
  - split; [discriminate | intros H; inversion H].
  - rewrite orb_true_iff, IH, String.eqb_eq, elem_of_cons. split.
    + intros [H|H]; [left; congruence | now right].
    + intros [H|H]; [left; congruence | now right].
Qed.

Variables (ledger : Ledger) (now : Z) (userId : string) (requestId : nat) (w : World).

Lemma approve_not_manager :
  (forall user, ~ isManager w userId user) ->
  approve ledger now userId requestId w
  = (w, Response.fail 403 "Only managers can approve token creation", None).
Proof.
  intros H. unfold approve. destruct (users w !! userId) as [u|] eqn:E; [|reflexivity].
  rewrite notManager_true; [reflexivity|]. intros Hr. apply (H u). now split.
Qed.

Lemma approve_not_found (user : User.t) :
  isManager w userId user -> requests w !! requestId = None ->
  approve ledger now userId requestId w = (w, Response.fail 404 "Request not found", None).
Proof.
  intros [Hu Hr] Hnone. unfold approve. now rewrite Hu, (notManager_false _ Hr), Hnone.
Qed.

Lemma approve_not_pending (user : User.t) (r : MultiSigRequest.t) :
  isManager w userId user -> requests w !! requestId = Some r ->
  MultiSigRequest.status r <> pending ->
  approve ledger now userId requestId w
  = (w,
     Response.fail 400 ("Request is already " +:+ Status_toString (MultiSigRequest.status r)),
     Some (Document.load r)).
Proof.
  intros [Hu Hr] Hsome Hst. unfold approve.
  rewrite Hu, (notManager_false _ Hr), Hsome.
  destruct (Status_eqb (MultiSigRequest.status r) pending) eqn:E; [|reflexivity].
  apply Status_eqb_eq in E. contradiction.
Qed.

Lemma approve_expired (user : User.t) (r : MultiSigRequest.t) :
  isManager w userId user -> requests w !! requestId = Some r ->
  MultiSigRequest.status r = pending ->
  (MultiSigRequest.expiresAt r < now)%Z ->
  approve ledger now userId requestId w
  = (save requestId (Document.load (MultiSigRequest.set_status rejected r)) w,
     Response.fail 400 "Request has expired",
     Some (Document.load (MultiSigRequest.set_status rejected r))).
Proof.
  intros [Hu Hr] Hsome Hst Hexp. unfold approve.
  rewrite Hu, (notManager_false _ Hr), Hsome, Hst. cbn [Status_eqb negb].
  apply Z.ltb_lt in Hexp. now rewrite Hexp.
Qed.

Lemma approve_duplicate (user : User.t) (r : MultiSigRequest.t) :
  isManager w userId user -> requests w !! requestId = Some r ->
  MultiSigRequest.status r = pending ->
  (now <= MultiSigRequest.expiresAt r)%Z ->
  userId ∈ signers r ->
  approve ledger now userId requestId w
  = (w, Response.fail 400 "You have already signed this request", Some (Document.load r)).
Proof.
  intros [Hu Hr] Hsome Hst Hexp Hin. unfold approve.
  rewrite Hu, (notManager_false _ Hr), Hsome, Hst. cbn [Status_eqb negb].
  apply Z.ltb_ge in Hexp. rewrite Hexp.
  apply alreadySigned_spec in Hin. now rewrite Hin.
Qed.

Lemma approve_quorum (user : User.t) (r : MultiSigRequest.t) :
  isManager w userId user -> requests w !! requestId = Some r ->
  MultiSigRequest.status r = pending ->
  (now <= MultiSigRequest.expiresAt r)%Z ->
  userId ∉ signers r ->
  approve ledger now userId requestId w
  = (let d := Document.load (approvedBy userId user now r) in
     let '(w', response, d') := execute ledger now requestId d (save requestId d w) in
     (w', response, Some d')).
Proof.
  intros [Hu Hr] Hsome Hst Hexp Hin. unfold approve.
  rewrite Hu, (notManager_false _ Hr), Hsome, Hst. cbn [Status_eqb negb].
  apply Z.ltb_ge in Hexp. rewrite Hexp.
  destruct (existsb _ _) eqn:E; [|reflexivity].
  apply alreadySigned_spec in E. contradiction.
Qed.

Section Quorum.
Variables (user : User.t) (r : MultiSigRequest.t).
Hypothesis Hmanager : isManager w userId user.
Hypothesis Hfound : requests w !! requestId = Some r.
Hypothesis Hpending : MultiSigRequest.status r = pending.
Hypothesis Hfresh : (now <= MultiSigRequest.expiresAt r)%Z.
Hypothesis Hsecond : userId ∉ signers r.

Lemma approve_quorum_failed (message : string) :
  ledger (MultiSigRequest.requestData r) = Throw message ->
  approve ledger now userId requestId w
  = ({| users := users w;
        tokens := tokens w;
        requests := <[requestId := rejectedAfter userId user now r]> (requests w);
        hederaTokenId := hederaTokenId w;
        interestService := interestService w;
        ledgerCalls := ledgerCalls w ++ [(requestId, MultiSigRequest.requestData r)] |},
     Response.serverError approveError message,
     Some (Document.mk (rejectedAfter userId user now r) (Some message))).
Proof.
  intros Hledger.
  rewrite (approve_quorum user r Hmanager Hfound Hpending Hfresh Hsecond).
  unfold execute, createTokenWithMultiSig. cbn. rewrite Hledger.
  unfold executionFailed, save, set_requests. cbn.
  now rewrite list_insert_insert_eq.
Qed.

Lemma approve_quorum_token_refused (tokenResult : TokenResult.t) (refusal : string) :
  ledger (MultiSigRequest.requestData r) = Ok tokenResult ->
  tokenError tokenResult w = Some refusal ->
  approve ledger now userId requestId w
  = ({| users := users w;
        tokens := tokens w;
        requests := <[requestId := rejectedAfter userId user now r]> (requests w);
        hederaTokenId := Some (TokenResult.tokenId tokenResult);
        interestService := interestService w;
        ledgerCalls := ledgerCalls w ++ [(requestId, MultiSigRequest.requestData r)] |},
     Response.serverError approveError refusal,
     Some (Document.mk (rejectedAfter userId user now r) (Some refusal))).
Proof.
  intros Hledger Hrefused.
  rewrite (approve_quorum user r Hmanager Hfound Hpending Hfresh Hsecond).
  unfold execute, createTokenWithMultiSig. cbn. rewrite Hledger.
  unfold saveToken. cbn [tokens]. unfold tokenError, tokenIdTaken in Hrefused.
  change (Token.tokenId (tokenOf tokenResult)) with (TokenResult.tokenId tokenResult).
  destruct (negb (validToken (tokenOf tokenResult))).
  - injection Hrefused as <-. unfold executionFailed, save, set_requests. cbn.
    now rewrite list_insert_insert_eq.
  - destruct (existsb _ (tokens w)); [|discriminate].
    injection Hrefused as <-. unfold executionFailed, save, set_requests. cbn.
    now rewrite list_insert_insert_eq.
Qed.

Lemma approve_quorum_executed (tokenResult : TokenResult.t) :
  ledger (MultiSigRequest.requestData r) = Ok tokenResult ->
  tokenError tokenResult w = None ->
  approve ledger now userId requestId w
  = ({| users := users w;
        tokens := tokens w ++ [tokenOf tokenResult];
        requests := <[requestId := executedAfter userId user now tokenResult r]> (requests w);
        hederaTokenId := Some (TokenResult.tokenId tokenResult);
        interestService := interestService w;
        ledgerCalls := ledgerCalls w ++ [(requestId, MultiSigRequest.requestData r)] |},
     Response.ok "Token creation approved and executed successfully"
       (TokenCreatedData (TokenResult.tokenId tokenResult)
                         (TokenResult.name tokenResult)
                         (TokenResult.symbol tokenResult)
                         (TokenResult.transactionId tokenResult)
                         (TokenResult.treasuryAccount tokenResult)),
     Some (Document.mk (executedAfter userId user now tokenResult r) None)).
Proof.
  intros Hledger Haccepted.
  rewrite (approve_quorum user r Hmanager Hfound Hpending Hfresh Hsecond).
  unfold execute, createTokenWithMultiSig. cbn. rewrite Hledger.
  unfold saveToken. cbn [tokens]. unfold tokenError, tokenIdTaken in Haccepted.
  change (Token.tokenId (tokenOf tokenResult)) with (TokenResult.tokenId tokenResult).
  destruct (negb (validToken (tokenOf tokenResult))); [discriminate|].
  destruct (existsb _ (tokens w)); [discriminate|].
  unfold save, set_requests, setTokenId. cbn.
  now rewrite list_insert_insert_eq.
Qed.

End Quorum.

End ApproveBranches.

(** ** Every call, and what it can do to the state *)

Section Steps.
Import managerController.

(** The state after [approveTokenCreation] is the state before, or the
    request was pending and is now rejected for expiry, or the request was
    pending, gained the caller's signature, the ledger was called once
    for it and it is now rejected or executed. *)
Lemma approve_world_cases (ledger : Ledger) (now : Z) (userId : string)
    (requestId : nat) (w : World) :
  let w' := fst (approveTokenCreation ledger now userId requestId w) in
  w' = w
  \/ (exists r,
        requests w !! requestId = Some r /\ MultiSigRequest.status r = pending
        /\ w' = set_requests (<[requestId := MultiSigRequest.set_status rejected r]> (requests w)) w)
  \/ (exists r user final tokens' tokenId',
        requests w !! requestId = Some r /\ MultiSigRequest.status r = pending
        /\ (userId ∉ signers r)
        /\ isManager w userId user
        /\ w' = {| users := users w; tokens := tokens';
                   requests := <[requestId := final]> (requests w);
                   hederaTokenId := tokenId';
                   interestService := interestService w;
                   ledgerCalls := ledgerCalls w ++ [(requestId, MultiSigRequest.requestData r)] |}
        /\ ((final = rejectedAfter userId user now r /\ tokens' = tokens w)
            \/ exists tokenResult,
                 final = executedAfter userId user now tokenResult r
                 /\ tokens' = tokens w ++ [tokenOf tokenResult])).
Proof.
  unfold approveTokenCreation. cbn zeta.
  destruct (users w !! userId) as [user|] eqn:Hu.
  2:{ left. rewrite approve_not_manager; [reflexivity|].
      intros u [H _]. congruence. }
  destruct (decide (User.role user = manager)) as [Hr|Hr].
  2:{ left. rewrite approve_not_manager; [reflexivity|].
      intros u [H1 H2]. congruence. }
  assert (Hm : isManager w userId user) by now split.
  destruct (requests w !! requestId) as [r|] eqn:Hreq.
  2:{ left. now rewrite (approve_not_found _ _ _ _ _ user). }
  destruct (decide (MultiSigRequest.status r = pending)) as [Hst|Hst].
  2:{ left. now rewrite (approve_not_pending _ _ _ _ _ user r). }
  destruct (Z.lt_ge_cases (MultiSigRequest.expiresAt r) now) as [Hexp|Hexp].
  { right; left. exists r. rewrite (approve_expired _ _ _ _ _ user r) by assumption.
    repeat split; assumption || reflexivity. }
  destruct (decide (userId ∈ signers r)) as [Hin|Hin].
  { left. now rewrite (approve_duplicate _ _ _ _ _ user r). }
  right; right.
  destruct (ledger (MultiSigRequest.requestData r)) as [tokenResult|message] eqn:Hl.
  - destruct (tokenError tokenResult w) as [refusal|] eqn:Ht.
    + rewrite (approve_quorum_token_refused _ _ _ _ _ user r Hm Hreq Hst Hexp Hin _ _ Hl Ht).
      eexists r, user, _, _, _. repeat split; try eassumption. now left.
    + rewrite (approve_quorum_executed _ _ _ _ _ user r Hm Hreq Hst Hexp Hin _ Hl Ht).
      eexists r, user, _, _, _. repeat split; try eassumption. right. now exists tokenResult.
  - rewrite (approve_quorum_failed _ _ _ _ _ user r Hm Hreq Hst Hexp Hin _ Hl).
    eexists r, user, _, _, _. repeat split; try eassumption. now left.
Qed.

(** The two initiating calls leave the state as it is or add one pending
    request that carries the caller's signature alone. *)
Lemma initiateTokenCreation_world_cases (env : Env) (now : Z) (userId : string)
    (body : TokenBody) (w : World) :
  let w' := fst (initiateTokenCreation env now userId body w) in
  w' = w
  \/ (exists r, w' = insertRequest r w /\ MultiSigRequest.status r = pending
                /\ signers r = [userId]
                /\ MultiSigRequest.requestType r = token_creation
                /\ tokens w = []
                /\ exists user, isManager w userId user).
Proof.
  unfold initiateTokenCreation. cbn zeta.
  destruct (users w !! userId) as [user|] eqn:Hu; [|now left].
  destruct (notManager (Some user)) eqn:Hn; [now left|].
  destruct (tokens w) eqn:Ht; [|now left].
  right. eexists. split; [reflexivity|]. repeat split.
  exists user. split; [exact Hu | now apply notManager_inv].
Qed.

Lemma updateInterestRate_world_cases (env : Env) (now : Z) (userId : string)
    (newRate : option number) (w : World) :
  let w' := fst (updateInterestRate env now userId newRate w) in
  w' = w
  \/ (exists r, w' = insertRequest r w /\ MultiSigRequest.status r = pending
                /\ signers r = [userId]
                /\ MultiSigRequest.requestType r = rate_change
                /\ exists user, isManager w userId user).
Proof.
  unfold updateInterestRate. cbn zeta.
  destruct (users w !! userId) as [user|] eqn:Hu; [|now left].
  destruct (notManager (Some user)) eqn:Hn; [now left|].
  destruct newRate as [newRate|]; [|now left].
  destruct (_ || _); [now left|].
  right. eexists. split; [reflexivity|]. repeat split.
  exists user. split; [exact Hu | now apply notManager_inv].
Qed.

End Steps.

(** ** The invariant of the request collection *)

Section Invariant.
Import managerController.

Lemma callsFor_logged (requestId requestId' : nat) (config : RequestData) (w w' : World) :
  ledgerCalls w' = ledgerCalls w ++ [(requestId', config)] ->
  callsFor requestId w'
  = callsFor requestId w ++ (if decide (requestId' = requestId) then [(requestId', config)] else []).
Proof.
  intros H. unfold callsFor. rewrite H, filter_app. reflexivity.
Qed.

Lemma signers_pushed (userId : string) (user : User.t) (now : Z) (r : MultiSigRequest.t) :
  signers (MultiSigRequest.push_signature (signatureOf userId user now) r)
  = signers r ++ [userId].
Proof. unfold signers. cbn. now rewrite fmap_app. Qed.












End Invariant.

(** ** The handlers in flight *)

Section Flight.
Import managerController.

Lemma update_requests (requestId : nat) (c : Async.Changes) (w : World) (j : nat) :
  requests (Async.update requestId c w) !! j
  = if decide (j = requestId) then Async.write c <$> requests w !! j
    else requests w !! j.
Proof.
  unfold Async.update.
  destruct (requests w !! requestId) as [r|] eqn:Hr; cbn.
  - destruct (decide (j = requestId)) as [->|Hne].
    + rewrite Hr. cbn. apply list_lookup_insert_eq. now apply lookup_lt_Some in Hr.
    + now apply list_lookup_insert_ne.
  - destruct (decide (j = requestId)) as [->|Hne]; [now rewrite Hr | reflexivity].
Qed.

Lemma update_found (requestId : nat) (c : Async.Changes) (w : World)
    (r : MultiSigRequest.t) :
  requests w !! requestId = Some r ->
  Async.update requestId c w = save requestId (Document.load (Async.write c r)) w.
Proof. intros Hr. unfold Async.update. now rewrite Hr. Qed.

Lemma save_lookup (requestId : nat) (d : Document.t) (w : World) (r : MultiSigRequest.t) :
  requests w !! requestId = Some r ->
  requests (save requestId d w) !! requestId = Some (Document.paths d).
Proof.
  intros Hr. cbn. apply list_lookup_insert_eq. now apply lookup_lt_Some in Hr.
Qed.

Lemma saveToken_requests (token : Token.t) (w w' : World) :
  saveToken token w = Ok w' ->
  requests w' = requests w /\ users w' = users w /\ ledgerCalls w' = ledgerCalls w.
Proof.
  unfold saveToken. destruct (negb (validToken token)); [discriminate|].
  destruct (existsb _ (tokens w)); [discriminate|].
  intros [= <-]. now cbn.
Qed.

Lemma finish_execute (ledger : Ledger) (now : Z) (requestId : nat) (d : Document.t)
    (w : World) :
  requests w !! requestId = Some (Document.paths d) ->
  Async.finish 3 now (Async.ApproveCreateToken ledger requestId d) w
  = (fst (fst (execute ledger now requestId d w)),
     Async.Responded (snd (fst (execute ledger now requestId d w)))).
Proof.
  intros Hd. unfold execute. cbn [Async.finish Async.resume].
  assert (Hd' : forall calls tokenId,
             requests (mkWorld (users w) (tokens w) (requests w) tokenId
                               (interestService w) calls) !! requestId
             = Some (Document.paths d)) by (intros; exact Hd).
  unfold createTokenWithMultiSig.
  destruct (ledger (MultiSigRequest.requestData (Document.paths d)))
    as [tokenResult|message].
  - specialize (Hd' (ledgerCalls w
                     ++ [(requestId, MultiSigRequest.requestData (Document.paths d))])
                    (Some (TokenResult.tokenId tokenResult))).
    cbn [Async.resume].
    set (w1 := mkWorld _ _ _ _ _ _) in *. clearbody w1.
    destruct (saveToken (tokenOf tokenResult) w1) as [w2|message] eqn:Hsave.
    + apply saveToken_requests in Hsave as [Hreq _]. rewrite <- Hreq in Hd'.
      cbn [Async.resume]. rewrite (update_found _ _ _ _ Hd'). reflexivity.
    + unfold Async.caught, executionFailed. cbn [Async.resume].
      rewrite (update_found _ _ _ _ Hd'). reflexivity.
  - specialize (Hd' (ledgerCalls w
                     ++ [(requestId, MultiSigRequest.requestData (Document.paths d))])
                    (hederaTokenId w)).
    set (w1 := mkWorld _ _ _ _ _ _) in *. clearbody w1.
    unfold Async.caught, executionFailed. cbn [Async.resume].
    rewrite (update_found _ _ _ _ Hd'). reflexivity.
Qed.

Lemma finish_more (n m : nat) (now : Z) (t : Async.Task) (w w' : World)
    (response : Response.t) :
  Async.finish n now t w = (w', Async.Responded response) ->
  Async.finish (n + m) now t w = (w', Async.Responded response).
Proof.
  revert t w. induction n as [|n IH]; intros t w; cbn [Async.finish Nat.add].
  - intros [= -> ->]. induction m as [|m IHm]; [reflexivity | exact IHm].
  - destruct (Async.resume now t w) as [w1 t1]. apply IH.
Qed.

Lemma finish_S (n : nat) (now : Z) (t : Async.Task) (w : World) :
  Async.finish (S n) now t w
  = Async.finish n now (snd (Async.resume now t w)) (fst (Async.resume now t w)).
Proof. cbn [Async.finish]. now destruct (Async.resume now t w). Qed.

(** A handler that nothing interrupts does what the call does when it is
    served at once. *)
Lemma finish_step (now : Z) (c : Call) (w : World) :
  Async.finish 6 now (Async.start c) w
  = (fst (step now c w), Async.Responded (snd (step now c w))).
Proof.
  destruct c as [env userId body|ledger userId requestId|env userId newRate]; cbn [Async.start step].
  - unfold initiateTokenCreation. cbn [Async.finish Async.resume].
    destruct (users w !! userId) as [user|]; [|reflexivity].
    destruct (notManager (Some user)); [reflexivity|].
    cbn [Async.finish Async.resume].
    destruct (tokens w); reflexivity.
  - unfold approveTokenCreation, approve. rewrite 2!finish_S.
    cbn [Async.resume].
    destruct (users w !! userId) as [user|]; [|reflexivity].
    destruct (notManager (Some user)); [reflexivity|].
    cbn [Async.resume fst snd].
    destruct (requests w !! requestId) as [found|] eqn:Hfound; [|reflexivity].
    destruct (negb (Status_eqb (MultiSigRequest.status found) pending)); [reflexivity|].
    destruct (MultiSigRequest.expiresAt found <? now)%Z.
    { cbn [Async.finish Async.resume fst snd]. now rewrite (update_found _ _ _ _ Hfound). }
    cbn zeta.
    destruct (existsb _ (MultiSigRequest.signatures found)); [reflexivity|].
    cbn [fst snd]. rewrite finish_S. cbn [Async.resume fst snd].
    rewrite (update_found _ _ _ _ Hfound).
    rewrite (finish_more 3 0 now _ _ _ _ (finish_execute _ _ _ _ _ (save_lookup _ _ _ _ Hfound))).
    now destruct (execute _ _ _ _ _) as [[w' response] d'].
  - unfold updateInterestRate. cbn [Async.finish Async.resume].
    destruct (users w !! userId) as [user|]; [|reflexivity].
    destruct (notManager (Some user)); [reflexivity|].
    destruct newRate as [newRate|]; [|reflexivity].
    destruct (Number.falsy newRate || Number.lt newRate (Num 0)
              || Number.gt newRate (Num 100)); reflexivity.
Qed.

Lemma play_app (events events' : list (Z * Async.Event)) (s : Async.Server) :
  Async.play (events ++ events') s = Async.play events' (Async.play events s).
Proof.
  revert s. induction events as [|[now e] events IH]; intros s; [reflexivity|].
  cbn [app Async.play]. apply IH.
Qed.

Lemma play_resumes (n : nat) (now : Z) (t : Async.Task) (w : World)
    (ts : list Async.Task) :
  Async.play (replicate n (now, Async.Resumes (length ts)))
    {| Async.world := w; Async.tasks := ts ++ [t] |}
  = {| Async.world := fst (Async.finish n now t w);
       Async.tasks := ts ++ [snd (Async.finish n now t w)] |}.
Proof.
  revert t w. induction n as [|n IH]; intros t w; [reflexivity|].
  cbn [replicate Async.play Async.react Async.world Async.tasks].
  rewrite (list_lookup_middle ts [] t (length ts) eq_refl).
  rewrite finish_S. destruct (Async.resume now t w) as [w1 t1].
  rewrite insert_app_r_alt by lia. rewrite Nat.sub_diag. cbn [fst snd]. apply IH.
Qed.

(** A call that is served alone is served as [step] serves it. *)
Lemma play_alone (now : Z) (c : Call) (s : Async.Server) :
  Async.play (Async.alone now c (length (Async.tasks s))) s
  = {| Async.world := fst (step now c (Async.world s));
       Async.tasks := Async.tasks s ++ [Async.Responded (snd (step now c (Async.world s)))] |}.
Proof.
  unfold Async.alone. cbn [Async.play Async.react].
  rewrite play_resumes, finish_step. reflexivity.
Qed.

Lemma play_oneByOne (calls : list (Z * Call)) (s : Async.Server) :
  Async.world (Async.play (Async.oneByOne calls (length (Async.tasks s))) s)
  = run calls (Async.world s).
Proof.
  revert s. induction calls as [|[now c] calls IH]; intros s; [reflexivity|].
  cbn [Async.oneByOne run]. rewrite play_app, play_alone.
  set (s' := Async.mkServer _ _).
  replace (S (length (Async.tasks s))) with (length (Async.tasks s'))
    by (subst s'; cbn; rewrite length_app; cbn; lia).
  now rewrite IH.
Qed.

(** The states that calls served one after the other reach are states of
    the server. *)
Lemma reachable_one_by_one (w : World) :
  reachable w -> exists s, Async.reachable s /\ Async.world s = w.
Proof.
  intros (us & service & calls & ->).
  exists (Async.play (Async.oneByOne calls 0) (Async.boot us service)). split.
  - now exists us, service, (Async.oneByOne calls 0).
  - exact (play_oneByOne calls (Async.boot us service)).
Qed.

(** *** What a write changes *)

Lemma write_signers (c : Async.Changes) (r : MultiSigRequest.t) :
  signers (Async.write c r)
  = signers r ++ match Async.pushed c with
                 | Some sig => [Signature.managerId sig]
                 | None => []
                 end.
Proof.
  destruct c as [[sig|] [st|] [[at_ tx]|]]; unfold signers; cbn;
    rewrite ?fmap_app, ?app_nil_r; reflexivity.
Qed.

Lemma write_status (c : Async.Changes) (r : MultiSigRequest.t) :
  MultiSigRequest.status (Async.write c r)
  = default (MultiSigRequest.status r) (Async.assigned c).
Proof. destruct c as [[sig|] [st|] [[at_ tx]|]]; reflexivity. Qed.

Lemma write_required (c : Async.Changes) (r : MultiSigRequest.t) :
  MultiSigRequest.requiredSignatures (Async.write c r)
  = MultiSigRequest.requiredSignatures r.
Proof. destruct c as [[sig|] [st|] [[at_ tx]|]]; reflexivity. Qed.

Lemma update_others (requestId : nat) (c : Async.Changes) (w : World) :
  users (Async.update requestId c w) = users w
  /\ ledgerCalls (Async.update requestId c w) = ledgerCalls w
  /\ tokens (Async.update requestId c w) = tokens w.
Proof. unfold Async.update. now destruct (requests w !! requestId). Qed.

Lemma update_later (requestId : nat) (c : Async.Changes) (w : World) :
  Async.later w (Async.update requestId c w).
Proof.
  split; [apply update_others|].
  intros j r Hr. rewrite update_requests, Hr.
  destruct (decide (j = requestId)) as [->|Hne]; cbn.
  - eexists _, _. split; [reflexivity | apply write_signers].
  - exists r, []. now rewrite app_nil_r.
Qed.

Lemma later_refl (w : World) : Async.later w w.
Proof. split; [reflexivity|]. intros j r Hr. exists r, []. now rewrite app_nil_r. Qed.

Lemma later_same (w w' : World) :
  users w' = users w -> requests w' = requests w -> Async.later w w'.
Proof.
  intros Hu Hr. split; [exact Hu|]. rewrite Hr.
  intros j r Hj. exists r, []. now rewrite app_nil_r.
Qed.

Lemma later_trans (w1 w2 w3 : World) :
  Async.later w1 w2 -> Async.later w2 w3 -> Async.later w1 w3.
Proof.
  intros [Hu1 Hr1] [Hu2 Hr2]. split; [congruence|].
  intros j r Hr. destruct (Hr1 _ _ Hr) as (r2 & more & Hr' & Hs).
  destruct (Hr2 _ _ Hr') as (r3 & more' & Hr'' & Hs').
  exists r3, (more ++ more'). split; [exact Hr''|]. now rewrite Hs', Hs, app_assoc.
Qed.

Lemma insertRequest_later (r : MultiSigRequest.t) (w : World) :
  Async.later w (insertRequest r w).
Proof.
  split; [reflexivity|]. intros j r' Hr. exists r', []. split.
  - cbn. now apply lookup_app_l_Some.
  - now rewrite app_nil_r.
Qed.

Lemma managerId_users (w w' : World) (userId : string) :
  users w' = users w -> Async.managerId w userId -> Async.managerId w' userId.
Proof. intros Hu [user [H1 H2]]. exists user. split; [now rewrite Hu | exact H2]. Qed.

Lemma storedInv_users (w w' : World) (r : MultiSigRequest.t) :
  users w' = users w -> Async.storedInv w r -> Async.storedInv w' r.
Proof.
  intros Hu (H1 & H2 & H3 & H4 & H5).
  repeat split; try assumption.
  intros userId Hin. apply (managerId_users w); [exact Hu | now apply H3].
Qed.

Lemma secondSigner_more (r r' : MultiSigRequest.t) (more : list string) :
  signers r' = signers r ++ more -> Async.secondSigner r -> Async.secondSigner r'.
Proof.
  intros Hs (first & rest & other & Hr & Hin & Hne).
  exists first, (rest ++ more), other. rewrite Hs, Hr. split; [reflexivity|].
  split; [|exact Hne]. apply elem_of_app. now left.
Qed.

Lemma signedRequest_later (w w' : World) (requestId : nat) :
  Async.later w w' -> Async.signedRequest w requestId -> Async.signedRequest w' requestId.
Proof.
  intros [_ Hl] (r & Hr & Hsecond).
  destruct (Hl _ _ Hr) as (r' & more & Hr' & Hs).
  exists r'. split; [exact Hr'|]. exact (secondSigner_more _ _ _ Hs Hsecond).
Qed.

Lemma taskInv_later (w w' : World) (t : Async.Task) :
  Async.later w w' -> Async.taskInv w t -> Async.taskInv w' t.
Proof.
  intros Hl. pose proof Hl as [Hu Hreq].
  destruct t; cbn [Async.taskInv]; try (intros; exact I);
    try (apply signedRequest_later; exact Hl).
  - intros [H1 H2]. split; [now rewrite Hu | exact H2].
  - intros (H1 & H2 & userId & H3 & H4). split; [exact H1|]. split; [exact H2|].
    exists userId. split; [exact H3 | exact (managerId_users _ _ _ Hu H4)].
  - intros (H1 & H2 & userId & H3 & H4). split; [exact H1|]. split; [exact H2|].
    exists userId. split; [exact H3 | exact (managerId_users _ _ _ Hu H4)].
  - intros [H1 H2]. split; [now rewrite Hu | exact H2].
  - intros (Hm & r & first & rest & Hr & Hs & Hne).
    split; [exact (managerId_users _ _ _ Hu Hm)|].
    destruct (Hreq _ _ Hr) as (r' & more & Hr' & Hs').
    exists r', first, (rest ++ more). split; [exact Hr'|]. split; [|exact Hne].
    now rewrite Hs', Hs.
Qed.

(** *** The invariant *)

Lemma worldInv_same (w w' : World) :
  users w' = users w -> requests w' = requests w -> Async.worldInv w -> Async.worldInv w'.
Proof.
  intros Hu Hr Hinv j r Hj. rewrite Hr in Hj.
  exact (storedInv_users _ _ _ Hu (Hinv _ _ Hj)).
Qed.

Lemma insertRequest_worldInv (r : MultiSigRequest.t) (w : World) :
  Async.worldInv w -> Async.opened w r -> Async.worldInv (insertRequest r w).
Proof.
  intros Hinv (H1 & H2 & userId & H3 & H4) j r' Hj. cbn in Hj.
  apply lookup_snoc_Some in Hj as [[_ Hj]|[_ <-]].
  - exact (storedInv_users w _ _ eq_refl (Hinv _ _ Hj)).
  - split; [exact H1|]. split; [now rewrite H3|]. split.
    + intros u Hu. rewrite H3 in Hu. apply list_elem_of_singleton in Hu as ->.
      exact H4.
    + split; [now rewrite H3 | congruence].
Qed.

Lemma update_worldInv (requestId : nat) (c : Async.Changes) (w : World) :
  Async.worldInv w ->
  (exists st, Async.assigned c = Some st /\ st <> pending) ->
  (forall sig, Async.pushed c = Some sig -> Async.managerId w (Signature.managerId sig)) ->
  (Async.assigned c = Some executed ->
   Async.pushed c = None /\ Async.signedRequest w requestId) ->
  Async.worldInv (Async.update requestId c w).
Proof.
  intros Hinv (st & Hst & Hnp) Hpushed Hexecuted j r Hj.
  destruct (update_others requestId c w) as (Hu & _).
  rewrite update_requests in Hj.
  destruct (decide (j = requestId)) as [->|Hne].
  2:{ exact (storedInv_users _ _ _ Hu (Hinv _ _ Hj)). }
  destruct (requests w !! requestId) as [r0|] eqn:Hr0; [|discriminate].
  injection Hj as <-.
  apply (storedInv_users w); [exact Hu|].
  destruct (Hinv _ _ Hr0) as (H1 & H2 & H3 & H4 & H5).
  split; [now rewrite write_required|].
  split.
  { rewrite write_signers. destruct (signers r0); [contradiction | discriminate]. }
  split.
  { intros u Hin. rewrite write_signers in Hin. apply elem_of_app in Hin as [Hin|Hin].
    - now apply H3.
    - destruct (Async.pushed c) as [sig|]; [|now apply elem_of_nil in Hin].
      apply list_elem_of_singleton in Hin as ->. now apply Hpushed. }
  rewrite write_status, Hst. cbn. split; [intros ->; contradiction|].
  intros ->. destruct (Hexecuted Hst) as (Hnone & r1 & Hr1 & Hsecond).
  rewrite Hr0 in Hr1. injection Hr1 as <-.
  apply (secondSigner_more r0 _ []); [|exact Hsecond].
  now rewrite write_signers, Hnone.
Qed.

Lemma isManager_lookup (w : World) (userId : string) (user : User.t) :
  users w !! userId = Some user -> notManager (Some user) = false ->
  isManager w userId user.
Proof.
  intros Hu Hn. split; [exact Hu | now apply notManager_inv].
Qed.

Lemma signedRequest_same (w w' : World) (requestId : nat) :
  requests w' = requests w -> Async.signedRequest w requestId ->
  Async.signedRequest w' requestId.
Proof. unfold Async.signedRequest. now intros ->. Qed.

(** A step of a handler keeps what holds of the stored requests and
    gives the handler what its next step relies on. *)
Lemma resume_inv (now : Z) (t : Async.Task) (w : World) :
  Async.worldInv w -> Async.taskInv w t ->
  Async.worldInv (fst (Async.resume now t w))
  /\ Async.taskInv (fst (Async.resume now t w)) (snd (Async.resume now t w))
  /\ Async.later w (fst (Async.resume now t w)).
Proof.
  intros Hinv Ht.
  destruct t as [env userId body|env userId user body|r|env userId newRate|r newRate
                |ledger userId requestId|ledger userId user requestId|requestId d
                |ledger requestId d sig|ledger requestId d|requestId d tokenResult
                |requestId d tokenResult executedAt|requestId d message|response];
    cbn [Async.resume Async.taskInv] in *.
  - destruct (users w !! userId) as [user|] eqn:Hu;
      [|cbn; auto using later_refl].
    destruct (notManager (Some user)) eqn:Hn; cbn; auto using later_refl.
    split; [exact Hinv|]. split; [|apply later_refl]. now apply isManager_lookup.
  - destruct (tokens w); cbn; auto using later_refl.
    split; [exact Hinv|]. split; [|apply later_refl].
    split; [reflexivity|]. split; [reflexivity|].
    exists userId. split; [reflexivity | now exists user].
  - cbn. split; [now apply insertRequest_worldInv|]. split; [exact I|].
    apply insertRequest_later.
  - destruct (users w !! userId) as [user|] eqn:Hu;
      [|cbn; auto using later_refl].
    destruct (notManager (Some user)) eqn:Hn; [cbn; auto using later_refl|].
    destruct newRate as [newRate|]; [|cbn; auto using later_refl].
    destruct (Number.falsy newRate || Number.lt newRate (Num 0)
              || Number.gt newRate (Num 100)); cbn; auto using later_refl.
    split; [exact Hinv|]. split; [|apply later_refl].
    split; [reflexivity|]. split; [reflexivity|].
    exists userId. split; [reflexivity|]. exists user. now apply isManager_lookup.
  - cbn. split; [now apply insertRequest_worldInv|]. split; [exact I|].
    apply insertRequest_later.
  - destruct (users w !! userId) as [user|] eqn:Hu;
      [|cbn; auto using later_refl].
    destruct (notManager (Some user)) eqn:Hn; cbn; auto using later_refl.
    split; [exact Hinv|]. split; [|apply later_refl]. now apply isManager_lookup.
  - destruct (requests w !! requestId) as [found|] eqn:Hfound;
      [|cbn; auto using later_refl].
    destruct (negb (Status_eqb (MultiSigRequest.status found) pending));
      [cbn; auto using later_refl|].
    destruct (MultiSigRequest.expiresAt found <? now)%Z;
      [cbn; auto using later_refl|].
    cbn zeta.
    destruct (existsb _ (MultiSigRequest.signatures found)) eqn:Hsigned;
      [cbn; auto using later_refl|].
    cbn. split; [exact Hinv|]. split; [|apply later_refl].
    split; [now exists user|].
    destruct (Hinv _ _ Hfound) as (_ & Hne & _).
    destruct (signers found) as [|first rest] eqn:Hs; [contradiction|].
    exists found, first, rest. split; [exact Hfound|]. split; [exact Hs|].
    intros <-.
    assert (Hex : existsb (fun sig => String.eqb (Signature.managerId sig) userId)
                    (MultiSigRequest.signatures found) = true).
    { apply alreadySigned_spec. fold (signers found). rewrite Hs. now left. }
    congruence.
  - cbn. split; [|split; [exact I | apply update_later]].
    apply update_worldInv; [exact Hinv | | discriminate | discriminate].
    exists rejected. split; [reflexivity | discriminate].
  - destruct Ht as (Hm & r & first & rest & Hr & Hs & Hne).
    cbn. split; [|split; [|apply update_later]].
    + apply update_worldInv; [exact Hinv | | | discriminate].
      * exists approved. split; [reflexivity | discriminate].
      * cbn. now intros sig' [= <-].
    + unfold Async.signedRequest. rewrite update_requests, Hr.
      destruct (decide (requestId = requestId)); [|contradiction]. cbn.
      eexists. split; [reflexivity|].
      exists first, (rest ++ [Signature.managerId sig]), (Signature.managerId sig).
      unfold signers in *. cbn. rewrite fmap_app, Hs. cbn.
      split; [reflexivity|]. split; [|exact Hne].
      apply elem_of_app. right. now left.
  - unfold createTokenWithMultiSig.
    destruct (ledger (MultiSigRequest.requestData (Document.paths d)))
      as [tokenResult|message]; cbn.
    + split; [exact (worldInv_same w _ eq_refl eq_refl Hinv)|].
      split; [exact (signedRequest_same w _ _ eq_refl Ht)|].
      now apply later_same.
    + split; [exact (worldInv_same w _ eq_refl eq_refl Hinv)|].
      split; [exact I|]. now apply later_same.
  - destruct (saveToken (tokenOf tokenResult) w) as [w'|message] eqn:Hsave; cbn.
    + apply saveToken_requests in Hsave as (Hr & Hu & _).
      split; [exact (worldInv_same w _ Hu Hr Hinv)|].
      split; [exact (signedRequest_same w _ _ Hr Ht)|].
      now apply later_same.
    + auto using later_refl.
  - cbn. split; [|split; [exact I|]].
    + apply (worldInv_same (Async.update requestId
               {| Async.pushed := None; Async.assigned := Some executed;
                  Async.execution := Some (executedAt, TokenResult.transactionId tokenResult) |}
               w)); [reflexivity | reflexivity |].
      apply update_worldInv; [exact Hinv | | discriminate | ].
      * exists executed. split; [reflexivity | discriminate].
      * intros _. split; [reflexivity | exact Ht].
    + eapply later_trans; [apply update_later|]. now apply later_same.
  - cbn. split; [|split; [exact I | apply update_later]].
    apply update_worldInv; [exact Hinv | | discriminate | discriminate].
    exists rejected. split; [reflexivity | discriminate].
  - cbn. auto using later_refl.
Qed.

Lemma react_inv (now : Z) (e : Async.Event) (s : Async.Server) :
  Async.serverInv s -> Async.serverInv (Async.react now e s).
Proof.
  intros [Hw Ht]. destruct e as [c|i]; cbn [Async.react].
  - cbn. split; [exact Hw|]. intros i t Hi.
    apply lookup_snoc_Some in Hi as [[_ Hi]|[_ <-]]; [now apply (Ht i)|].
    now destruct c.
  - destruct (Async.tasks s !! i) as [t|] eqn:Hi; [|now split].
    destruct (resume_inv now t (Async.world s) Hw (Ht _ _ Hi)) as (H1 & H2 & H3).
    destruct (Async.resume now t (Async.world s)) as [w' t']. cbn in *.
    split; [exact H1|]. intros j t'' Hj.
    apply list_lookup_insert_Some in Hj as [(<- & <- & _)|[_ Hj]]; [exact H2|].
    exact (taskInv_later _ _ _ H3 (Ht _ _ Hj)).
Qed.

Lemma play_inv (events : list (Z * Async.Event)) (s : Async.Server) :
  Async.serverInv s -> Async.serverInv (Async.play events s).
Proof.
  revert s. induction events as [|[now e] events IH]; intros s Hs; [exact Hs|].
  cbn [Async.play]. apply IH. now apply react_inv.
Qed.

Lemma reachable_inv (s : Async.Server) :
  Async.reachable s -> Async.serverInv s.
Proof.
  intros (us & service & events & ->). apply play_inv. split.
  - intros j r Hj. discriminate.
  - intros i t Hi. discriminate.
Qed.


(** *** A request that is not pending *)








(** *** The steps that sign and call the ledger *)





End Flight.

(** ** The claims about the multi-signature workflow *)

Section WorkflowClaims.
Import managerController.




Lemma reachable_run (calls : list (Z * Call)) (us : gmap string User.t)
    (service : InterestService) :
  reachable (run calls (initialWorld us service)).
Proof. now exists us, service, calls. Qed.

Lemma reachable_final : Async.reachable Race.final.
Proof. now exists Race.accounts, (constructor None), Race.events. Qed.

Lemma reachable_served :
  Async.reachable Race.served /\ reachable (Async.world Race.served).
Proof.
  split.
  - now exists Scenario.accounts, (constructor None), (Async.oneByOne Scenario.creation 0).
  - exists Scenario.accounts, (constructor None), Scenario.creation.
    exact (play_oneByOne Scenario.creation (Async.boot Scenario.accounts (constructor None))).
Qed.








(** On quorum the ledger is called, whatever it answers. *)
Lemma approve_quorum_calls (ledger : Ledger) (now : Z) (userId : string)
    (requestId : nat) (w : World) (user : User.t) (r : MultiSigRequest.t) :
  isManager w userId user -> requests w !! requestId = Some r ->
  MultiSigRequest.status r = pending -> (now <= MultiSigRequest.expiresAt r)%Z ->
  userId ∉ signers r ->
  ledgerCalls (fst (approveTokenCreation ledger now userId requestId w))
  = ledgerCalls w ++ [(requestId, MultiSigRequest.requestData r)].
Proof.
  intros Hm Hr Hst Hexp Hnot. unfold approveTokenCreation.
  destruct (ledger (MultiSigRequest.requestData r)) as [tokenResult|message] eqn:Hl.
  - destruct (tokenError tokenResult w) as [refusal|] eqn:Ht.
    + now rewrite (approve_quorum_token_refused _ _ _ _ _ user r Hm Hr Hst Hexp Hnot _ _ Hl Ht).
    + now rewrite (approve_quorum_executed _ _ _ _ _ user r Hm Hr Hst Hexp Hnot _ Hl Ht).
  - now rewrite (approve_quorum_failed _ _ _ _ _ user r Hm Hr Hst Hexp Hnot _ Hl).
Qed.

Lemma step_interestService (now : Z) (c : Call) (w : World) :
  interestService (fst (step now c w)) = interestService w.
Proof.
  destruct c as [env userId body|ledger userId requestId|env userId newRate]; cbn [step].
  - destruct (initiateTokenCreation_world_cases env now userId body w)
      as [->|(r & -> & _)]; reflexivity.
  - destruct (approve_world_cases ledger now userId requestId w)
      as [H|[(r & _ & _ & H)|(r & user & final & tokens' & tokenId' & _ & _ & _ & _ & H & _)]];
      cbn zeta in H; rewrite H; reflexivity.
  - destruct (updateInterestRate_world_cases env now userId newRate w)
      as [->|(r & -> & _)]; reflexivity.
Qed.

Lemma run_interestService (calls : list (Z * Call)) (w : World) :
  interestService (run calls w) = interestService w.
Proof.
  revert w. induction calls as [|[now c] calls IH]; intros w; cbn [run]; [reflexivity|].
  now rewrite IH, step_interestService.
Qed.

(** C3, on the code: when a second manager approves a pending, unexpired
    [rate_change] request, the ledger's [createTokenWithMultiSig] is called
    with the rate payload, and the interest service keeps the rate it had;
    no sequence of controller calls changes the interest service.  In the
    scenario, the approval of the request for 5% creates a token and
    leaves the annual rate at 8.5%. *)
Theorem approve_rate_change_calls_ledger (ledger : Ledger) (now : Z) (userId : string)
    (requestId : nat) (w : World) (user : User.t) (r : MultiSigRequest.t)
    (newRate previousRate : number)
    (Hmanager : isManager w userId user)
    (Hfound : requests w !! requestId = Some r)
    (Htype : MultiSigRequest.requestType r = rate_change)
    (Hdata : MultiSigRequest.requestData r = RateChange newRate previousRate)
    (Hpending : MultiSigRequest.status r = pending)
    (Hfresh : (now <= MultiSigRequest.expiresAt r)%Z)
    (Hsecond : userId ∉ signers r) :
  ledgerCalls (fst (approveTokenCreation ledger now userId requestId w))
  = ledgerCalls w ++ [(requestId, RateChange newRate previousRate)]
  /\ interestService (fst (approveTokenCreation ledger now userId requestId w))
     = interestService w
  /\ (forall calls, interestService (run calls w) = interestService w)
  /\ length (tokens (run Scenario.rateChange Scenario.start)) = 1
  /\ annualRate (interestService (run Scenario.rateChange Scenario.start)) ==# Num 0.085.
Proof.
  split; [|split; [|split; [|split]]].
  - rewrite <- Hdata.
    apply (approve_quorum_calls ledger now userId requestId w user r); assumption.
  - exact (step_interestService now (ApproveTokenCreation ledger userId requestId) w).
  - intros calls. apply run_interestService.
  - vm_compute. reflexivity.
  - vm_compute. reflexivity.
Qed.

Lemma approve_rate_change_calls_ledger_witness :
  ledgerCalls (fst (approveTokenCreation (Scenario.ledgerCreates "0.0.4867332" "tx-1")
                      2000 "u2" 0%nat Scenario.rateRequested))
  = [(0%nat, RateChange (Num 5) (Num 8.5))]
  /\ interestService (fst (approveTokenCreation (Scenario.ledgerCreates "0.0.4867332" "tx-1")
                             2000 "u2" 0%nat Scenario.rateRequested))
     = constructor None.
Proof.
  edestruct (approve_rate_change_calls_ledger
               (Scenario.ledgerCreates "0.0.4867332" "tx-1") 2000 "u2" 0%nat
               Scenario.rateRequested Scenario.m2 Scenario.rateRequest (Num 5) (Num 8.5))
    as (Hcalls & Hservice & _).
  - split; vm_compute; reflexivity.
  - vm_compute. reflexivity.
  - reflexivity.
  - reflexivity.
  - reflexivity.
  - vm_compute. discriminate.
  - unfold signers. cbn. intros H. apply list_elem_of_singleton in H. discriminate.
  - split; [exact Hcalls | exact Hservice].
Defined.

(** C4, on the code: when a manager approves a pending request whose
    [expiresAt] has passed, the request is stored with status [rejected]
    and the call then fails with the expiry error, the ledger not being
    called; when the ledger call made on quorum fails, the request is
    stored with status [rejected] and the second signature, the call
    answers the ledger's error, and the ledger has been called once.
    The error message is set as [metadata] on the document in memory
    only: the stored request is the approved one with its status changed,
    loading it again gives a document without [metadata], and the schema
    has no such path. *)
Theorem approve_failure_is_committed (ledger : Ledger) (now : Z) (userId : string)
    (requestId : nat) (w : World) (user : User.t) (r : MultiSigRequest.t)
    (Hmanager : isManager w userId user)
    (Hfound : requests w !! requestId = Some r)
    (Hpending : MultiSigRequest.status r = pending) :
  ((MultiSigRequest.expiresAt r < now)%Z ->
     approveTokenCreation ledger now userId requestId w
     = (set_requests (<[requestId := MultiSigRequest.set_status rejected r]> (requests w)) w,
        Response.fail 400 "Request has expired")
     /\ requests (fst (approveTokenCreation ledger now userId requestId w)) !! requestId
        = Some (MultiSigRequest.set_status rejected r))
  /\ ((now <= MultiSigRequest.expiresAt r)%Z -> userId ∉ signers r ->
      forall message, ledger (MultiSigRequest.requestData r) = Throw message ->
      exists w' d,
        approve ledger now userId requestId w
        = (w', Response.serverError approveError message, Some d)
        /\ Document.metadata d = Some message
        /\ Document.paths d = rejectedAfter userId user now r
        /\ requests w' !! requestId = Some (rejectedAfter userId user now r)
        /\ Document.metadata <$> (Document.load <$> requests w' !! requestId) = Some None
        /\ tokens w' = tokens w
        /\ ledgerCalls w' = ledgerCalls w ++ [(requestId, MultiSigRequest.requestData r)])
  /\ "metadata" ∉ MultiSigRequest.schema.
Proof.
  pose proof (lookup_lt_Some _ _ _ Hfound) as Hlt.
  split; [|split].
  3:{ unfold MultiSigRequest.schema. intros H.
      repeat (apply elem_of_cons in H as [H|H]; [discriminate|]). inversion H. }
  - intros Hexp. unfold approveTokenCreation.
    rewrite (approve_expired _ _ _ _ _ user r Hmanager Hfound Hpending Hexp).
    split; [reflexivity|]. cbn. now apply list_lookup_insert_eq.
  - intros Hfresh Hsecond message Hledger.
    rewrite (approve_quorum_failed _ _ _ _ _ user r Hmanager Hfound Hpending Hfresh Hsecond
               _ Hledger).
    eexists _, _. split; [reflexivity|]. cbn.
    rewrite list_lookup_insert_eq by assumption. repeat split.
Qed.

Lemma approve_failure_is_committed_witness :
  exists w' d,
    approve Scenario.ledgerRefuses 2000 "u2" 0%nat Scenario.initiated
    = (w', Response.serverError approveError
             "Failed to create token: INSUFFICIENT_PAYER_BALANCE", Some d)
    /\ Document.metadata d = Some "Failed to create token: INSUFFICIENT_PAYER_BALANCE"
    /\ (MultiSigRequest.status <$> requests w' !! 0%nat) = Some rejected
    /\ Document.metadata <$> (Document.load <$> requests w' !! 0%nat) = Some None.
Proof.
  edestruct (approve_failure_is_committed Scenario.ledgerRefuses 2000 "u2" 0%nat
               Scenario.initiated Scenario.m2 Scenario.tokenRequest)
    as (_ & Hfail & _).
  - split; vm_compute; reflexivity.
  - vm_compute. reflexivity.
  - reflexivity.
  - destruct (Hfail ltac:(vm_compute; discriminate)
                ltac:(unfold signers; cbn; intros H; apply list_elem_of_singleton in H;
                      discriminate)
                "Failed to create token: INSUFFICIENT_PAYER_BALANCE" eq_refl)
      as (w' & d & Happ & Hmeta & _ & Hstored & Hload & _).
    exists w', d. split; [exact Happ|]. split; [exact Hmeta|].
    split; [now rewrite Hstored | exact Hload].
Defined.

Lemma step_tokens (now : Z) (c : Call) (w : World) :
  exists more, tokens (fst (step now c w)) = tokens w ++ more.
Proof.
  destruct c as [env userId body|ledger userId requestId|env userId newRate]; cbn [step].
  - destruct (initiateTokenCreation_world_cases env now userId body w)
      as [->|(r & -> & _)]; exists []; cbn; now rewrite app_nil_r.
  - destruct (approve_world_cases ledger now userId requestId w)
      as [H|[(r & _ & _ & H)|(r & user & final & tokens' & tokenId' & _ & _ & _ & _ & H & Hf)]];
      cbn zeta in H; rewrite H.
    + exists []. now rewrite app_nil_r.
    + exists []. cbn. now rewrite app_nil_r.
    + destruct Hf as [[_ ->]|(tokenResult & _ & ->)]; cbn.
      * exists []. now rewrite app_nil_r.
      * now exists [tokenOf tokenResult].
  - destruct (updateInterestRate_world_cases env now userId newRate w)
      as [->|(r & -> & _)]; exists []; cbn; now rewrite app_nil_r.
Qed.

Lemma run_tokens (calls : list (Z * Call)) (w : World) :
  exists more, tokens (run calls w) = tokens w ++ more.
Proof.
  revert w. induction calls as [|[now c] calls IH]; intros w; cbn [run].
  - exists []. now rewrite app_nil_r.
  - destruct (IH (fst (step now c w))) as [more2 H2].
    destruct (step_tokens now c w) as [more1 H1].
    exists (more1 ++ more2). now rewrite H2, H1, app_assoc.
Qed.

(** C9, on the code: while a token record exists, [initiateTokenCreation]
    by a manager fails with the conflict error and stores no request, and
    as no call removes a token record this holds for ever after a token
    creation.  The record is not a singleton, though: when the creation
    is initiated twice before the first approval, both requests are
    executed and two token records are stored. *)
Theorem initiate_conflict_and_two_tokens :
  (forall env now userId body w user,
      isManager w userId user -> tokens w <> [] ->
      initiateTokenCreation env now userId body w
      = (w, Response.fail 400 "Token already exists"))
  /\ (forall env now userId body w,
        tokens w <> [] ->
        fst (initiateTokenCreation env now userId body w) = w
        /\ Response.success (snd (initiateTokenCreation env now userId body w)) = false)
  /\ (forall calls w, tokens w <> [] -> tokens (run calls w) <> [])
  /\ Token.tokenId <$> tokens (run Scenario.twoCreations Scenario.start)
     = ["0.0.4867332"; "0.0.4867333"]
  /\ MultiSigRequest.status <$> requests (run Scenario.twoCreations Scenario.start)
     = [executed; executed].
Proof.
  split; [|split; [|split; [|split]]].
  - intros env now userId body w user [Hu Hrole] Hne. unfold initiateTokenCreation.
    rewrite Hu, (notManager_false _ Hrole).
    destruct (tokens w); [contradiction|reflexivity].
  - intros env now userId body w Hne. unfold initiateTokenCreation.
    destruct (users w !! userId) as [user|]; [|now split].
    destruct (notManager (Some user)); [now split|].
    destruct (tokens w); [contradiction|now split].
  - intros calls w Hne. destruct (run_tokens calls w) as [more ->].
    destruct (tokens w); [contradiction|discriminate].
  - vm_compute. reflexivity.
  - vm_compute. reflexivity.
Qed.

Lemma initiate_conflict_and_two_tokens_witness :
  initiateTokenCreation Scenario.env 9000 "u1" Scenario.body
    (run Scenario.creation Scenario.start)
  = (run Scenario.creation Scenario.start, Response.fail 400 "Token already exists")
  /\ length (tokens (run Scenario.twoCreations Scenario.start)) = 2.
Proof.
  destruct initiate_conflict_and_two_tokens as (Hconflict & _ & _ & Htwo & _).
  split.
  - apply (Hconflict Scenario.env 9000%Z "u1" Scenario.body
             (run Scenario.creation Scenario.start) Scenario.m1).
    + split; vm_compute; reflexivity.
    + vm_compute. discriminate.
  - apply (f_equal length) in Htwo. now rewrite length_fmap in Htwo.
Defined.



End WorkflowClaims.

(** ** Further properties of the interest service *)

Section InterestExtras.
Import Number.
Local Open Scope Q_scope.

Lemma cents_roundTo2 (x : Q) : cents (Num x) = Num (roundTo2 x).
Proof. apply cents_Num. Qed.

Lemma roundTo2_close (x : Q) : Qabs (roundTo2 x - x) <= 1 # 200.
Proof. apply cents_close. Qed.

Lemma roundTo2_le (x y : Q) : x <= y -> roundTo2 x <= roundTo2 y.
Proof.
  intros H. unfold roundTo2.
  assert (Hf : (Qfloor (x * 100 + (1 # 2)) <= Qfloor (y * 100 + (1 # 2)))%Z)
    by (apply Qfloor_resp_le; lra).
  rewrite Zle_Qle in Hf.
  unfold Qdiv. apply Qmult_le_compat_r; [exact Hf | discriminate].
Qed.

Lemma roundTo2_compat (x y : Q) : x == y -> roundTo2 x == roundTo2 y.
Proof.
  intros H. apply Qle_antisym; apply roundTo2_le; rewrite H; apply Qle_refl.
Qed.

Lemma roundTo2_cents (z : Z) : roundTo2 (inject_Z z / 100) == inject_Z z / 100.
Proof.
  unfold roundTo2.
  assert (E : Qfloor (inject_Z z / 100 * 100 + (1 # 2)) = z).
  { pose proof (Qfloor_le (inject_Z z / 100 * 100 + (1 # 2))) as Hle.
    pose proof (Qlt_floor (inject_Z z / 100 * 100 + (1 # 2))) as Hlt.
    set (f := Qfloor (inject_Z z / 100 * 100 + (1 # 2))) in *.
    rewrite inject_Z_plus in Hlt. change (inject_Z 1) with 1 in Hlt.
    assert (E : inject_Z z / 100 == inject_Z z * (1 # 100)) by (unfold Qdiv; reflexivity).
    assert (H1 : inject_Z f < inject_Z (z + 1)).
    { rewrite inject_Z_plus. change (inject_Z 1) with 1. rewrite E in Hle. lra. }
    assert (H2 : inject_Z z < inject_Z (f + 1)).
    { rewrite inject_Z_plus. change (inject_Z 1) with 1. rewrite E in Hlt. lra. }
    rewrite <- Zlt_Qlt in H1, H2. lia. }
  now rewrite E.
Qed.

Lemma roundTo2_zero (x : Q) : x == 0 -> roundTo2 x == 0.
Proof.
  intros H. rewrite (roundTo2_compat x (inject_Z 0 / 100)).
  - rewrite roundTo2_cents. reflexivity.
  - rewrite H. reflexivity.
Qed.

(** Bernoulli's inequality: compounding gives no less than simple interest. *)
Lemma compound_ge_simple (d : Q) (n : nat) :
  0 <= d -> 1 + inject_Z (Z.of_nat n) * d <= (1 + d) ^ Z.of_nat n.
Proof.
  intros Hd. induction n as [|n IH].
  - change ((1 + d) ^ Z.of_nat 0) with 1. change (inject_Z (Z.of_nat 0)) with 0. lra.
  - rewrite Nat2Z.inj_succ, <- Z.add_1_r.
    rewrite Qpower_plus by lra.
    rewrite inject_Z_plus. change (inject_Z 1) with 1. change ((1 + d) ^ 1) with (1 + d).
    set (k := inject_Z (Z.of_nat n)) in *. set (c := (1 + d) ^ Z.of_nat n) in *.
    assert (Hk : 0 <= k) by (unfold k; rewrite <- (Zle_Qle 0); lia).
    assert (Hc : (1 + k * d) * (1 + d) <= c * (1 + d))
      by (apply Qmult_le_compat_r; [exact IH | lra]).
    assert (Hkd : 0 <= k * d * d).
    { apply Qmult_le_0_compat; [apply Qmult_le_0_compat|]; assumption. }
    lra.
Qed.

(** The figures of [calculateInterest] on a positive principal, a finite
    daily rate and dates in order. *)
Lemma calculateInterest_figures (this : InterestService) (d p : Q) (startDate endDate : Z) :
  dailyRate this = Num d -> 0 < p -> (startDate <= endDate)%Z ->
  exists r : Calc.t,
    calculateInterest this (Num p) startDate endDate = Ok r
    /\ Calc.days r = daysBetween startDate endDate
    /\ (0 <= Calc.days r)%Z
    /\ Calc.principal r = Num (roundTo2 p)
    /\ Calc.interest r = Num (roundTo2 (p * (1 + d) ^ Calc.days r - p))
    /\ Calc.totalValue r = Num (roundTo2 (p * (1 + d) ^ Calc.days r)).
Proof.
  intros Hrate Hp Horder.
  assert (Hdays : (0 <= daysBetween startDate endDate)%Z).
  { rewrite daysBetween_div. apply Z.div_pos; lia. }
  unfold calculateInterest, parseFloat. cbn [le].
  assert (Ep : Qle_bool p 0 = false).
  { destruct (Qle_bool p 0) eqn:E; [|reflexivity]. apply Qle_bool_iff in E. lra. }
  rewrite Ep, daysBetween_neg.
  assert (El : (endDate <? startDate)%Z = false) by (apply Z.ltb_ge; lia).
  rewrite El, Hrate, add_Num, (Math_pow_Num _ _ Hdays).
  rewrite (mul_Num p ((1 + d) ^ daysBetween startDate endDate)), sub_Num.
  eexists. split; [reflexivity|]. cbn [Calc.days Calc.principal Calc.interest Calc.totalValue].
  split; [reflexivity|]. split; [exact Hdays|].
  fold (cents (Num p)).
  fold (cents (Num (p * (1 + d) ^ daysBetween startDate endDate - p))).
  fold (cents (Num (p * (1 + d) ^ daysBetween startDate endDate))).
  rewrite !cents_roundTo2. repeat split.
Qed.

Lemma compound_factor_ge_1 (d : Q) (n : Z) : 0 <= d -> (0 <= n)%Z -> 1 <= (1 + d) ^ n.
Proof. intros Hd Hn. apply Qpower_1_le; [lra | exact Hn]. Qed.

Lemma calculateInterest_same_date (this : InterestService) (p : Q) (date : Z)
    (Hp : 0 < p) :
  exists r : Calc.t,
    calculateInterest this (Num p) date date = Ok r
    /\ Calc.days r = 0%Z
    /\ Calc.principal r = cents (Num p)
    /\ Calc.interest r = cents (Num (p * 1 - p))
    /\ Calc.totalValue r = cents (Num (p * 1)).
Proof.
  unfold calculateInterest, parseFloat. cbn [le].
  assert (Ep : Qle_bool p 0 = false).
  { destruct (Qle_bool p 0) eqn:E; [|reflexivity]. apply Qle_bool_iff in E. lra. }
  rewrite Ep, daysBetween_neg, Z.ltb_irrefl.
  assert (Hd : daysBetween date date = 0%Z).
  { rewrite daysBetween_div, Z.sub_diag. reflexivity. }
  rewrite Hd, Math_pow_zero, (mul_Num p 1), sub_Num.
  eexists. split; [reflexivity|]. now repeat split.
Qed.

(** X1: With no time elapsed the interest is 0 and the total is the principal
    as it is reported, whatever the rate of the service is. *)
Theorem calculateInterest_zero_elapsed (this : InterestService) (p : Q) (date : Z)
    (Hp : 0 < p) :
  exists r : Calc.t,
    calculateInterest this (Num p) date date = Ok r
    /\ Calc.days r = 0%Z
    /\ Calc.interest r ==# Num 0
    /\ Calc.totalValue r ==# Calc.principal r.
Proof.
  destruct (calculateInterest_same_date this p date Hp) as (r & Hr & Hdays & Hpr & Hi & Ht).
  exists r. rewrite Hpr, Hi, Ht, !cents_roundTo2. cbn [Number.eq].
  split; [exact Hr|]. split; [exact Hdays|]. split.
  - apply roundTo2_zero. ring.
  - apply roundTo2_compat. ring.
Qed.

Lemma calculateInterest_zero_elapsed_witness :
  exists r : Calc.t,
    calculateInterest defaultService (Num 100000) 1700000000000 1700000000000 = Ok r
    /\ Calc.interest r ==# Num 0 /\ Calc.totalValue r ==# Calc.principal r.
Proof.
  destruct (calculateInterest_zero_elapsed defaultService 100000 1700000000000 eq_refl)
    as (r & Hr & _ & Hi & Ht).
  exists r. split; [exact Hr|]. split; [exact Hi|exact Ht].
Defined.

(** X2: With a rate that is not negative the investor never loses: the interest
    reported is at least 0 and the total at least the principal reported. *)
Theorem calculateInterest_never_loses (this : InterestService) (d p : Q)
    (startDate endDate : Z)
    (Hrate : dailyRate this = Num d) (Hd : 0 <= d) (Hp : 0 < p)
    (Horder : (startDate <= endDate)%Z) :
  exists (r : Calc.t) (principal interest total : Q),
    calculateInterest this (Num p) startDate endDate = Ok r
    /\ Calc.principal r = Num principal
    /\ Calc.interest r = Num interest
    /\ Calc.totalValue r = Num total
    /\ 0 <= interest /\ principal <= total.
Proof.
  destruct (calculateInterest_figures this d p startDate endDate Hrate Hp Horder)
    as (r & Hr & _ & Hdays & Hpr & Hi & Ht).
  pose proof (compound_factor_ge_1 d (Calc.days r) Hd Hdays) as Hc.
  assert (Hg : p <= p * (1 + d) ^ Calc.days r).
  { rewrite <- (Qmult_1_r p) at 1. apply Qmult_le_l; assumption. }
  eexists r, _, _, _. repeat split; try eassumption.
  - rewrite <- (roundTo2_zero 0) by reflexivity. apply roundTo2_le. lra.
  - now apply roundTo2_le.
Qed.

Lemma calculateInterest_never_loses_witness :
  exists (r : Calc.t) (interest : Q),
    calculateInterest defaultService (Num 100000) 0 7776000000 = Ok r
    /\ Calc.interest r = Num interest /\ 0 <= interest.
Proof.
  destruct (calculateInterest_never_loses defaultService (8.5 / 100 / 365) 100000 0 7776000000
              eq_refl ltac:(discriminate) eq_refl ltac:(discriminate))
    as (r & pr & i & t & Hr & _ & Hi & _ & H0 & _).
  exists r, i. repeat split; assumption.
Defined.

Lemma daysBetween_le (startDate endDate endDate' : Z) :
  (endDate <= endDate')%Z ->
  (daysBetween startDate endDate <= daysBetween startDate endDate')%Z.
Proof.
  intros H. rewrite !daysBetween_div. apply Z.div_le_mono; lia.
Qed.

(** X4: With a rate that is not negative the value never goes down with time: a
    later end date gives at least as many days and at least as high a
    total. *)
Theorem calculateInterest_grows_with_time (this : InterestService) (d p : Q)
    (startDate endDate endDate' : Z)
    (Hrate : dailyRate this = Num d) (Hd : 0 <= d) (Hp : 0 < p)
    (Horder : (startDate <= endDate)%Z) (Hlater : (endDate <= endDate')%Z) :
  exists (r r' : Calc.t) (total total' : Q),
    calculateInterest this (Num p) startDate endDate = Ok r
    /\ calculateInterest this (Num p) startDate endDate' = Ok r'
    /\ (Calc.days r <= Calc.days r')%Z
    /\ Calc.totalValue r = Num total
    /\ Calc.totalValue r' = Num total'
    /\ total <= total'.
Proof.
  destruct (calculateInterest_figures this d p startDate endDate Hrate Hp Horder)
    as (r & Hr & Hdr & Hdays & _ & _ & Ht).
  destruct (calculateInterest_figures this d p startDate endDate' Hrate Hp ltac:(lia))
    as (r' & Hr' & Hdr' & Hdays' & _ & _ & Ht').
  assert (Hle : (Calc.days r <= Calc.days r')%Z)
    by (rewrite Hdr, Hdr'; now apply daysBetween_le).
  eexists r, r', _, _. repeat split; try eassumption.
  apply roundTo2_le. apply Qmult_le_l; [exact Hp|].
  apply Qpower_le_compat_l; [exact Hle | lra].
Qed.

Lemma calculateInterest_grows_with_time_witness :
  exists (r r' : Calc.t) (total total' : Q),
    calculateInterest defaultService (Num 100000) 0 86400000 = Ok r
    /\ calculateInterest defaultService (Num 100000) 0 7776000000 = Ok r'
    /\ Calc.totalValue r = Num total
    /\ Calc.totalValue r' = Num total'
    /\ total <= total'.
Proof.
  destruct (calculateInterest_grows_with_time defaultService (8.5 / 100 / 365) 100000
              0 86400000 7776000000 eq_refl ltac:(discriminate) eq_refl
              ltac:(discriminate) ltac:(discriminate))
    as (r & r' & t & t' & Hr & Hr' & _ & Ht & Ht' & Hle).
  exists r, r', t, t'. repeat split; assumption.
Defined.

Lemma compound_year_ge_rate (a : Q) : 0 <= a -> a <= (1 + a / 365) ^ 365 - 1.
Proof.
  intros Ha.
  assert (Hd : 0 <= a / 365).
  { assert (E : a / 365 == a * (1 # 365)) by (unfold Qdiv; reflexivity). rewrite E. lra. }
  pose proof (compound_ge_simple (a / 365) 365 Hd) as H.
  assert (E365 : Z.of_nat 365 = 365%Z) by reflexivity.
  rewrite E365 in H. clear E365.
  assert (E : inject_Z 365 * (a / 365) == a) by (change (inject_Z 365) with 365; field).
  rewrite E in H. clear E.
  generalize dependent ((1 + a / 365) ^ 365). intros c H. lra.
Qed.

Lemma ratesOf_default : ratesOf defaultService (8.5 / 100).
Proof. repeat split. Qed.

(** X6: The yield that [calculateAPY] and [getCurrentRates] report is never
    below the nominal annual rate they report beside it. *)
Theorem calculateAPY_at_least_nominal (this : InterestService) (a : Q)
    (Hrates : ratesOf this a) (Ha : 0 <= a) :
  exists nominal yield : Q,
    APY.annualRate (calculateAPY this) = Num nominal
    /\ APY.apy (calculateAPY this) = Num yield
    /\ Rates.annualRate (getCurrentRates this) = Num nominal
    /\ Rates.apy (getCurrentRates this) = Num yield
    /\ nominal <= yield.
Proof.
  destruct Hrates as (Hannual & Hdaily & _).
  unfold getCurrentRates, calculateAPY.
  cbn [APY.annualRate APY.apy Rates.annualRate Rates.apy].
  rewrite Hannual, Hdaily, add_Num, (Math_pow_Num _ 365) by discriminate.
  rewrite sub_Num, !mul_Num, !Math_round_Num.
  rewrite !div_Num by discriminate.
  eexists _, _. repeat split.
  assert (Hf : (Qfloor (a * 10000 + (1 # 2))
                <= Qfloor (((1 + a / 365) ^ 365 - 1) * 10000 + (1 # 2)))%Z).
  { apply Qfloor_resp_le. pose proof (compound_year_ge_rate a Ha) as Hc.
    generalize dependent ((1 + a / 365) ^ 365). intros c Hc. lra. }
  rewrite Zle_Qle in Hf.
  unfold Qdiv. apply Qmult_le_compat_r; [exact Hf | discriminate].
Qed.

Lemma calculateAPY_at_least_nominal_witness :
  exists nominal yield : Q,
    Rates.annualRate (getCurrentRates defaultService) = Num nominal
    /\ Rates.apy (getCurrentRates defaultService) = Num yield
    /\ nominal <= yield.
Proof.
  destruct (calculateAPY_at_least_nominal defaultService (8.5 / 100)
              ratesOf_default ltac:(discriminate))
    as (n & y & _ & _ & Hn & Hy & Hle).
  exists n, y. split; [exact Hn|]. split; [exact Hy | exact Hle].
Defined.

(** X7: After [updateInterestRate] has accepted a rate with no more than two
    decimals, [getCurrentRates] reports that very rate; and it reports the
    yield that the update returned, whatever the rate accepted. *)
Theorem getCurrentRates_after_update (this : InterestService) (newRate : Q)
    (Hperiods : compoundingPeriodsPerYear this = Num 365)
    (Hrange : 0 <= newRate <= 100) :
  (forall hundredths : Z,
      newRate == inject_Z hundredths / 100 ->
      Rates.annualRate (getCurrentRates (fst (updateInterestRate this (Num newRate))))
      ==# Num newRate)
  /\ exists r : RateUpdate.t,
       snd (updateInterestRate this (Num newRate)) = Ok r
       /\ RateUpdate.apy r
          = Rates.apy (getCurrentRates (fst (updateInterestRate this (Num newRate)))).
Proof.
  destruct Hrange as [H0 H100].
  assert (Hupd : updateInterestRate this (Num newRate)
                 = ({| annualRate := Num (newRate / 100);
                       compoundingPeriodsPerYear := Num 365;
                       dailyRate := Num (newRate / 100 / 365) |},
                    Ok {| RateUpdate.success := true;
                          RateUpdate.newAnnualRate := Num newRate;
                          RateUpdate.newDailyRate :=
                            div (Math_round (mul (Num (newRate / 100 / 365)) (Num 1000000)))
                                (Num 10000);
                          RateUpdate.apy :=
                            calculateAPY_apy {| annualRate := Num (newRate / 100);
                                                compoundingPeriodsPerYear := Num 365;
                                                dailyRate := Num (newRate / 100 / 365) |} |})).
  { unfold updateInterestRate, gt, lt, parseFloat.
    apply Qle_bool_iff in H0 as ->. apply Qle_bool_iff in H100 as ->.
    cbn [negb orb]. rewrite Hperiods.
    rewrite (div_Num newRate 100) by discriminate.
    rewrite (div_Num (newRate / 100) 365) by discriminate.
    reflexivity. }
  rewrite Hupd. cbn [fst snd].
  assert (Hreported : Rates.annualRate
                        (getCurrentRates {| annualRate := Num (newRate / 100);
                                            compoundingPeriodsPerYear := Num 365;
                                            dailyRate := Num (newRate / 100 / 365) |})
                      ==# Num (roundTo2 newRate)).
  { unfold getCurrentRates. cbn [Rates.annualRate annualRate].
    fold (cents (Num (newRate / 100 * 100))).
    rewrite mul_Num, Math_round_Num, div_Num by discriminate.
    cbn [Number.eq]. unfold roundTo2.
    assert (Hf : Qfloor (newRate / 100 * 10000 + (1 # 2)) = Qfloor (newRate * 100 + (1 # 2))).
    { apply Qfloor_comp. field. }
    rewrite Hf. reflexivity. }
  split.
  - intros hundredths Hh.
    destruct (Rates.annualRate _) as [q| |]; try contradiction.
    cbn [Number.eq] in *. rewrite Hreported.
    rewrite (roundTo2_compat _ _ Hh), roundTo2_cents. now rewrite Hh.
  - eexists. split; [reflexivity|]. reflexivity.
Qed.

Lemma getCurrentRates_after_update_witness :
  Rates.annualRate (getCurrentRates (fst (updateInterestRate defaultService (Num 7.25))))
  ==# Num 7.25.
Proof.
  destruct (getCurrentRates_after_update defaultService 7.25 eq_refl
              ltac:(split; discriminate)) as (Hexact & _).
  apply (Hexact 725%Z). reflexivity.
Defined.

Lemma calculateInterest_returns (this : InterestService) (p : Q) (startDate endDate : Z) :
  0 < p -> (startDate <= endDate)%Z ->
  exists r : Calc.t,
    calculateInterest this (Num p) startDate endDate = Ok r
    /\ Calc.days r = daysBetween startDate endDate.
Proof.
  intros Hp Horder. unfold calculateInterest, parseFloat. cbn [le].
  assert (Ep : Qle_bool p 0 = false).
  { destruct (Qle_bool p 0) eqn:E; [|reflexivity]. apply Qle_bool_iff in E. lra. }
  rewrite Ep, daysBetween_neg.
  assert (El : (endDate <? startDate)%Z = false) by (apply Z.ltb_ge; lia).
  rewrite El. eexists. split; reflexivity.
Qed.

Lemma calculateInterest_throws (this : InterestService) (p : Q) (startDate endDate : Z) :
  0 < p -> (endDate < startDate)%Z ->
  calculateInterest this (Num p) startDate endDate = Throw rangeError.
Proof.
  intros Hp Horder. unfold calculateInterest, parseFloat. cbn [le].
  assert (Ep : Qle_bool p 0 = false).
  { destruct (Qle_bool p 0) eqn:E; [|reflexivity]. apply Qle_bool_iff in E. lra. }
  rewrite Ep, daysBetween_neg.
  assert (El : (endDate <? startDate)%Z = true) by (apply Z.ltb_lt; lia).
  now rewrite El.
Qed.

(** X8: [calculateProjectedInterest] builds the future date from one reading of
    the clock, [daysAhead] days later on the local calendar, and takes the
    start of the period from a later reading.  In a zone whose clocks are
    never changed: when the two readings agree the projection covers
    [daysAhead] days; when the clock has moved on in between, by less than
    a day, it covers one day less, and the projection for today or for the
    past throws.  Whatever the zone, the days are those between the second
    reading and the future date, and when the local day is shorter than 24
    hours the projection for tomorrow covers no day. *)
Theorem calculateProjectedInterest_clock (this : InterestService) (zone : TimeZone)
    (p : Q) (daysAhead created started : Z)
    (Hp : 0 < p)
    (Hclock : (created <= started < created + millisecondsPerDay)%Z) :
  (fixedOffset zone ->
     (started = created -> (0 <= daysAhead)%Z ->
        exists r : Calc.t,
          calculateProjectedInterest this zone (Num p) daysAhead created started = Ok r
          /\ Calc.days r = daysAhead)
     /\ ((created < started)%Z -> (1 <= daysAhead)%Z ->
         exists r : Calc.t,
           calculateProjectedInterest this zone (Num p) daysAhead created started = Ok r
           /\ Calc.days r = (daysAhead - 1)%Z)
     /\ ((created < started)%Z -> (daysAhead <= 0)%Z ->
         calculateProjectedInterest this zone (Num p) daysAhead created started
         = Throw rangeError))
  /\ ((started <= plusLocal zone created (daysAhead * millisecondsPerDay))%Z ->
      exists r : Calc.t,
        calculateProjectedInterest this zone (Num p) daysAhead created started = Ok r
        /\ Calc.days r
           = daysBetween started (plusLocal zone created (daysAhead * millisecondsPerDay)))
  /\ ((plusLocal zone created (daysAhead * millisecondsPerDay) < started)%Z ->
      calculateProjectedInterest this zone (Num p) daysAhead created started
      = Throw rangeError)
  /\ ((started <= plusLocal zone created millisecondsPerDay < started + millisecondsPerDay)%Z ->
      exists r : Calc.t,
        calculateProjectedInterest this zone (Num p) 1 created started = Ok r
        /\ Calc.days r = 0%Z).
Proof.
  split; [|split; [|split]].
  - intros (offset & Hlocal & Hutc).
    assert (Hfuture : forall ms, plusLocal zone created ms = (created + ms)%Z).
    { intros ms. unfold plusLocal. rewrite Hlocal, Hutc. lia. }
    unfold calculateProjectedInterest. rewrite Hfuture.
    unfold millisecondsPerDay in *.
    change (1000 * 60 * 60 * 24)%Z with 86400000%Z in *.
    split; [|split].
    + intros -> Hd.
      destruct (calculateInterest_returns this p created (created + daysAhead * 86400000)
                  Hp ltac:(lia)) as (r & Hr & Hdays).
      exists r. split; [exact Hr|]. rewrite Hdays, daysBetween_div.
      replace (created + daysAhead * 86400000 - created)%Z with (daysAhead * 86400000)%Z by lia.
      apply Z.div_mul. discriminate.
    + intros Hlt Hd.
      destruct (calculateInterest_returns this p started (created + daysAhead * 86400000)
                  Hp ltac:(lia)) as (r & Hr & Hdays).
      exists r. split; [exact Hr|]. rewrite Hdays, daysBetween_div.
      symmetry. apply (Z.div_unique _ _ _ (86400000 - (started - created))); lia.
    + intros Hlt Hd. apply calculateInterest_throws; [exact Hp | nia].
  - intros Hle. unfold calculateProjectedInterest.
    exact (calculateInterest_returns this p started _ Hp Hle).
  - intros Hlt. unfold calculateProjectedInterest.
    now apply calculateInterest_throws.
  - intros [Hle Hlt]. unfold calculateProjectedInterest.
    rewrite Z.mul_1_l.
    destruct (calculateInterest_returns this p started _ Hp Hle) as (r & Hr & Hdays).
    exists r. split; [exact Hr|]. rewrite Hdays, daysBetween_div.
    unfold millisecondsPerDay in *.
    change (1000 * 60 * 60 * 24)%Z with 86400000%Z in *.
    apply Z.div_small. lia.
Qed.

Lemma utcZone_fixed : fixedOffset utcZone.
Proof. exists 0%Z. split; intros t; cbn; lia. Qed.

Lemma calculateProjectedInterest_clock_witness :
  (exists r : Calc.t,
      calculateProjectedInterest defaultService utcZone (Num 100000) 30
        1700000000000 1700000000005
      = Ok r /\ Calc.days r = 29%Z)
  /\ calculateProjectedInterest defaultService utcZone (Num 100000) 0
       1700000000000 1700000000005
     = Throw rangeError
  /\ (exists r : Calc.t,
        calculateProjectedInterest defaultService Scenario.paris (Num 100000) 1
          1711800000000 1711800000000
        = Ok r /\ Calc.days r = 0%Z).
Proof.
  destruct (calculateProjectedInterest_clock defaultService utcZone 100000 30
              1700000000000 1700000000005 eq_refl ltac:(split; [discriminate|reflexivity]))
    as (Hfixed30 & _).
  destruct (calculateProjectedInterest_clock defaultService utcZone 100000 0
              1700000000000 1700000000005 eq_refl ltac:(split; [discriminate|reflexivity]))
    as (Hfixed0 & _).
  destruct (calculateProjectedInterest_clock defaultService Scenario.paris 100000 1
              1711800000000 1711800000000 eq_refl ltac:(split; [discriminate|reflexivity]))
    as (_ & _ & _ & Hshort).
  destruct (Hfixed30 utcZone_fixed) as (_ & H30 & _).
  destruct (Hfixed0 utcZone_fixed) as (_ & _ & H0).
  split; [|split].
  - apply H30; [reflexivity | discriminate].
  - apply H0; [reflexivity | discriminate].
  - apply Hshort. split; [discriminate|reflexivity].
Defined.

Lemma calculateInterest_outcome (this : InterestService) (amount : number)
    (startDate endDate : Z) :
  (le amount (Num 0) = false /\ (endDate < startDate)%Z
   /\ calculateInterest this amount startDate endDate = Throw rangeError)
  \/ (~ (le amount (Num 0) = false /\ (endDate < startDate)%Z)
      /\ exists r, calculateInterest this amount startDate endDate = Ok r).
Proof.
  unfold calculateInterest, parseFloat. rewrite daysBetween_neg.
  destruct (le amount (Num 0)) eqn:El.
  - right. split; [intros [H _]; discriminate | eexists; reflexivity].
  - destruct (Z.ltb_spec endDate startDate) as [Hd|Hd].
    + left. repeat split; assumption.
    + right. split; [intros [_ H]; lia | eexists; reflexivity].
Qed.

Lemma portfolioMap_throws (this : InterestService) (clock : nat -> Z)
    (investments : list Holding.t) (index : nat) (totals : number * number * number)
    (message : string) :
  portfolioMap this clock index investments totals = Throw message ->
  message = rangeError
  /\ exists (i : nat) (h : Holding.t),
       investments !! i = Some h
       /\ le (Holding.amount h) (Num 0) = false
       /\ (clock (index + i)%nat < Holding.startDate h)%Z.
Proof.
  revert index totals. induction investments as [|h rest IH]; intros index totals; cbn.
  - discriminate.
  - destruct (calculateInterest_outcome this (Holding.amount h) (Holding.startDate h)
                (clock index)) as [(Hl & Hd & ->)|(_ & r & ->)].
    + intros [= <-]. split; [reflexivity|]. exists 0%nat, h.
      rewrite Nat.add_0_r. repeat split; assumption.
    + destruct totals as [[tp ti] tv].
      destruct (portfolioMap this clock (S index) rest _) as [[t details]|m] eqn:Hrest.
      * discriminate.
      * intros [= <-]. destruct (IH _ _ Hrest) as (Hm & i & h' & Hl & Ha & Hd).
        split; [exact Hm|]. exists (S i), h'.
        replace (index + S i)%nat with (S index + i)%nat by lia.
        repeat split; assumption.
Qed.

Lemma portfolioMap_returns (this : InterestService) (clock : nat -> Z)
    (investments : list Holding.t) (index : nat) (tp ti tv : number) :
  (forall (i : nat) (h : Holding.t),
      investments !! i = Some h ->
      ~ (le (Holding.amount h) (Num 0) = false
         /\ (clock (index + i)%nat < Holding.startDate h)%Z)) ->
  exists details : list (string * Calc.t),
    portfolioMap this clock index investments (tp, ti, tv)
    = Ok (foldl add tp (Calc.principal ∘ snd <$> details),
          foldl add ti (Calc.interest ∘ snd <$> details),
          foldl add tv (Calc.totalValue ∘ snd <$> details),
          details)
    /\ length details = length investments
    /\ forall (i : nat) (h : Holding.t),
         investments !! i = Some h ->
         exists c : Calc.t,
           details !! i = Some (Holding.id h, c)
           /\ calculateInterest this (Holding.amount h) (Holding.startDate h)
                (clock (index + i)%nat) = Ok c.
Proof.
  revert index tp ti tv. induction investments as [|h rest IH]; intros index tp ti tv Hok; cbn.
  - exists []. repeat split. intros i h H. discriminate.
  - destruct (calculateInterest_outcome this (Holding.amount h) (Holding.startDate h)
                (clock index)) as [(Hl & Hd & _)|(_ & r & Hr)].
    + exfalso. apply (Hok 0%nat h); [reflexivity|]. rewrite Nat.add_0_r. now split.
    + rewrite Hr.
      destruct (IH (S index) (add tp (Calc.principal r)) (add ti (Calc.interest r))
                  (add tv (Calc.totalValue r))) as (details & Hmap & Hlen & Hall).
      { intros i h' Hl. replace (S index + i)%nat with (index + S i)%nat by lia.
        now apply Hok. }
      rewrite Hmap. exists ((Holding.id h, r) :: details). cbn.
      split; [reflexivity|]. split; [now rewrite Hlen|].
      intros [|i] h' Hl; cbn in Hl.
      * injection Hl as <-. exists r. rewrite Nat.add_0_r. now split.
      * destruct (Hall i h' Hl) as (c & Hc & Hcalc). exists c.
        replace (index + S i)%nat with (S index + i)%nat by lia. now split.
Qed.

Lemma portfolioMap_ok_inv (this : InterestService) (clock : nat -> Z)
    (investments : list Holding.t) (index : nat) (totals : number * number * number)
    (out : number * number * number * list (string * Calc.t)) :
  portfolioMap this clock index investments totals = Ok out ->
  forall (i : nat) (h : Holding.t),
    investments !! i = Some h ->
    ~ (le (Holding.amount h) (Num 0) = false
       /\ (clock (index + i)%nat < Holding.startDate h)%Z).
Proof.
  revert index totals out.
  induction investments as [|h rest IH]; intros index totals out; cbn.
  - intros _ i h H. discriminate.
  - destruct (calculateInterest_outcome this (Holding.amount h) (Holding.startDate h)
                (clock index)) as [(Hl & Hd & ->)|(Hnot & r & ->)]; [discriminate|].
    destruct totals as [[tp ti] tv].
    destruct (portfolioMap this clock (S index) rest _) as [[t details]|m] eqn:Hrest;
      [|discriminate].
    intros _ [|i] h' Hl; cbn in Hl.
    + injection Hl as <-. now rewrite Nat.add_0_r.
    + replace (index + S i)%nat with (S index + i)%nat by lia.
      exact (IH _ _ _ Hrest i h' Hl).
Qed.

(** X9: One holding whose start date is after the time read for it, and whose
    amount is not [<= 0], makes the whole portfolio calculation throw;
    without such a holding it returns, with one entry for each holding. *)
Theorem calculatePortfolioInterest_fails_as_a_whole (this : InterestService)
    (clock : nat -> Z) (investments : list Holding.t) :
  (startsInFuture clock investments ->
     calculatePortfolioInterest this clock investments = Throw portfolioError)
  /\ (~ startsInFuture clock investments ->
      exists pf : Portfolio.t,
        calculatePortfolioInterest this clock investments = Ok pf
        /\ Portfolio.numberOfInvestments pf = length investments
        /\ length (Portfolio.investments pf) = length investments).
Proof.
  unfold calculatePortfolioInterest. split.
  - intros (i & h & Hl & Ha & Hd).
    destruct (portfolioMap this clock 0 investments (Num 0, Num 0, Num 0))
      as [out|message] eqn:Hmap.
    + exfalso. apply (portfolioMap_ok_inv _ _ _ _ _ _ Hmap i h Hl). now split.
    + apply portfolioMap_throws in Hmap as [-> _]. reflexivity.
  - intros Hnot.
    destruct (portfolioMap_returns this clock investments 0 (Num 0) (Num 0) (Num 0))
      as (details & Hmap & Hlen & _).
    { intros i h Hl [Ha Hd]. apply Hnot. now exists i, h. }
    rewrite Hmap. eexists. split; [reflexivity|]. split; [reflexivity | exact Hlen].
Qed.

Lemma calculatePortfolioInterest_fails_as_a_whole_witness :
  calculatePortfolioInterest defaultService (fun _ => 1700000000000%Z)
    [ Holding.mk "a" (Num 100000) 1690000000000;
      Holding.mk "b" (Num 5000) 1700000000001 ]
  = Throw portfolioError.
Proof.
  apply (proj1 (calculatePortfolioInterest_fails_as_a_whole defaultService
                  (fun _ => 1700000000000%Z) _)).
  exists 1%nat, (Holding.mk "b" (Num 5000) 1700000000001).
  repeat split.
Defined.

End InterestExtras.

(** ** Further properties of the manager controller *)

Section ManagerExtras.
Import managerController managerListings.

Lemma newestFirst_lookup (w : World) (requestId : nat) (r : MultiSigRequest.t) :
  (requestId, r) ∈ newestFirst w <-> requests w !! requestId = Some r.
Proof.
  unfold newestFirst. rewrite elem_of_reverse, elem_of_lookup_imap. split.
  - intros (i & x & [= -> ->] & H). exact H.
  - intros H. now exists requestId, r.
Qed.

Lemma awaits_spec (now : Z) (userId : string) (r : MultiSigRequest.t) :
  awaits now userId r = true
  <-> MultiSigRequest.status r = pending
      /\ (now < MultiSigRequest.expiresAt r)%Z
      /\ userId ∉ signers r.
Proof.
  unfold awaits. rewrite !andb_true_iff, Status_eqb_eq, Z.ltb_lt, negb_true_iff.
  assert (Hs : existsb (fun sig => String.eqb (Signature.managerId sig) userId)
                 (MultiSigRequest.signatures r) = false <-> userId ∉ signers r).
  { rewrite <- not_true_iff_false. now rewrite alreadySigned_spec. }
  rewrite Hs. tauto.
Qed.

Lemma listed_spec (now : Z) (userId : string) (w : World) (requestId : nat)
    (r : MultiSigRequest.t) (creator : option string) :
  (requestId, r, creator)
  ∈ populate w <$> List.filter (fun entry => awaits now userId (snd entry)) (newestFirst w)
  <-> requests w !! requestId = Some r
      /\ awaits now userId r = true
      /\ creator = User.email <$> users w !! MultiSigRequest.createdBy r.
Proof.
  rewrite list_elem_of_fmap. split.
  - intros ([id r'] & [= -> -> ->] & Hin).
    apply list_elem_of_In, filter_In in Hin as [Hin Ha].
    apply list_elem_of_In, newestFirst_lookup in Hin. now repeat split.
  - intros (Hl & Ha & ->). exists (requestId, r). split; [reflexivity|].
    apply list_elem_of_In, filter_In. split; [|exact Ha].
    now apply list_elem_of_In, newestFirst_lookup.
Qed.

(** X11: What [getPendingRequests] shows a manager is what that manager can
    approve: the approval of a listed request, at the time of the listing,
    reaches the ledger, and the approval of a request that is not listed
    does not, but at the very instant [expiresAt], where the request is no
    longer listed and can still be approved. *)
Theorem getPendingRequests_lists_what_can_be_approved (ledger : Ledger) (now : Z)
    (userId : string) (w : World) (user : User.t)
    (Hmanager : isManager w userId user) :
  exists documents : list Listed,
    getPendingRequests now userId w = Pending documents
    /\ (forall requestId r creator,
          (requestId, r, creator) ∈ documents ->
          requests w !! requestId = Some r
          /\ ledgerCalls (fst (approveTokenCreation ledger now userId requestId w))
             = ledgerCalls w ++ [(requestId, MultiSigRequest.requestData r)])
    /\ (forall requestId r,
          requests w !! requestId = Some r ->
          (forall creator, (requestId, r, creator) ∉ documents) ->
          now <> MultiSigRequest.expiresAt r ->
          ledgerCalls (fst (approveTokenCreation ledger now userId requestId w))
          = ledgerCalls w)
    /\ (forall requestId r,
          requests w !! requestId = Some r ->
          MultiSigRequest.status r = pending -> userId ∉ signers r ->
          now = MultiSigRequest.expiresAt r ->
          (forall creator, (requestId, r, creator) ∉ documents)
          /\ ledgerCalls (fst (approveTokenCreation ledger now userId requestId w))
             = ledgerCalls w ++ [(requestId, MultiSigRequest.requestData r)]).
Proof.
  destruct Hmanager as [Hu Hrole]. pose proof (conj Hu Hrole : isManager w userId user) as Hm.
  unfold getPendingRequests. rewrite Hu, (notManager_false _ Hrole).
  eexists. split; [reflexivity|]. split; [|split].
  - intros requestId r creator Hin.
    apply listed_spec in Hin as (Hl & Ha & _).
    apply awaits_spec in Ha as (Hst & Hexp & Hnot).
    split; [exact Hl|].
    apply (approve_quorum_calls ledger now userId requestId w user r); try assumption. lia.
  - intros requestId r Hl Hnot Hne.
    unfold approveTokenCreation.
    destruct (decide (MultiSigRequest.status r = pending)) as [Hst|Hst].
    2:{ now rewrite (approve_not_pending _ _ _ _ _ user r). }
    destruct (Z.lt_ge_cases (MultiSigRequest.expiresAt r) now) as [Hexp|Hexp].
    { now rewrite (approve_expired _ _ _ _ _ user r). }
    destruct (decide (userId ∈ signers r)) as [Hin|Hin].
    { now rewrite (approve_duplicate _ _ _ _ _ user r). }
    exfalso. apply (Hnot (User.email <$> users w !! MultiSigRequest.createdBy r)).
    apply listed_spec. split; [exact Hl|]. split; [|reflexivity].
    apply awaits_spec. repeat split; [exact Hst | lia | exact Hin].
  - intros requestId r Hl Hst Hnot ->. split.
    + intros creator Hin. apply listed_spec in Hin as (_ & Ha & _).
      apply awaits_spec in Ha as (_ & Hexp & _). lia.
    + apply (approve_quorum_calls ledger _ userId requestId w user r); try assumption. lia.
Qed.

Lemma getPendingRequests_lists_what_can_be_approved_witness :
  exists documents : list Listed,
    getPendingRequests 2000 "u2" Scenario.initiated = Pending documents
    /\ (0%nat, Scenario.tokenRequest, Some "manager1@pezzy.rw") ∈ documents
    /\ getPendingRequests 2000 "u1" Scenario.initiated = Pending [].
Proof.
  destruct (getPendingRequests_lists_what_can_be_approved
              (Scenario.ledgerCreates "0.0.4867332" "tx-1") 2000 "u2"
              Scenario.initiated Scenario.m2)
    as (documents & Hlist & _).
  - split; vm_compute; reflexivity.
  - exists documents. split; [exact Hlist|].
    vm_compute in Hlist. injection Hlist as <-.
    split; [left | vm_compute; reflexivity].
Defined.

Lemma notManager_lookup (w : World) (userId : string) :
  (forall user, ~ isManager w userId user) -> notManager (users w !! userId) = true.
Proof.
  intros H. destruct (users w !! userId) as [u|] eqn:Hu; [|reflexivity].
  apply notManager_true. intros Hr. apply (H u). now split.
Qed.

(** X12: A caller who is not a registered manager is refused with 403 by every
    call of the controller, and none of them changes the state. *)
Theorem non_manager_changes_nothing (w : World) (userId : string)
    (Hnot : forall user, ~ isManager w userId user) :
  (forall env now body,
      fst (initiateTokenCreation env now userId body w) = w
      /\ Response.statusCode (snd (initiateTokenCreation env now userId body w)) = 403%Z)
  /\ (forall ledger now requestId,
        fst (approveTokenCreation ledger now userId requestId w) = w
        /\ Response.statusCode (snd (approveTokenCreation ledger now userId requestId w))
           = 403%Z)
  /\ (forall env now newRate,
        fst (updateInterestRate env now userId newRate w) = w
        /\ Response.statusCode (snd (updateInterestRate env now userId newRate w)) = 403%Z)
  /\ (forall now, exists response,
        getPendingRequests now userId w = Refused response
        /\ Response.statusCode response = 403%Z)
  /\ (forall status limit page, exists response,
        getAllRequests userId status limit page w = Refused response
        /\ Response.statusCode response = 403%Z).
Proof.
  pose proof (notManager_lookup w userId Hnot) as Hn.
  split; [|split; [|split; [|split]]].
  - intros env now body. unfold initiateTokenCreation.
    destruct (users w !! userId) as [u|]; [|now split]. now rewrite Hn.
  - intros ledger now requestId. unfold approveTokenCreation.
    now rewrite (approve_not_manager _ _ _ _ _ Hnot).
  - intros env now newRate. unfold updateInterestRate.
    destruct (users w !! userId) as [u|]; [|now split]. now rewrite Hn.
  - intros now. unfold getPendingRequests. rewrite Hn. eexists. now split.
  - intros status limit page. unfold getAllRequests. rewrite Hn. eexists. now split.
Qed.

Lemma non_manager_changes_nothing_witness :
  approveTokenCreation (Scenario.ledgerCreates "0.0.4867332" "tx-1") 2000 "u3" 0%nat
    Scenario.initiated
  = (Scenario.initiated, Response.fail 403 "Only managers can approve token creation").
Proof.
  assert (Hnot : forall user, ~ isManager Scenario.initiated "u3" user).
  { intros user [Hu Hr]. vm_compute in Hu. injection Hu as <-. discriminate. }
  destruct (non_manager_changes_nothing Scenario.initiated "u3" Hnot) as (_ & Happ & _).
  destruct (Happ (Scenario.ledgerCreates "0.0.4867332" "tx-1") 2000%Z 0%nat) as [Hw Hc].
  apply injective_projections; [exact Hw | reflexivity].
Defined.

End ManagerExtras.

Section RateRequests.

(** X13: The controller's [updateInterestRate] stores a request for a numeric
    rate exactly when the rate is above 0 and at most 100, with the rate as
    payload; a rate of 0, which the interest service itself accepts, is
    refused here.  The request expires 24 hours later on the local clock:
    86400000 ms later where the clocks are never changed, and 82800000 ms
    later in Paris on the eve of the change to summer time. *)
Theorem updateInterestRate_request_range (env : Env) (now : Z) (userId : string)
    (w : World) (user : User.t) (newRate : Q)
    (Hmanager : isManager w userId user) :
  ((0 < newRate <= 100)%Q ->
     exists r,
       fst (managerController.updateInterestRate env now userId (Some (Num newRate)) w) = managerController.insertRequest r w
       /\ MultiSigRequest.requestType r = rate_change
       /\ MultiSigRequest.status r = pending
       /\ MultiSigRequest.expiresAt r = managerController.in24Hours env now
       /\ (fixedOffset (TZ env) -> MultiSigRequest.expiresAt r = (now + 86400000)%Z)
       /\ (exists previous, MultiSigRequest.requestData r = RateChange (Num newRate) previous)
       /\ Response.success (snd (managerController.updateInterestRate env now userId (Some (Num newRate)) w))
          = true)
  /\ (~ (0 < newRate <= 100)%Q ->
      managerController.updateInterestRate env now userId (Some (Num newRate)) w
      = (w, Response.fail 400 "Invalid interest rate. Must be between 0 and 100."))
  /\ managerController.updateInterestRate env now userId (Some (Num 0)) w
     = (w, Response.fail 400 "Invalid interest rate. Must be between 0 and 100.")
  /\ (forall this, exists r, snd (updateInterestRate this (Num 0)) = Ok r)
  /\ managerController.in24Hours Scenario.parisEnv 1711800000000
     = (1711800000000 + 82800000)%Z.
Proof.
  destruct Hmanager as [Hu Hrole].
  assert (Hguard : Number.falsy (Num newRate) || Number.lt (Num newRate) (Num 0)
                   || Number.gt (Num newRate) (Num 100)
                   = negb (negb (Qeq_bool newRate 0) && Qle_bool 0 newRate
                           && Qle_bool newRate 100)).
  { unfold Number.gt, Number.lt, Number.falsy, Number.isZero.
    destruct (Qeq_bool newRate 0), (Qle_bool 0 newRate), (Qle_bool newRate 100); reflexivity. }
  split; [|split; [|split; [|split]]].
  - intros [H0 H100]. unfold managerController.updateInterestRate.
    rewrite Hu, (notManager_false _ Hrole), Hguard.
    assert (E0 : Qeq_bool newRate 0 = false).
    { destruct (Qeq_bool newRate 0) eqn:E; [|reflexivity].
      apply Qeq_bool_iff in E. rewrite E in H0. now apply Qlt_irrefl in H0. }
    assert (E1 : Qle_bool 0 newRate = true) by (apply Qle_bool_iff; now apply Qlt_le_weak).
    assert (E2 : Qle_bool newRate 100 = true) by now apply Qle_bool_iff.
    rewrite E0, E1, E2. cbn [negb andb fst snd].
    eexists. split; [reflexivity|].
    cbn [MultiSigRequest.requestType MultiSigRequest.status MultiSigRequest.expiresAt
         MultiSigRequest.requestData Response.success Response.ok].
    split; [reflexivity|]. split; [reflexivity|]. split; [reflexivity|].
    split; [|split; [eexists; reflexivity|reflexivity]].
    intros (offset & Hlocal & Hutc).
    unfold managerController.in24Hours, plusLocal. rewrite Hlocal, Hutc.
    unfold managerController.hours24. lia.
  - intros Hout. unfold managerController.updateInterestRate.
    rewrite Hu, (notManager_false _ Hrole), Hguard.
    destruct (Qeq_bool newRate 0) eqn:E0; [reflexivity|].
    destruct (Qle_bool 0 newRate) eqn:E1; [|reflexivity].
    destruct (Qle_bool newRate 100) eqn:E2; [|reflexivity].
    exfalso. apply Hout. apply Qle_bool_iff in E1, E2. split; [|exact E2].
    apply Qle_lt_or_eq in E1 as [H|H]; [exact H|].
    assert (Hz : Qeq_bool newRate 0 = true) by (apply Qeq_bool_iff; now symmetry).
    congruence.
  - unfold managerController.updateInterestRate. now rewrite Hu, (notManager_false _ Hrole).
  - intros this. unfold updateInterestRate. cbn. eexists. reflexivity.
  - reflexivity.
Qed.

Lemma updateInterestRate_request_range_witness :
  fst (managerController.updateInterestRate Scenario.env 1000 "u1" (Some (Num 5)) Scenario.start)
  = managerController.insertRequest Scenario.rateRequest Scenario.start.
Proof.
  destruct (updateInterestRate_request_range Scenario.env 1000 "u1" Scenario.start
              Scenario.m1 5) as (Hin & _).
  - split; vm_compute; reflexivity.
  - destruct Hin as (r & Hr & _); [split; [reflexivity | discriminate]|].
    rewrite Hr. vm_compute in Hr. injection Hr as Hr. vm_compute. now rewrite <- Hr.
Defined.

End RateRequests.

(** ** The history of a request *)

Section RequestHistory.
Import managerController.

(** The cases of [approve_world_cases], with the side of [expiresAt] that
    [now] is on. *)
Lemma approve_world_cases_timed (ledger : Ledger) (now : Z) (userId : string)
    (requestId : nat) (w : World) :
  let w' := fst (approveTokenCreation ledger now userId requestId w) in
  w' = w
  \/ (exists r,
        requests w !! requestId = Some r /\ MultiSigRequest.status r = pending
        /\ (MultiSigRequest.expiresAt r < now)%Z
        /\ w' = set_requests (<[requestId := MultiSigRequest.set_status rejected r]> (requests w)) w)
  \/ (exists r user final tokens' tokenId',
        requests w !! requestId = Some r /\ MultiSigRequest.status r = pending
        /\ (now <= MultiSigRequest.expiresAt r)%Z
        /\ (userId ∉ signers r)
        /\ isManager w userId user
        /\ w' = {| users := users w; tokens := tokens';
                   requests := <[requestId := final]> (requests w);
                   hederaTokenId := tokenId';
                   interestService := interestService w;
                   ledgerCalls := ledgerCalls w ++ [(requestId, MultiSigRequest.requestData r)] |}
        /\ (final = rejectedAfter userId user now r
            \/ exists tokenResult, final = executedAfter userId user now tokenResult r)).
Proof.
  unfold approveTokenCreation. cbn zeta.
  destruct (users w !! userId) as [user|] eqn:Hu.
  2:{ left. rewrite approve_not_manager; [reflexivity|]. intros u [H _]. congruence. }
  destruct (decide (User.role user = manager)) as [Hr|Hr].
  2:{ left. rewrite approve_not_manager; [reflexivity|]. intros u [H1 H2]. congruence. }
  assert (Hm : isManager w userId user) by now split.
  destruct (requests w !! requestId) as [r|] eqn:Hreq.
  2:{ left. now rewrite (approve_not_found _ _ _ _ _ user). }
  destruct (decide (MultiSigRequest.status r = pending)) as [Hst|Hst].
  2:{ left. now rewrite (approve_not_pending _ _ _ _ _ user r). }
  destruct (Z.lt_ge_cases (MultiSigRequest.expiresAt r) now) as [Hexp|Hexp].
  { right; left. exists r. rewrite (approve_expired _ _ _ _ _ user r) by assumption.
    repeat split; assumption || reflexivity. }
  destruct (decide (userId ∈ signers r)) as [Hin|Hin].
  { left. now rewrite (approve_duplicate _ _ _ _ _ user r). }
  right; right.
  destruct (ledger (MultiSigRequest.requestData r)) as [tokenResult|message] eqn:Hl.
  - destruct (tokenError tokenResult w) as [refusal|] eqn:Ht.
    + rewrite (approve_quorum_token_refused _ _ _ _ _ user r Hm Hreq Hst Hexp Hin _ _ Hl Ht).
      eexists r, user, _, _, _. repeat split; try eassumption. now left.
    + rewrite (approve_quorum_executed _ _ _ _ _ user r Hm Hreq Hst Hexp Hin _ Hl Ht).
      eexists r, user, _, _, _. repeat split; try eassumption. right. now exists tokenResult.
  - rewrite (approve_quorum_failed _ _ _ _ _ user r Hm Hreq Hst Hexp Hin _ Hl).
    eexists r, user, _, _, _. repeat split; try eassumption. now left.
Qed.

(** The request that a call of an initiating endpoint stores. *)
Lemma initiating_call_cases (now : Z) (c : Call) (w : World) :
  match c with ApproveTokenCreation _ _ _ => False | _ => True end ->
  fst (step now c w) = w
  \/ exists r, fst (step now c w) = insertRequest r w
               /\ MultiSigRequest.status r = pending
               /\ MultiSigRequest.requiredSignatures r = 2%Z
               /\ length (MultiSigRequest.signatures r) = 1%nat
               /\ exists env, MultiSigRequest.expiresAt r = in24Hours env now.
Proof.
  destruct c as [env userId body| |env userId newRate]; [|contradiction|]; intros _; cbn [step].
  - unfold initiateTokenCreation.
    destruct (users w !! userId) as [user|]; [|now left].
    destruct (notManager (Some user)); [now left|].
    destruct (tokens w); [|now left].
    right. eexists. split; [reflexivity|]. repeat split. now exists env.
  - unfold updateInterestRate.
    destruct (users w !! userId) as [user|]; [|now left].
    destruct (notManager (Some user)); [now left|].
    destruct newRate as [newRate|]; [|now left].
    destruct (_ || _); [now left|].
    right. eexists. split; [reflexivity|]. repeat split. now exists env.
Qed.






Lemma signaturesInv_step (now : Z) (c : Call) (w : World) :
  (forall requestId r, requests w !! requestId = Some r -> signaturesInv r) ->
  forall requestId r, requests (fst (step now c w)) !! requestId = Some r -> signaturesInv r.
Proof.
  intros Hinv requestId r.
  assert (Hnew : forall r0, MultiSigRequest.status r0 = pending ->
                   MultiSigRequest.requiredSignatures r0 = 2%Z ->
                   length (MultiSigRequest.signatures r0) = 1%nat -> signaturesInv r0).
  { intros r0 Hst Hreq Hlen. split; [exact Hreq|]. split.
    - unfold signers. destruct (MultiSigRequest.signatures r0) as [|a [|b l]]; try discriminate.
      cbn. apply NoDup_singleton.
    - split; [lia | intros _; exact Hlen]. }
  assert (Hinit : forall c', match c' with ApproveTokenCreation _ _ _ => False | _ => True end ->
                    requests (fst (step now c' w)) !! requestId = Some r -> signaturesInv r).
  { intros c' Hc'. destruct (initiating_call_cases now c' w Hc')
      as [->|(r0 & -> & Hst & Hreq & Hlen & _)]; [apply Hinv|].
    cbn [insertRequest set_requests requests]. intros Hl.
    apply lookup_snoc_Some in Hl as [[_ Hl]|[_ <-]]; [now apply (Hinv requestId)|].
    now apply Hnew. }
  destruct c as [env userId body|ledger userId id|env userId newRate];
    [now apply Hinit| |now apply Hinit].
  cbn [step].
  destruct (approve_world_cases_timed ledger now userId id w)
    as [H|[(r0 & Hr0 & Hst & _ & H)|(r0 & user & final & tokens' & tokenId' & Hr0 & Hst & _ & Hnot & _ & H & Hf)]];
    cbn zeta in H; rewrite H; cbn [set_requests requests].
  - apply Hinv.
  - intros Hl. apply list_lookup_insert_Some in Hl as [(<- & <- & _)|[_ Hl]];
      [|now apply (Hinv requestId)].
    destruct (Hinv _ _ Hr0) as (H1 & H2 & H3 & H4).
    split; [exact H1|]. split; [exact H2|]. split; [exact H3|]. cbn. discriminate.
  - intros Hl. apply list_lookup_insert_Some in Hl as [(<- & <- & _)|[_ Hl]];
      [|now apply (Hinv requestId)].
    destruct (Hinv _ _ Hr0) as (H1 & H2 & _ & H4). specialize (H4 Hst).
    assert (Hsig : MultiSigRequest.requiredSignatures final = 2%Z
                   /\ signers final = signers r0 ++ [userId]
                   /\ MultiSigRequest.status final <> pending).
    { destruct Hf as [->|[tokenResult ->]]; cbn; (split; [exact H1|]);
        (split; [apply signers_pushed | discriminate]). }
    destruct Hsig as (G1 & G2 & G3).
    split; [exact G1|]. split.
    + rewrite G2. apply NoDup_app. split; [exact H2|]. split.
      * intros x Hx Hx'. apply list_elem_of_singleton in Hx' as ->. contradiction.
      * apply NoDup_singleton.
    + assert (Hlen : length (MultiSigRequest.signatures final) = 2%nat).
      { apply (f_equal length) in G2. unfold signers in G2.
        rewrite length_app, !length_fmap in G2. cbn in G2. lia. }
      split; [lia | intros Hp; contradiction].
Qed.

(** When the calls have been served one after the other, a stored
    request carries one or two signatures and never more than the two it
    requires, of managers that are all different; while it is pending it
    carries one. *)
Lemma signatures_in_turn (w : World) (Hreach : reachable w) :
  forall requestId r,
    requests w !! requestId = Some r ->
    MultiSigRequest.requiredSignatures r = 2%Z
    /\ NoDup (signers r)
    /\ (1 <= length (MultiSigRequest.signatures r))%nat
    /\ (Z.of_nat (length (MultiSigRequest.signatures r))
        <= MultiSigRequest.requiredSignatures r)%Z
    /\ (MultiSigRequest.status r = pending -> length (MultiSigRequest.signatures r) = 1%nat).
Proof.
  destruct Hreach as (us & service & calls & ->).
  assert (Hall : forall requestId r,
             requests (run calls (initialWorld us service)) !! requestId = Some r ->
             signaturesInv r).
  { assert (H0 : forall requestId r,
               requests (initialWorld us service) !! requestId = Some r -> signaturesInv r)
      by (intros requestId r H; discriminate).
    revert H0. generalize (initialWorld us service).
    induction calls as [|[now c] calls IH]; intros w Hinv; cbn [run]; [exact Hinv|].
    apply IH. now apply signaturesInv_step. }
  intros requestId r Hl. destruct (Hall _ _ Hl) as (H1 & H2 & H3 & H4).
  split; [exact H1|]. split; [exact H2|]. split; [lia|]. split; [rewrite H1; lia | exact H4].
Qed.

(** X15: A stored request requires two signatures and carries one at
    least, each of a registered manager, and exactly one while it is
    pending, whatever the order in which the handlers take their steps.
    When the calls have been served one after the other, its signers are
    all different and it never carries more than the two signatures it
    requires; approvals that overlap can leave more. *)
Theorem signatures_bounded (s : Async.Server) (Hreach : Async.reachable s) :
  forall requestId r,
    requests (Async.world s) !! requestId = Some r ->
    MultiSigRequest.requiredSignatures r = 2%Z
    /\ (1 <= length (MultiSigRequest.signatures r))%nat
    /\ (forall userId, userId ∈ signers r -> Async.managerId (Async.world s) userId)
    /\ (MultiSigRequest.status r = pending -> length (MultiSigRequest.signatures r) = 1%nat)
    /\ (reachable (Async.world s) ->
        NoDup (signers r)
        /\ (Z.of_nat (length (MultiSigRequest.signatures r))
            <= MultiSigRequest.requiredSignatures r)%Z).
Proof.
  intros requestId r Hr.
  destruct (reachable_inv s Hreach) as [Hw _].
  destruct (Hw _ _ Hr) as (H1 & H2 & H3 & H4 & _).
  assert (Hlen : length (signers r) = length (MultiSigRequest.signatures r))
    by (unfold signers; apply length_fmap).
  split; [exact H1|]. split.
  { rewrite <- Hlen. destruct (signers r); [contradiction | cbn; lia]. }
  split; [exact H3|]. split.
  { intros Hp. rewrite <- Hlen. now apply H4. }
  intros Hturn.
  destruct (signatures_in_turn (Async.world s) Hturn requestId r Hr) as (_ & G1 & _ & G2 & _).
  now split.
Qed.

Lemma signatures_bounded_witness :
  (exists r,
      requests (Async.world Race.final) !! 0%nat = Some r
      /\ length (MultiSigRequest.signatures r) = 3%nat
      /\ forall userId, userId ∈ signers r -> Async.managerId (Async.world Race.final) userId)
  /\ (exists r,
        requests (Async.world Race.served) !! 0%nat = Some r
        /\ NoDup (signers r)
        /\ (Z.of_nat (length (MultiSigRequest.signatures r))
            <= MultiSigRequest.requiredSignatures r)%Z).
Proof.
  split.
  - eexists. split; [vm_compute; reflexivity|]. split; [reflexivity|].
    exact (proj1 (proj2 (proj2
             (signatures_bounded Race.final reachable_final 0%nat _
                ltac:(vm_compute; reflexivity))))).
  - eexists. split; [vm_compute; reflexivity|].
    exact (proj2 (proj2 (proj2 (proj2
             (signatures_bounded Race.served (proj1 reachable_served) 0%nat _
                ltac:(vm_compute; reflexivity)))))
             (proj2 reachable_served)).
Defined.

Lemma callsFor_unchanged (requestId : nat) (w w' : World) :
  ledgerCalls w' = ledgerCalls w -> callsFor requestId w' = callsFor requestId w.
Proof. unfold callsFor. now intros ->. Qed.

Lemma step_after_deadline (now : Z) (c : Call) (w : World) (requestId : nat)
    (r : MultiSigRequest.t) :
  (requests w !! requestId = Some r
   \/ requests w !! requestId = Some (MultiSigRequest.set_status rejected r)) ->
  MultiSigRequest.status r = pending ->
  (MultiSigRequest.expiresAt r < now)%Z ->
  callsFor requestId (fst (step now c w)) = callsFor requestId w
  /\ (requests (fst (step now c w)) !! requestId = Some r
      \/ requests (fst (step now c w)) !! requestId
         = Some (MultiSigRequest.set_status rejected r)).
Proof.
  intros Hr Hst Hlate.
  assert (Hlt : (requestId < length (requests w))%nat)
    by (destruct Hr as [Hr|Hr]; now apply lookup_lt_Some in Hr).
  assert (Hinit : forall c', match c' with ApproveTokenCreation _ _ _ => False | _ => True end ->
            callsFor requestId (fst (step now c' w)) = callsFor requestId w
            /\ (requests (fst (step now c' w)) !! requestId = Some r
                \/ requests (fst (step now c' w)) !! requestId
                   = Some (MultiSigRequest.set_status rejected r))).
  { intros c' Hc'. destruct (initiating_call_cases now c' w Hc') as [->|(r0 & -> & _)].
    - now split.
    - split; [reflexivity|]. cbn [insertRequest set_requests requests].
      now rewrite lookup_app_l. }
  destruct c as [env userId body|ledger userId id|env userId newRate];
    [now apply Hinit| |now apply Hinit].
  cbn [step].
  destruct (approve_world_cases_timed ledger now userId id w)
    as [H|[(r0 & Hr0 & Hst0 & _ & H)|(r0 & user & final & tokens' & tokenId' & Hr0 & Hst0 & Hexp & _ & _ & H & _)]];
    cbn zeta in H; rewrite H.
  - now split.
  - split; [reflexivity|]. cbn [set_requests requests].
    destruct (decide (id = requestId)) as [->|Hne].
    + rewrite list_lookup_insert_eq by assumption. right.
      destruct Hr as [Hr|Hr]; rewrite Hr in Hr0; injection Hr0 as <-; [reflexivity|].
      discriminate.
    + now rewrite list_lookup_insert_ne.
  - destruct (decide (id = requestId)) as [->|Hne].
    + exfalso. destruct Hr as [Hr|Hr]; rewrite Hr in Hr0; injection Hr0 as <-.
      * lia.
      * discriminate.
    + split.
      * rewrite (callsFor_logged requestId id (MultiSigRequest.requestData r0) w) by reflexivity.
        destruct (decide (id = requestId)); [contradiction|]. apply app_nil_r.
      * cbn [requests]. now rewrite list_lookup_insert_ne.
Qed.

(** X16: A pending request that no call reaches before its deadline is never
    executed: whatever calls come after [expiresAt], the ledger is not
    called for it, and it stays as it is or becomes rejected. *)
Theorem expired_request_is_never_executed (calls : list (Z * Call)) (w : World)
    (requestId : nat) (r : MultiSigRequest.t)
    (Hfound : requests w !! requestId = Some r)
    (Hpending : MultiSigRequest.status r = pending)
    (Hlate : Forall (fun c : Z * Call => (MultiSigRequest.expiresAt r < fst c)%Z) calls) :
  callsFor requestId (run calls w) = callsFor requestId w
  /\ (requests (run calls w) !! requestId = Some r
      \/ requests (run calls w) !! requestId = Some (MultiSigRequest.set_status rejected r)).
Proof.
  assert (Hgen : forall w0,
            (requests w0 !! requestId = Some r
             \/ requests w0 !! requestId = Some (MultiSigRequest.set_status rejected r)) ->
            callsFor requestId (run calls w0) = callsFor requestId w0
            /\ (requests (run calls w0) !! requestId = Some r
                \/ requests (run calls w0) !! requestId
                   = Some (MultiSigRequest.set_status rejected r))).
  { induction calls as [|[now c] calls IH]; intros w0 H0; cbn [run].
    - now split.
    - inversion Hlate as [|? ? Hnow Hrest]; subst. cbn in Hnow.
      destruct (step_after_deadline now c w0 requestId r H0 Hpending Hnow) as [Hc Hr].
      destruct (IH Hrest _ Hr) as [Hc' Hr']. split; [congruence | exact Hr']. }
  apply Hgen. now left.
Qed.

Lemma expired_request_is_never_executed_witness :
  requests (run [ (86401001, ApproveTokenCreation (Scenario.ledgerCreates "0.0.4867332" "tx-1")
                               "u2" 0%nat);
                  (86401002, ApproveTokenCreation (Scenario.ledgerCreates "0.0.4867332" "tx-1")
                               "u2" 0%nat) ]%Z
              Scenario.initiated) !! 0%nat
  = Some (MultiSigRequest.set_status rejected Scenario.tokenRequest)
  /\ ledgerCalls (run [ (86401001, ApproveTokenCreation
                                     (Scenario.ledgerCreates "0.0.4867332" "tx-1") "u2" 0%nat);
                        (86401002, ApproveTokenCreation
                                     (Scenario.ledgerCreates "0.0.4867332" "tx-1") "u2" 0%nat) ]%Z
                    Scenario.initiated) = [].
Proof.
  destruct (expired_request_is_never_executed
              [ (86401001, ApproveTokenCreation (Scenario.ledgerCreates "0.0.4867332" "tx-1")
                             "u2" 0%nat);
                (86401002, ApproveTokenCreation (Scenario.ledgerCreates "0.0.4867332" "tx-1")
                             "u2" 0%nat) ]%Z
              Scenario.initiated 0%nat Scenario.tokenRequest)
    as [_ _].
  - vm_compute. reflexivity.
  - reflexivity.
  - repeat constructor.
  - split; vm_compute; reflexivity.
Defined.

End RequestHistory.

(** ** Pages of the request history *)

Section Pagination.
Import managerController managerListings.

Lemma chunks_concat {A : Type} (l : list A) (n m : nat) :
  concat ((fun k => take n (drop (k * n) l)) <$> seq 0 m) = take (m * n) l.
Proof.
  induction m as [|m IH].
  - reflexivity.
  - rewrite seq_S, fmap_app, concat_app, IH. cbn [fmap list_fmap concat].
    rewrite app_nil_r, take_take_drop. f_equal. lia.
Qed.

Lemma pagesOf_bounds (total : nat) (limit : positive) :
  (0 <= pagesOf (Z.of_nat total) limit)%Z
  /\ (Z.of_nat total <= pagesOf (Z.of_nat total) limit * Zpos limit)%Z
  /\ ((pagesOf (Z.of_nat total) limit - 1) * Zpos limit < Z.of_nat total
      \/ (total = 0%nat /\ pagesOf (Z.of_nat total) limit = 0%Z))%Z.
Proof.
  unfold pagesOf.
  set (q := (inject_Z (Z.of_nat total) / inject_Z (Zpos limit))%Q).
  assert (Hl : (0 < inject_Z (Zpos limit))%Q) by (rewrite <- (Zlt_Qlt 0); lia).
  assert (Ht : (0 <= inject_Z (Z.of_nat total))%Q) by (rewrite <- (Zle_Qle 0); lia).
  assert (Hq : (q * inject_Z (Zpos limit) == inject_Z (Z.of_nat total))%Q).
  { unfold q. field. intros H. rewrite H in Hl. now apply Qlt_irrefl in Hl. }
  pose proof (Qle_ceiling q) as Hup.
  pose proof (Qceiling_lt q) as Hlo.
  assert (Hup' : (inject_Z (Z.of_nat total)
                  <= inject_Z (Qceiling q) * inject_Z (Zpos limit))%Q).
  { rewrite <- Hq. apply Qmult_le_compat_r; [exact Hup | now apply Qlt_le_weak]. }
  assert (Hlo' : (inject_Z (Qceiling q - 1) * inject_Z (Zpos limit)
                  < inject_Z (Z.of_nat total))%Q).
  { rewrite <- Hq. now apply Qmult_lt_compat_r. }
  rewrite <- inject_Z_mult, <- Zle_Qle in Hup'.
  rewrite <- inject_Z_mult, <- Zlt_Qlt in Hlo'.
  split; [|split; [exact Hup' | now left]].
  nia.
Qed.

(** X17: For a manager, every page of [getAllRequests] holds at most [limit]
    requests, the pages from 1 to the number of pages answered hold each
    matching request once, newest first, and the pages after them are
    empty. *)
Theorem getAllRequests_pages_cover (userId : string) (status : option string)
    (limit : positive) (w : World) (user : User.t)
    (Hmanager : isManager w userId user) :
  let all := populate w <$> List.filter (fun entry => matches status (snd entry))
                              (newestFirst w) in
  let pages := pagesOf (Z.of_nat (length all)) limit in
  (forall page : positive,
      exists documents,
        getAllRequests userId status (Some limit) (Some page) w
        = Page documents (Z.of_nat (length all)) (Zpos page) pages
        /\ (length documents <= Pos.to_nat limit)%nat
        /\ ((pages < Zpos page)%Z -> documents = []))
  /\ concat ((fun k : nat =>
                documentsOf (getAllRequests userId status (Some limit)
                               (Some (Pos.of_succ_nat k)) w))
             <$> seq 0 (Z.to_nat pages))
     = all.
Proof.
  intros all pages. destruct Hmanager as [Hu Hrole].
  assert (Hget : forall page : positive,
            getAllRequests userId status (Some limit) (Some page) w
            = Page (take (Pos.to_nat limit)
                      (drop (Z.to_nat ((Zpos page - 1) * Zpos limit)) all))
                   (Z.of_nat (length all)) (Zpos page) pages).
  { intros page. unfold getAllRequests. rewrite Hu, (notManager_false _ Hrole).
    cbn [default]. unfold pages, all. rewrite fmap_take, fmap_drop, length_fmap.
    reflexivity. }
  destruct (pagesOf_bounds (length all) limit) as (Hp0 & Hup & _). fold pages in Hp0, Hup.
  split.
  - intros page. rewrite Hget. eexists. split; [reflexivity|]. split.
    + rewrite length_take. lia.
    + intros Hpast. rewrite drop_ge; [apply take_nil|]. nia.
  - transitivity (take (Z.to_nat pages * Pos.to_nat limit) all); [|apply take_ge; nia].
    rewrite <- chunks_concat. f_equal. apply list_fmap_ext. intros i k Hk.
    rewrite Hget. cbn [documentsOf]. f_equal. f_equal.
    rewrite Zpos_P_of_succ_nat. nia.
Qed.

Lemma getAllRequests_pages_cover_witness :
  let all := populate Scenario.initiated
               <$> List.filter (fun entry => matches None (snd entry))
                     (newestFirst Scenario.initiated) in
  exists documents,
    getAllRequests "u1" None (Some 1%positive) (Some 2%positive) Scenario.initiated
    = Page documents (Z.of_nat (length all)) 2 (pagesOf (Z.of_nat (length all)) 1)
    /\ (length documents <= Pos.to_nat 1)%nat.
Proof.
  intros all.
  destruct (getAllRequests_pages_cover "u1" None 1%positive Scenario.initiated Scenario.m1)
    as [Hpage _].
  - split; reflexivity.
  - destruct (Hpage 2%positive) as (documents & Hd & Hlen & _).
    exists documents. split; [exact Hd | exact Hlen].
Defined.

End Pagination.

(** ** From initiation to execution *)

Section EndToEnd.
Import managerController.

(** X18: A token creation that one manager initiates while no token exists and
    another manager approves no later than the request expires, 24 hours
    later on the local clock, is executed, when the ledger creates a token
    whose record the schema accepts: the answer to the initiation carries
    the id under which the request is stored, the request ends executed
    with the two signatures in order, one token record is stored and the
    ledger has been called once more. *)
Theorem initiate_then_approve_executes (env : Env) (body : TokenBody) (ledger : Ledger)
    (tokenResult : TokenResult.t) (created approved : Z) (initiator approver : string)
    (user1 user2 : User.t) (w : World)
    (Hinitiator : isManager w initiator user1)
    (Happrover : isManager w approver user2)
    (Hother : initiator <> approver)
    (Hnone : tokens w = [])
    (Hwindow : (approved <= in24Hours env created)%Z)
    (Hledger : forall config, ledger config = Ok tokenResult)
    (Hvalid : validToken (tokenOf tokenResult) = true) :
  let first := initiateTokenCreation env created initiator body w in
  let requestId := length (requests w) in
  let second := approveTokenCreation ledger approved approver requestId (fst first) in
  Response.data (snd first)
  = InitiatedData requestId token_creation pending 1 2 (in24Hours env created)
  /\ (exists r,
        requests (fst second) !! requestId = Some r
        /\ MultiSigRequest.status r = executed
        /\ signers r = [initiator; approver]
        /\ MultiSigRequest.executedAt r = Some approved
        /\ MultiSigRequest.executionTransactionId r
           = Some (TokenResult.transactionId tokenResult))
  /\ tokens (fst second) = [tokenOf tokenResult]
  /\ hederaTokenId (fst second) = Some (TokenResult.tokenId tokenResult)
  /\ Response.success (snd second) = true
  /\ length (ledgerCalls (fst second)) = S (length (ledgerCalls w)).
Proof.
  intros first requestId second.
  destruct Hinitiator as [Hu1 Hr1].
  assert (Hfirst : exists r0,
             first = (insertRequest r0 w,
                      Response.ok "Token creation initiated. Awaiting second manager approval."
                        (InitiatedData requestId token_creation pending 1 2
                           (in24Hours env created)))
             /\ MultiSigRequest.status r0 = pending
             /\ MultiSigRequest.expiresAt r0 = in24Hours env created
             /\ signers r0 = [initiator]).
  { unfold first, initiateTokenCreation. rewrite Hu1, (notManager_false _ Hr1), Hnone.
    eexists. split; [reflexivity|]. repeat split. }
  destruct Hfirst as (r0 & Hfirst & Hst & Hexp & Hsig).
  unfold second. rewrite Hfirst. cbn [fst snd Response.data Response.ok].
  split; [reflexivity|].
  assert (Hm : isManager (insertRequest r0 w) approver user2) by exact Happrover.
  assert (Hl : requests (insertRequest r0 w) !! requestId = Some r0).
  { cbn. apply list_lookup_middle. reflexivity. }
  assert (Hnot : approver ∉ signers r0).
  { rewrite Hsig. intros H. apply list_elem_of_singleton in H. congruence. }
  unfold approveTokenCreation.
  rewrite (approve_quorum_executed ledger approved approver requestId (insertRequest r0 w)
             user2 r0 Hm Hl Hst ltac:(lia) Hnot tokenResult (Hledger _)).
  2:{ unfold tokenError, tokenIdTaken. cbn [tokens insertRequest set_requests].
      now rewrite Hvalid, Hnone. }
  cbn [fst snd tokens hederaTokenId ledgerCalls requests insertRequest set_requests
       Response.success Response.ok].
  split.
  - eexists. split.
    + apply list_lookup_insert_eq. rewrite length_app. cbn. unfold requestId. lia.
    + split; [reflexivity|]. split; [|split; reflexivity].
      change (signers (executedAfter approver user2 approved tokenResult r0))
        with (signers (MultiSigRequest.push_signature
                         (signatureOf approver user2 approved) r0)).
      rewrite signers_pushed, Hsig. reflexivity.
  - rewrite Hnone. repeat split. rewrite length_app. cbn. lia.
Qed.

Lemma initiate_then_approve_executes_witness :
  MultiSigRequest.status
    <$> requests (run Scenario.creation Scenario.start) !! 0%nat = Some executed
  /\ tokens (run Scenario.creation Scenario.start)
     = [tokenOf (Scenario.created "0.0.4867332" "tx-1")].
Proof.
  destruct (initiate_then_approve_executes Scenario.env Scenario.body
              (Scenario.ledgerCreates "0.0.4867332" "tx-1")
              (Scenario.created "0.0.4867332" "tx-1") 1000 2000 "u1" "u2"
              Scenario.m1 Scenario.m2 Scenario.start)
    as (_ & (r & Hr & Hst & _) & Htokens & _).
  - split; vm_compute; reflexivity.
  - split; vm_compute; reflexivity.
  - discriminate.
  - reflexivity.
  - discriminate.
  - reflexivity.
  - reflexivity.
  - split.
    + change (run Scenario.creation Scenario.start)
        with (fst (approveTokenCreation (Scenario.ledgerCreates "0.0.4867332" "tx-1") 2000 "u2"
                     (length (requests Scenario.start))
                     (fst (initiateTokenCreation Scenario.env 1000 "u1" Scenario.body
                             Scenario.start)))).
      change 0%nat with (length (requests Scenario.start)).
      now rewrite Hr, <- Hst.
    + exact Htokens.
Defined.

End EndToEnd.

(** ** Properties of the investment controller *)

Section InvestmentExtras.
Import investmentController.

Lemma insert_last {A : Type} (l : list A) (x y : A) :
  <[length l := x]> (l ++ [y]) = l ++ [x].
Proof.
  rewrite <- (Nat.add_0_r (length l)). now rewrite insert_app_r.
Qed.

(** The three ways [buyTokens] can end: refused with the state as it was;
    failed after the transaction was stored, which is then marked failed
    with the error; or done. *)
Ltac fund_simpl :=
  cbn [fst snd fundTokenId accounts investments transactions fundService minted] in *.

Lemma buyTokens_cases (decimals : Z) (mint : Mint) (now : Z) (userId : string)
    (amountRWF : option number) (paymentMethod paymentReference : option string)
    (f : Fund) :
  let out := buyTokens decimals mint now userId amountRWF paymentMethod paymentReference f in
  (fst out = f /\ Reply.success (snd out) = false
   /\ (Reply.statusCode (snd out) = 500%Z ->
       Reply.error (snd out) = Some (Invalid "paymentMethod")))
  \/ (exists tx e minted',
        fst out = mkFund (accounts f) (investments f) (transactions f ++ [tx])
                    (fundTokenId f) (fundService f) minted'
        /\ Transaction.status tx = failed
        /\ Transaction.metadata tx = Some e
        /\ Transaction.investmentId tx = None
        /\ snd out = Reply.crash "Failed to process investment" e
        /\ (minted' = minted f \/ exists amount, minted' = minted f ++ [amount]))
  \/ (exists tx inv amount user,
        amountRWF = Some amount
        /\ canInvest f userId user
        /\ fst out = mkFund (accounts f) (investments f ++ [inv]) (transactions f ++ [tx])
                       (fundTokenId f) (fundService f)
                       (minted f ++ [Investment.tokenAmount inv])
        /\ Reply.success (snd out) = true
        /\ Transaction.status tx = completed
        /\ Transaction.type tx = deposit
        /\ Transaction.investmentId tx = Some (length (investments f))
        /\ Transaction.userId tx = userId
        /\ Transaction.tokenAmount tx = Investment.tokenAmount inv
        /\ Investment.userId inv = userId
        /\ Investment.status inv = active
        /\ Investment.amountRWF inv = amount
        /\ Investment.investmentDate inv = now
        /\ Investment.tokenAmount inv
           = Number.Math_floor (Number.mul amount (Number.Math_pow (Num 10) decimals))
        /\ Investment.interestRate inv = Rates.annualRate (getCurrentRates (fundService f))).
Proof.
  destruct f as [acc invs txs tok svc mnt].
  cbn zeta. unfold buyTokens, canInvest. cbn [accounts].
  destruct amountRWF as [amount|]; [|left; now repeat split].
  destruct (Number.falsy amount || Number.le amount (Num 0)); [left; now repeat split|].
  destruct (acc !! userId) as [user|] eqn:Hu; [|left; now repeat split].
  destruct (missing (Account.hederaAccountId user)) eqn:Hm; [left; now repeat split|].
  destruct (Account.tokenAssociated user) eqn:Ha; cbn [negb]; [|left; now repeat split].
  destruct (validPaymentMethod paymentMethod); cbn [negb]; [|left; now repeat split].
  unfold mintTokens, set_transactions, set_investments.
  cbn [fundTokenId accounts investments transactions fundService minted].
  destruct (missing tok); cbv iota.
  - right; left. fund_simpl. rewrite insert_last.
    eexists _, _, _. repeat split. now left.
  - destruct (mint _) as [transactionId|message].
    + fund_simpl. destruct (isNaN _) eqn:Hn.
      * right; left. fund_simpl. rewrite insert_last.
        eexists _, _, _. repeat split. right. eexists. reflexivity.
      * right; right. fund_simpl. rewrite insert_last.
        match goal with
        | |- context [invs ++ [?i]] => eexists _, i, amount, user
        end.
        repeat split; first [assumption | reflexivity].
    + right; left. fund_simpl. rewrite insert_last.
      eexists _, _, _. repeat split. right. eexists. reflexivity.
Qed.

Lemma findActive_Some (investmentId : nat) (userId : string) (f : Fund)
    (investment : Investment.t) :
  findActive investmentId userId f = Some investment <->
  investments f !! investmentId = Some investment
  /\ Investment.userId investment = userId
  /\ Investment.status investment = active.
Proof.
  unfold findActive. destruct (investments f !! investmentId) as [i|]; [|now intuition].
  destruct (String.eqb (Investment.userId i) userId) eqn:E.
  - apply String.eqb_eq in E.
    destruct (Investment.status i) eqn:Es; split.
    + intros [= <-]. now repeat split.
    + now intros ([= <-] & _ & _).
    + discriminate.
    + intros ([= <-] & _ & H). congruence.
    + discriminate.
    + intros ([= <-] & _ & H). congruence.
  - apply String.eqb_neq in E. split; [destruct (Investment.status i); discriminate|].
    intros ([= <-] & H & _). contradiction.
Qed.

(** The three ways [redeemTokens] can end, as for [buyTokens]. *)
Lemma redeemTokens_cases (now : Z) (userId : string) (investmentId : option nat)
    (tokenAmount : option number) (withdrawalMethod : option string) (f : Fund) :
  let out := redeemTokens now userId investmentId tokenAmount withdrawalMethod f in
  (fst out = f /\ Reply.success (snd out) = false)
  \/ (exists tx e,
        fst out = mkFund (accounts f) (investments f) (transactions f ++ [tx])
                    (fundTokenId f) (fundService f) (minted f)
        /\ Transaction.status tx = failed
        /\ Transaction.metadata tx = Some e
        /\ snd out = Reply.crash "Failed to process redemption" e)
  \/ (exists id inv calc user tx,
        investmentId = Some id
        /\ investments f !! id = Some inv
        /\ Investment.userId inv = userId
        /\ Investment.status inv = active
        /\ calculateInterest (fundService f) (Investment.amountRWF inv)
             (Investment.investmentDate inv) now = Ok calc
        /\ accounts f !! userId = Some user
        /\ missing (Account.hederaPrivateKey user) = false
        /\ fst out
           = mkFund (accounts f)
               (<[id := redeem now (Calc.totalValue calc) (Calc.interest calc)
                          [Text "mock-redeem-"; Value (Num (inject_Z now))] inv]>
                  (investments f))
               (transactions f ++ [tx]) (fundTokenId f) (fundService f) (minted f)
        /\ Transaction.status tx = completed
        /\ Transaction.type tx = withdrawal
        /\ Transaction.investmentId tx = Some id
        /\ Transaction.userId tx = userId
        /\ Transaction.amountRWF tx = Calc.totalValue calc
        /\ snd out
           = Reply.ok "Redemption successful"
               (Redeemed id (Investment.amountRWF inv) (Calc.interest calc)
                  (Calc.totalValue calc)
                  (managerController.orNumber tokenAmount (Investment.tokenAmount inv))
                  [Text "mock-redeem-"; Value (Num (inject_Z now))] now)).
Proof.
  cbn zeta. unfold redeemTokens.
  destruct investmentId as [id|]; [|left; now split].
  destruct (findActive id userId f) as [inv|] eqn:Hfind; [|left; now split].
  apply findActive_Some in Hfind. destruct Hfind as (Hinv & Hown & Hact).
  destruct f as [acc invs txs tok svc mnt]. fund_simpl.
  destruct (calculateInterest svc _ _ now) as [calc|message] eqn:Hcalc; [|left; now split].
  destruct (acc !! userId) as [user|] eqn:Hu; [|left; now split].
  destruct (missing (Account.hederaPrivateKey user)) eqn:Hkey; [left; now split|].
  destruct (isNaN (Calc.totalValue calc)); [left; now split|].
  destruct (validPaymentMethod _); cbn [negb]; [|left; now split].
  unfold set_transactions, set_investments. fund_simpl.
  destruct (isNaN (Calc.interest calc)).
  - right; left. fund_simpl. rewrite insert_last.
    eexists _, _. repeat split.
  - right; right. fund_simpl. rewrite insert_last.
    eexists id, inv, calc, user, _.
    repeat split; first [assumption | reflexivity].
Qed.

Lemma associateToken_cases (userId : string) (f : Fund) :
  let out := associateToken userId f in
  (fst out = f /\ Reply.success (snd out) = false)
  \/ (exists user,
        accounts f !! userId = Some user
        /\ missing (Account.hederaAccountId user) = false
        /\ Account.tokenAssociated user = false
        /\ fst out
           = mkFund (<[userId := Account.mk (Account.email user)
                                   (Account.hederaAccountId user)
                                   (Account.hederaPrivateKey user) true]> (accounts f))
               (investments f) (transactions f) (fundTokenId f) (fundService f) (minted f)
        /\ Reply.success (snd out) = true).
Proof.
  cbn zeta. unfold associateToken.
  destruct (accounts f !! userId) as [user|] eqn:Hu; [|left; now split].
  destruct (missing (Account.hederaAccountId user)) eqn:Hm; [left; now split|].
  destruct (Account.tokenAssociated user) eqn:Ha; [left; now split|].
  right. exists user. now repeat split.
Qed.

(** No order removes an investment, changes its owner, or changes one that
    is redeemed. *)
Lemma serve_investments (now : Z) (o : Order) (f : Fund) (id : nat) (inv : Investment.t) :
  investments f !! id = Some inv ->
  exists inv',
    investments (fst (serve now o f)) !! id = Some inv'
    /\ Investment.userId inv' = Investment.userId inv
    /\ Investment.amountRWF inv' = Investment.amountRWF inv
    /\ Investment.investmentDate inv' = Investment.investmentDate inv
    /\ (Investment.status inv = redeemed -> inv' = inv).
Proof.
  intros Hinv. destruct o as [decimals mint u amount pm pr|u oid ta wm|u]; cbn [serve].
  - destruct (buyTokens_cases decimals mint now u amount pm pr f)
      as [(E & _)|[(tx & e & m & E & _)|(tx & i & a & us & _ & _ & E & _)]];
      rewrite E; fund_simpl; exists inv; repeat split; try assumption.
    now apply lookup_app_l_Some.
  - destruct (redeemTokens_cases now u oid ta wm f)
      as [(E & _)|[(tx & e & E & _)|(id' & i & c & us & tx & _ & Hi & _ & Hact & _ & _ & _ & E & _)]];
      rewrite E; fund_simpl; [exists inv; now repeat split..|].
    destruct (decide (id' = id)) as [->|Hne].
    + assert (i = inv) as -> by congruence.
      eexists. split; [apply list_lookup_insert_eq; eapply lookup_lt_Some; eassumption|].
      repeat split. intros Hr. congruence.
    + exists inv. rewrite list_lookup_insert_ne by assumption. now repeat split.
  - destruct (associateToken_cases u f) as [(E & _)|(us & _ & _ & _ & E & _)];
      rewrite E; fund_simpl; exists inv; now repeat split.
Qed.


Lemma settled_serve (now : Z) (o : Order) (f : Fund) :
  settled f -> settled (fst (serve now o f)).
Proof.
  intros (Hpending & Hlinked & Hinv).
  assert (Hkeep : forall i tx,
             transactions f !! i = Some tx -> Transaction.status tx = completed ->
             exists id inv,
               Transaction.investmentId tx = Some id
               /\ investments (fst (serve now o f)) !! id = Some inv
               /\ Investment.userId inv = Transaction.userId tx).
  { intros i tx Htx Hc. destruct (Hlinked i tx Htx Hc) as (id & inv & Hid & Hl & Hu).
    destruct (serve_investments now o f id inv Hl) as (inv' & Hl' & Hu' & _).
    exists id, inv'. repeat split; congruence. }
  destruct o as [decimals mint u amount pm pr|u oid ta wm|u]; cbn [serve] in *.
  - destruct (buyTokens_cases decimals mint now u amount pm pr f)
      as [(E & _)|[(tx & e & m & E & Hs & _)
                  |(tx & i & a & us & _ & _ & E & _ & Hs & _ & Hid & Hu & _ & Hiu & Hia & _)]];
      rewrite E in *; fund_simpl.
    + now repeat split.
    + repeat split; [| |exact Hinv].
      * intros j t [(_ & Ht)|(_ & <-)]%lookup_snoc_Some; [eauto|congruence].
      * intros j t [(_ & Ht)|(_ & <-)]%lookup_snoc_Some Hc; [eauto|congruence].
    + repeat split.
      * intros j t [(_ & Ht)|(_ & <-)]%lookup_snoc_Some; [eauto|congruence].
      * intros j t [(_ & Ht)|(_ & <-)]%lookup_snoc_Some Hc; [eauto|].
        exists (length (investments f)), i. repeat split; [assumption| |congruence].
        apply lookup_snoc_Some. right. now split.
      * intros j t [(_ & Ht)|(_ & <-)]%lookup_snoc_Some; [eauto|congruence].
  - destruct (redeemTokens_cases now u oid ta wm f)
      as [(E & _)|[(tx & e & E & Hs & _)
                  |(id & i & c & us & tx & _ & Hi & Hiu & _ & _ & _ & _ & E & Hs & _ & Hid & Hu & _)]];
      rewrite E in *; fund_simpl.
    + now repeat split.
    + repeat split; [| |exact Hinv].
      * intros j t [(_ & Ht)|(_ & <-)]%lookup_snoc_Some; [eauto|congruence].
      * intros j t [(_ & Ht)|(_ & <-)]%lookup_snoc_Some Hc; [eauto|congruence].
    + repeat split.
      * intros j t [(_ & Ht)|(_ & <-)]%lookup_snoc_Some; [eauto|congruence].
      * intros j t [(_ & Ht)|(_ & <-)]%lookup_snoc_Some Hc; [eauto|].
        eexists id, _. split; [assumption|].
        split; [apply list_lookup_insert_eq; eapply lookup_lt_Some; eassumption|].
        cbn. congruence.
      * intros j t [(_ & <- & _)|(_ & Ht)]%list_lookup_insert_Some; [discriminate|eauto].
  - destruct (associateToken_cases u f) as [(E & _)|(us & _ & _ & _ & E & _)];
      rewrite E in *; fund_simpl; now repeat split.
Qed.

Lemma settled_empty (accounts : gmap string Account.t) (tokenId : option string)
    (service : InterestService) :
  settled (emptyFund accounts tokenId service).
Proof. repeat split; intros ? ? H; inversion H. Qed.

Lemma buyTokens_returns (decimals : Z) (mint : Mint) (now : Z) (userId : string)
    (amount : number) (paymentMethod paymentReference : option string) (f : Fund)
    (user : Account.t) (transactionId : string) :
  canInvest f userId user ->
  Number.falsy amount || Number.le amount (Num 0) = false ->
  validPaymentMethod paymentMethod = true ->
  missing (fundTokenId f) = false ->
  mint (Number.Math_floor (Number.mul amount (Number.Math_pow (Num 10) decimals)))
  = Ok transactionId ->
  isNaN (Rates.annualRate (getCurrentRates (fundService f))) = false ->
  Reply.success
    (snd (buyTokens decimals mint now userId (Some amount) paymentMethod paymentReference f))
  = true.
Proof.
  intros (Hu & Hm & Ha) Hamount Hpm Ht Hmint Hrate. unfold buyTokens, mintTokens.
  rewrite Hamount, Hu, Hm, Ha, Hpm. cbn [negb]. unfold set_transactions. fund_simpl.
  rewrite Ht, Hmint. fund_simpl. now rewrite Hrate.
Qed.

Lemma redeemTokens_returns (now : Z) (userId : string) (id : nat)
    (tokenAmount : option number) (withdrawalMethod : option string) (f : Fund)
    (inv : Investment.t) (calc : Calc.t) (user : Account.t) :
  investments f !! id = Some inv ->
  Investment.userId inv = userId ->
  Investment.status inv = active ->
  calculateInterest (fundService f) (Investment.amountRWF inv)
    (Investment.investmentDate inv) now = Ok calc ->
  isNaN (Calc.totalValue calc) = false ->
  isNaN (Calc.interest calc) = false ->
  accounts f !! userId = Some user ->
  missing (Account.hederaPrivateKey user) = false ->
  validPaymentMethod (managerController.orString withdrawalMethod (Some "mtn_momo")) = true ->
  let out := redeemTokens now userId (Some id) tokenAmount withdrawalMethod f in
  snd out
  = Reply.ok "Redemption successful"
      (Redeemed id (Investment.amountRWF inv) (Calc.interest calc) (Calc.totalValue calc)
         (managerController.orNumber tokenAmount (Investment.tokenAmount inv))
         [Text "mock-redeem-"; Value (Num (inject_Z now))] now)
  /\ investments (fst out)
     = <[id := redeem now (Calc.totalValue calc) (Calc.interest calc)
                 [Text "mock-redeem-"; Value (Num (inject_Z now))] inv]> (investments f).
Proof.
  intros Hinv Hown Hact Hcalc Htotal Hinterest Hu Hkey Hwm. cbn zeta.
  assert (Hfind : findActive id userId f = Some inv) by now apply findActive_Some.
  unfold redeemTokens. rewrite Hfind, Hcalc, Hu, Hkey, Htotal, Hwm. cbn [negb].
  unfold set_transactions, set_investments. fund_simpl. rewrite Hinterest. now fund_simpl.
Qed.

(** X19: A purchase that fails creates no investment and changes no
    account: either the fund is as it was, or it has one more transaction,
    which is marked failed and carries the error of the reply, 500.  A
    refusal with 400 or 404 changes nothing. *)
Theorem buyTokens_failure_keeps_investments (decimals : Z) (mint : Mint) (now : Z)
    (userId : string) (amountRWF : option number)
    (paymentMethod paymentReference : option string) (f : Fund)
    (Hfailed : Reply.success
                 (snd (buyTokens decimals mint now userId amountRWF paymentMethod
                         paymentReference f)) = false) :
  let out := buyTokens decimals mint now userId amountRWF paymentMethod paymentReference f in
  investments (fst out) = investments f
  /\ accounts (fst out) = accounts f
  /\ (transactions (fst out) = transactions f
      \/ exists tx,
           transactions (fst out) = transactions f ++ [tx]
           /\ Transaction.status tx = failed
           /\ Transaction.investmentId tx = None
           /\ Transaction.metadata tx = Reply.error (snd out)
           /\ Reply.statusCode (snd out) = 500%Z)
  /\ (Reply.statusCode (snd out) <> 500%Z -> fst out = f).
Proof.
  cbn zeta.
  destruct (buyTokens_cases decimals mint now userId amountRWF paymentMethod
              paymentReference f)
    as [(E & _ & _)|[(tx & e & m & E & Hs & He & Hid & Er & _)|(tx & i & a & us & _ & _ & _ & Hs & _)]].
  - rewrite E. repeat split. now left.
  - rewrite E, Er. fund_simpl. repeat split.
    + right. exists tx. now repeat split.
    + intros H. now contradiction H.
  - congruence.
Qed.

Lemma buyTokens_failure_keeps_investments_witness :
  let out := buyTokens 2 Investors.mints 1700000000000 "a" (Some (Num 1000))
               (Some "mtn_momo") None Investors.unready in
  investments (fst out) = [] /\ Reply.statusCode (snd out) = 500%Z.
Proof.
  cbn zeta.
  destruct (buyTokens_failure_keeps_investments 2 Investors.mints 1700000000000 "a"
              (Some (Num 1000)) (Some "mtn_momo") None Investors.unready eq_refl)
    as (Hi & _ & _ & _).
  split; [exact Hi|reflexivity].
Defined.

(** X20: A user who may invest, a positive amount, a payment method of
    the schema, a token that exists, a mint that the ledger accepts and a
    rate that is a number: then the purchase succeeds, and the fund gets
    exactly one investment, active, of the caller, of the amount and at the
    rate of the service, one completed deposit that refers to it, and one
    mint of the tokens of the investment. *)
Theorem buyTokens_succeeds (decimals : Z) (mint : Mint) (now : Z) (userId : string)
    (amount : number) (paymentMethod paymentReference : option string) (f : Fund)
    (user : Account.t) (transactionId : string)
    (Huser : canInvest f userId user)
    (Hamount : Number.falsy amount || Number.le amount (Num 0) = false)
    (Hmethod : validPaymentMethod paymentMethod = true)
    (Htoken : missing (fundTokenId f) = false)
    (Hmint : mint (Number.Math_floor
                     (Number.mul amount (Number.Math_pow (Num 10) decimals)))
             = Ok transactionId)
    (Hrate : isNaN (Rates.annualRate (getCurrentRates (fundService f))) = false) :
  let out := buyTokens decimals mint now userId (Some amount) paymentMethod
               paymentReference f in
  exists tx inv,
    Reply.success (snd out) = true
    /\ Reply.statusCode (snd out) = 200%Z
    /\ investments (fst out) = investments f ++ [inv]
    /\ transactions (fst out) = transactions f ++ [tx]
    /\ minted (fst out) = minted f ++ [Investment.tokenAmount inv]
    /\ accounts (fst out) = accounts f
    /\ Investment.userId inv = userId
    /\ Investment.status inv = active
    /\ Investment.amountRWF inv = amount
    /\ Investment.investmentDate inv = now
    /\ Investment.interestRate inv = Rates.annualRate (getCurrentRates (fundService f))
    /\ Transaction.status tx = completed
    /\ Transaction.type tx = deposit
    /\ Transaction.userId tx = userId
    /\ Transaction.tokenAmount tx = Investment.tokenAmount inv
    /\ Transaction.investmentId tx = Some (length (investments f)).
Proof.
  cbn zeta.
  pose proof (buyTokens_returns decimals mint now userId amount paymentMethod
                paymentReference f user transactionId Huser Hamount Hmethod
                Htoken Hmint Hrate) as Hok.
  destruct (buyTokens_cases decimals mint now userId (Some amount) paymentMethod
              paymentReference f)
    as [(_ & E & _)|[(tx & e & m & _ & _ & _ & _ & E & _)
                    |(tx & i & a & us & [= <-] & _ & E & _ & Hs & Hty & Hid & Hu & Hta
                      & Hiu & His & Hia & Hdate & _ & Hir)]].
  - congruence.
  - rewrite E in Hok. discriminate.
  - exists tx, i. rewrite E. fund_simpl. rewrite Hok.
    repeat split; try assumption.
    unfold buyTokens in Hok |- *. destruct Huser as (Hu' & Hm' & Ha').
    rewrite Hamount, Hu', Hm', Ha', Hmethod in *. cbn [negb]. unfold mintTokens.
    unfold set_transactions. fund_simpl. rewrite Htoken, Hmint. fund_simpl.
    now rewrite Hrate.
Qed.

Lemma buyTokens_succeeds_witness :
  let out := buyTokens 2 Investors.mints 1700000000000 "a" (Some (Num 1000))
               (Some "mtn_momo") None Investors.open in
  exists tx inv,
    investments (fst out) = [inv] /\ transactions (fst out) = [tx]
    /\ Investment.status inv = active /\ Transaction.status tx = completed.
Proof.
  cbn zeta.
  destruct (buyTokens_succeeds 2 Investors.mints 1700000000000 "a" (Num 1000)
              (Some "mtn_momo") None Investors.open Investors.alice
              "0.0.4867329@1700000000.000000001")
    as (tx & inv & _ & _ & Hi & Ht & _ & _ & _ & Hs & _ & _ & _ & Hc & _);
    [repeat split; reflexivity|reflexivity..|].
  exists tx, inv. repeat split; assumption.
Defined.

(** X21: While no token id is set, a purchase that passes every check of the
    controller fails in [mintTokens]: the reply is 500 with the message of
    the service, the deposit is stored and marked failed with that message,
    no investment is created and the ledger is not asked to mint. *)
Theorem buyTokens_needs_token (decimals : Z) (mint : Mint) (now : Z) (userId : string)
    (amount : number) (paymentMethod paymentReference : option string) (f : Fund)
    (user : Account.t)
    (Huser : canInvest f userId user)
    (Hamount : Number.falsy amount || Number.le amount (Num 0) = false)
    (Hmethod : validPaymentMethod paymentMethod = true)
    (Htoken : missing (fundTokenId f) = true) :
  let out := buyTokens decimals mint now userId (Some amount) paymentMethod
               paymentReference f in
  snd out = Reply.crash "Failed to process investment"
              (Thrown "Token ID not set. Create token first.")
  /\ investments (fst out) = investments f
  /\ minted (fst out) = minted f
  /\ exists tx,
       transactions (fst out) = transactions f ++ [tx]
       /\ Transaction.status tx = failed
       /\ Transaction.type tx = deposit
       /\ Transaction.amountRWF tx = amount
       /\ Transaction.metadata tx = Some (Thrown "Token ID not set. Create token first.").
Proof.
  cbn zeta. destruct Huser as (Hu & Hm & Ha). unfold buyTokens, mintTokens.
  rewrite Hamount, Hu, Hm, Ha, Hmethod. cbn [negb]. unfold set_transactions. fund_simpl.
  rewrite Htoken. fund_simpl. rewrite insert_last. repeat split.
  eexists. repeat split.
Qed.

Lemma buyTokens_needs_token_witness :
  let out := buyTokens 2 Investors.mints 1700000000000 "a" (Some (Num 1000))
               (Some "mtn_momo") None Investors.unready in
  snd out = Reply.crash "Failed to process investment"
              (Thrown "Token ID not set. Create token first.")
  /\ investments (fst out) = [] /\ minted (fst out) = [].
Proof.
  cbn zeta.
  destruct (buyTokens_needs_token 2 Investors.mints 1700000000000 "a" (Num 1000)
              (Some "mtn_momo") None Investors.unready Investors.alice)
    as (Hr & Hi & Hm & _); [repeat split; reflexivity|reflexivity..|].
  repeat split; assumption.
Defined.

(** X23: Whatever orders are served, in whatever order and at whatever times:
    no transaction is left pending, every completed transaction refers to an
    investment that exists and belongs to the user of the transaction, and
    no investment is pending. *)
Theorem serveAll_settled (orders : list (Z * Order)) (f : Fund) (Hf : settled f) :
  settled (serveAll orders f).
Proof.
  revert f Hf. induction orders as [|[now o] orders IH]; intros f Hf; [exact Hf|].
  cbn [serveAll]. apply IH. now apply settled_serve.
Qed.

Lemma serveAll_settled_witness :
  settled
    (serveAll
       [(1700000000000%Z,
         BuyTokens 2 Investors.mints "a" (Some (Num 1000)) (Some "mtn_momo") None);
        (1700086400000%Z, RedeemTokens "a" (Some 0%nat) None None);
        (1700086400001%Z, AssociateToken "b")]
       Investors.open).
Proof.
  apply serveAll_settled. apply settled_empty.
Defined.



(** X25: With a daily rate that is not negative, the owner who redeems an active
    investment of a positive amount, not before its date, is paid: the
    reply is a success, the interest is at least 0, the total at least the
    principal rounded to the cent, and the investment is stored as
    redeemed with these figures. *)
Theorem redeemTokens_pays_at_least_principal (now : Z) (userId : string) (id : nat)
    (tokenAmount : option number) (withdrawalMethod : option string) (f : Fund)
    (inv : Investment.t) (user : Account.t) (d p : Q)
    (Hinv : investments f !! id = Some inv)
    (Hown : Investment.userId inv = userId)
    (Hact : Investment.status inv = active)
    (Hamount : Investment.amountRWF inv = Num p)
    (Hp : (0 < p)%Q)
    (Hrate : dailyRate (fundService f) = Num d)
    (Hd : (0 <= d)%Q)
    (Hdate : (Investment.investmentDate inv <= now)%Z)
    (Huser : accounts f !! userId = Some user)
    (Hkey : missing (Account.hederaPrivateKey user) = false)
    (Hmethod : validPaymentMethod
                 (managerController.orString withdrawalMethod (Some "mtn_momo")) = true) :
  let out := redeemTokens now userId (Some id) tokenAmount withdrawalMethod f in
  exists interest total : Q,
    snd out
    = Reply.ok "Redemption successful"
        (Redeemed id (Num p) (Num interest) (Num total)
           (managerController.orNumber tokenAmount (Investment.tokenAmount inv))
           [Text "mock-redeem-"; Value (Num (inject_Z now))] now)
    /\ (0 <= interest)%Q
    /\ (roundTo2 p <= total)%Q
    /\ exists inv',
         investments (fst out) !! id = Some inv'
         /\ Investment.status inv' = redeemed
         /\ Investment.redemptionAmount inv' = Some (Num total)
         /\ Investment.interestAccrued inv' = Num interest
         /\ Investment.redemptionDate inv' = Some now.
Proof.
  cbn zeta.
  destruct (calculateInterest_figures (fundService f) d p (Investment.investmentDate inv)
              now Hrate Hp Hdate)
    as (calc & Hcalc & _ & Hdays & _ & Hi & Ht).
  rewrite <- Hamount in Hcalc.
  destruct (redeemTokens_returns now userId id tokenAmount withdrawalMethod f inv calc user
              Hinv Hown Hact Hcalc) as (Hreply & Hinvs);
    [now rewrite Ht|now rewrite Hi|assumption..|].
  rewrite Hreply, Hinvs, Hamount, Hi, Ht.
  pose proof (compound_factor_ge_1 d (Calc.days calc) Hd Hdays) as Hfactor.
  eexists _, _. split; [reflexivity|]. split; [|split].
  - rewrite <- (roundTo2_zero 0) by reflexivity. apply roundTo2_le. nra.
  - apply roundTo2_le. nra.
  - eexists. split; [apply list_lookup_insert_eq; eapply lookup_lt_Some; eassumption|].
    now repeat split.
Qed.

Lemma redeemTokens_pays_at_least_principal_witness :
  exists interest total : Q,
    Reply.data (snd (redeemTokens 1707776000000 "a" (Some 0%nat) None None
                       Investors.invested))
    = Redeemed 0 (Num 100000) (Num interest) (Num total) (Num 10000000)
        [Text "mock-redeem-"; Value (Num 1707776000000)] 1707776000000
    /\ (0 <= interest)%Q /\ (roundTo2 100000 <= total)%Q.
Proof.
  destruct (redeemTokens_pays_at_least_principal 1707776000000 "a" 0 None None
              Investors.invested Investors.holding Investors.alice (8.5 / 100 / 365) 100000
              eq_refl eq_refl eq_refl eq_refl eq_refl eq_refl ltac:(discriminate)
              ltac:(discriminate) eq_refl eq_refl eq_refl)
    as (interest & total & Hr & Hi & Ht & _).
  exists interest, total. rewrite Hr. repeat split; assumption.
Defined.

(** X26: The [tokenAmount] of a redemption request decides nothing but the
    figure reported: whatever it is, the same investment is redeemed as a
    whole, for the same amount, with the same status code. *)
Theorem redeemTokens_redeems_whole_investment (now : Z) (userId : string)
    (investmentId : option nat) (tokenAmount tokenAmount' : option number)
    (withdrawalMethod : option string) (f : Fund) :
  let out := redeemTokens now userId investmentId tokenAmount withdrawalMethod f in
  let out' := redeemTokens now userId investmentId tokenAmount' withdrawalMethod f in
  investments (fst out) = investments (fst out')
  /\ map Transaction.amountRWF (transactions (fst out))
     = map Transaction.amountRWF (transactions (fst out'))
  /\ map Transaction.status (transactions (fst out))
     = map Transaction.status (transactions (fst out'))
  /\ Reply.statusCode (snd out) = Reply.statusCode (snd out').
Proof.
  cbn zeta. unfold redeemTokens.
  destruct investmentId as [id|]; [|now repeat split].
  destruct (findActive id userId f) as [inv|]; [|now repeat split].
  destruct (calculateInterest _ _ _ _) as [calc|message]; [|now repeat split].
  destruct (accounts f !! userId) as [user|]; [|now repeat split].
  destruct (missing _); [now repeat split|].
  destruct (isNaN (Calc.totalValue calc)); [now repeat split|].
  destruct (validPaymentMethod _); cbn [negb]; [|now repeat split].
  destruct f as [acc invs txs tok svc mnt]. unfold set_transactions, set_investments.
  fund_simpl. destruct (isNaN (Calc.interest calc)); fund_simpl;
    rewrite !insert_last, !map_app; now repeat split.
Qed.

(** X27: Buying and redeeming at the same instant gives back the principal as
    [calculateInterest] reports it for that instant, with no interest,
    whatever the rate of the service, when the ledger mints what it is
    asked to. *)
Theorem buy_then_redeem_at_once (decimals : Z) (mint : Mint) (now : Z) (userId : string)
    (q : Q) (paymentMethod paymentReference : option string) (f : Fund)
    (user : Account.t) (transactionId : string)
    (Huser : canInvest f userId user)
    (Hkey : missing (Account.hederaPrivateKey user) = false)
    (Hq : (0 < q)%Q)
    (Hmethod : validPaymentMethod paymentMethod = true)
    (Htoken : missing (fundTokenId f) = false)
    (Hmint : forall amount : number, mint amount = Ok transactionId)
    (Hrate : isNaN (Rates.annualRate (getCurrentRates (fundService f))) = false) :
  let bought := fst (buyTokens decimals mint now userId (Some (Num q)) paymentMethod
                       paymentReference f) in
  let out := redeemTokens now userId (Some (length (investments f))) None None bought in
  exists interest total tokens calc,
    Reply.data (snd out)
    = Redeemed (length (investments f)) (Num q) (Num interest) (Num total) tokens
        [Text "mock-redeem-"; Value (Num (inject_Z now))] now
    /\ Reply.success (snd out) = true
    /\ (interest == 0)%Q
    /\ calculateInterest (fundService f) (Num q) now now = Ok calc
    /\ Calc.principal calc ==# Num total.
Proof.
  cbn zeta.
  assert (Hamount : Number.falsy (Num q) || Number.le (Num q) (Num 0) = false).
  { cbn [Number.falsy Number.le]. apply orb_false_intro.
    - unfold Number.isZero. destruct (Qeq_bool q 0) eqn:E; [|reflexivity].
      apply Qeq_bool_iff in E. lra.
    - destruct (Qle_bool q 0) eqn:E; [|reflexivity]. apply Qle_bool_iff in E. lra. }
  pose proof (buyTokens_returns decimals mint now userId (Num q) paymentMethod
                paymentReference f user transactionId Huser Hamount Hmethod
                Htoken (Hmint _) Hrate) as Hok.
  destruct (buyTokens_cases decimals mint now userId (Some (Num q)) paymentMethod
              paymentReference f)
    as [(_ & E & _)|[(tx & e & m & _ & _ & _ & _ & E & _)
                    |(tx & i & a & us & [= <-] & _ & E & _ & _ & _ & _ & _ & _
                      & Hiu & His & Hia & Hdate & _)]].
  - congruence.
  - rewrite E in Hok. discriminate.
  - destruct Huser as (Hu & _ & _).
    destruct (calculateInterest_same_date (fundService f) q now Hq)
      as (calc & Hcalc & _ & Epr & Ei & Et).
    rewrite cents_roundTo2 in Epr, Ei, Et.
    set (interest := roundTo2 (q * 1 - q)) in *. set (total := roundTo2 (q * 1)) in *.
    assert (Hi : (interest == 0)%Q) by (apply roundTo2_zero; ring).
    assert (Ht : (roundTo2 q == total)%Q) by (apply roundTo2_compat; ring).
    destruct (redeemTokens_returns now userId (length (investments f)) None None
                (fst (buyTokens decimals mint now userId (Some (Num q)) paymentMethod
                        paymentReference f)) i calc user) as (Hreply & _).
    + rewrite E. fund_simpl. apply lookup_snoc_Some. right. now split.
    + exact Hiu.
    + exact His.
    + rewrite E, Hia, Hdate. fund_simpl. exact Hcalc.
    + now rewrite Et.
    + now rewrite Ei.
    + rewrite E. fund_simpl. exact Hu.
    + exact Hkey.
    + reflexivity.
    + rewrite Hreply, Hia, Ei, Et. eexists interest, total, _, calc.
      split; [reflexivity|]. split; [reflexivity|]. split; [exact Hi|].
      split; [exact Hcalc|]. rewrite Epr. exact Ht.
Qed.

Lemma buy_then_redeem_at_once_witness :
  let bought := fst (buyTokens 2 Investors.mints 1700000000000 "a" (Some (Num 1000.004))
                       (Some "mtn_momo") None Investors.open) in
  exists interest total tokens,
    Reply.data (snd (redeemTokens 1700000000000 "a" (Some 0%nat) None None bought))
    = Redeemed 0 (Num 1000.004) (Num interest) (Num total) tokens
        [Text "mock-redeem-"; Value (Num 1700000000000)] 1700000000000
    /\ (interest == 0)%Q.
Proof.
  cbn zeta.
  destruct (buy_then_redeem_at_once 2 Investors.mints 1700000000000 "a" 1000.004
              (Some "mtn_momo") None Investors.open Investors.alice
              "0.0.4867329@1700000000.000000001")
    as (interest & total & tokens & calc & Hd & _ & Hi & _);
    [repeat split; reflexivity|reflexivity|reflexivity|reflexivity|reflexivity
    |intros amount; reflexivity|reflexivity|].
  exists interest, total, tokens. split; [exact Hd|exact Hi].
Defined.

(** X28: The association comes before the first purchase and happens once: a
    user with a Hedera account and no association is refused a purchase;
    [associateToken] then succeeds, touches no other account, no
    investment and no transaction, and makes the user one who may invest;
    a second [associateToken] is refused with 400 and changes nothing. *)
Theorem associateToken_once (userId : string) (f : Fund) (user : Account.t)
    (Huser : accounts f !! userId = Some user)
    (Haccount : missing (Account.hederaAccountId user) = false)
    (Hfresh : Account.tokenAssociated user = false) :
  let out := associateToken userId f in
  (forall decimals mint now amountRWF paymentMethod paymentReference,
      let refused := buyTokens decimals mint now userId amountRWF paymentMethod
                       paymentReference f in
      fst refused = f /\ Reply.statusCode (snd refused) = 400%Z)
  /\ Reply.success (snd out) = true
  /\ (exists user', canInvest (fst out) userId user'
                    /\ Account.hederaAccountId user' = Account.hederaAccountId user
                    /\ Account.hederaPrivateKey user' = Account.hederaPrivateKey user)
  /\ (forall other, other <> userId -> accounts (fst out) !! other = accounts f !! other)
  /\ investments (fst out) = investments f
  /\ transactions (fst out) = transactions f
  /\ associateToken userId (fst out)
     = (fst out, Reply.refuse 400 "Token is already associated with your account").
Proof.
  cbn zeta. split; [|unfold associateToken; rewrite Huser, Haccount, Hfresh; fund_simpl].
  - intros decimals mint now amountRWF paymentMethod paymentReference. unfold buyTokens.
    destruct amountRWF as [amount|]; [|now split].
    destruct (_ || _); [now split|]. now rewrite Huser, Haccount, Hfresh.
  - split; [reflexivity|]. split; [|split; [|split; [|split]]].
    + exists (Account.mk (Account.email user) (Account.hederaAccountId user)
                (Account.hederaPrivateKey user) true).
      split; [|split; reflexivity].
      repeat split; [apply lookup_insert_eq|exact Haccount].
    + intros other Hne. apply lookup_insert_ne. congruence.
    + reflexivity.
    + reflexivity.
    + rewrite lookup_insert_eq. cbn. now rewrite Haccount.
Qed.

Lemma associateToken_once_witness :
  let out := associateToken "b" Investors.open in
  Reply.success (snd out) = true
  /\ associateToken "b" (fst out)
     = (fst out, Reply.refuse 400 "Token is already associated with your account").
Proof.
  cbn zeta.
  destruct (associateToken_once "b" Investors.open Investors.bob eq_refl eq_refl eq_refl)
    as (_ & Hs & _ & _ & _ & _ & Hagain).
  split; assumption.
Defined.

End InvestmentExtras.

(** ** Properties of the validation helpers of the registration *)

Section AuthExtras.
Import authController.

Lemma afterPrefix_Some (prefix s rest : jsString) :
  afterPrefix prefix s = Some rest -> s = prefix ++ rest.
Proof.
  revert s. induction prefix as [|p prefix IH]; intros s H.
  - cbn in H. now injection H as ->.
  - destruct s as [|c s]; [discriminate|]. cbn in H.
    destruct (N.eqb_spec p c) as [->|]; [|discriminate].
    cbn. f_equal. now apply IH.
Qed.

Lemma isDigit_kept (c : N) :
  isDigit c = true -> (isWhiteSpace c || (c =? 45)%N) = false.
Proof.
  unfold isDigit, isWhiteSpace. intros [Hlo Hhi]%andb_true_iff.
  apply N.leb_le in Hlo, Hhi.
  repeat match goal with
         | |- context [(c =? ?k)%N] =>
             replace (c =? k)%N with false by (symmetry; apply N.eqb_neq; lia)
         end.
  replace (c <=? 13)%N with false by (symmetry; apply N.leb_gt; lia).
  replace (8192 <=? c)%N with false by (symmetry; apply N.leb_gt; lia).
  now rewrite andb_false_r.
Qed.

Lemma digits_kept (s : jsString) :
  forallb isDigit s = true -> withoutSpacesAndHyphens s = s.
Proof.
  induction s as [|c s IH]; [reflexivity|]. cbn [forallb].
  intros [Hc Hs]%andb_true_iff. unfold withoutSpacesAndHyphens in *. cbn [List.filter].
  rewrite (isDigit_kept c Hc). cbn [negb]. f_equal. now apply IH.
Qed.

Lemma subscriber_digits (s : jsString) :
  subscriber s = true -> length s = 9%nat /\ forallb isDigit s = true.
Proof.
  destruct s as [|seven [|c digits]]; try discriminate. cbn [subscriber].
  intros [[[H7 Hc]%andb_true_iff Hl]%andb_true_iff Hd]%andb_true_iff.
  apply N.eqb_eq in H7. subst seven. apply Nat.eqb_eq in Hl.
  split; [cbn; now rewrite Hl|]. cbn [forallb]. rewrite Hd, andb_true_r.
  apply andb_true_iff. split; [reflexivity|].
  unfold isDigit. apply andb_true_iff in Hc. destruct Hc as [Hlo Hhi].
  rewrite Hhi, andb_true_r. apply N.leb_le in Hlo. apply N.leb_le. lia.
Qed.

Lemma withoutSpaces_app (a b : jsString) :
  withoutSpaces (a ++ b) = withoutSpaces a ++ withoutSpaces b.
Proof. apply List.filter_app. Qed.

(** X29: Every spelling that [validatePhoneNumber] accepts is one of the four
    prefixes followed by a subscriber number of nine digits, among spaces
    and hyphens, and [normalizePhoneNumber] turns it into [+250] followed
    by that number: the spellings of one number are stored as one string,
    which is itself accepted and is left as it is when normalised again. *)
Theorem normalizePhoneNumber_canonical (phoneNumber : jsString)
    (Hvalid : validatePhoneNumber (Some phoneNumber) = true) :
  exists prefix number : jsString,
    In prefix prefixes
    /\ withoutSpacesAndHyphens phoneNumber = prefix ++ number
    /\ length number = 9%nat
    /\ forallb isDigit number = true
    /\ normalizePhoneNumber phoneNumber = codes "+250" ++ number
    /\ validatePhoneNumber (Some (normalizePhoneNumber phoneNumber)) = true
    /\ normalizePhoneNumber (normalizePhoneNumber phoneNumber)
       = normalizePhoneNumber phoneNumber.
Proof.
  unfold validatePhoneNumber in Hvalid. destruct phoneNumber as [|c0 s0]; [discriminate|].
  set (phone := c0 :: s0) in *. unfold matchesPhone in Hvalid.
  apply existsb_exists in Hvalid. destruct Hvalid as (prefix & Hin & Hmatch).
  destruct (afterPrefix prefix (withoutSpacesAndHyphens phone)) as [number|] eqn:Hafter;
    [|discriminate].
  apply afterPrefix_Some in Hafter.
  destruct (subscriber_digits number Hmatch) as (Hlen & Hdigits).
  assert (Hnorm : normalizePhoneNumber phone = codes "+250" ++ number).
  { unfold normalizePhoneNumber. rewrite Hafter.
    destruct number as [|seven [|c digits]]; try discriminate.
    cbn [subscriber] in Hmatch. apply andb_true_iff in Hmatch as [Hmatch _].
    apply andb_true_iff in Hmatch as [Hmatch _].
    apply andb_true_iff in Hmatch as [H7 _]. apply N.eqb_eq in H7. subst seven.
    cbn in Hin. destruct Hin as [<-|[<-|[<-|[<-|[]]]]]; reflexivity. }
  assert (Hclean : withoutSpacesAndHyphens (codes "+250" ++ number)
                   = codes "+250" ++ number).
  { unfold withoutSpacesAndHyphens. rewrite List.filter_app. f_equal.
    now apply digits_kept. }
  exists prefix, number. repeat split; try assumption.
  - rewrite Hnorm. unfold validatePhoneNumber. change (codes "+250" ++ number)
      with (43%N :: (codes "250" ++ number)) at 1.
    cbv iota. rewrite Hclean. unfold matchesPhone. cbn [existsb prefixes].
    change (afterPrefix (codes "+250") (codes "+250" ++ number)) with (Some number).
    cbv iota. now rewrite Hmatch.
  - rewrite Hnorm. unfold normalizePhoneNumber. rewrite Hclean. reflexivity.
Qed.

Lemma normalizePhoneNumber_canonical_witness :
  exists number : jsString,
    normalizePhoneNumber (codes "078 812-3456") = codes "+250" ++ number
    /\ length number = 9%nat.
Proof.
  destruct (normalizePhoneNumber_canonical (codes "078 812-3456") eq_refl)
    as (prefix & number & _ & _ & Hlen & _ & Hnorm & _).
  exists number. split; [exact Hnorm|exact Hlen].
Defined.

Lemma validateNationalId_cleaned (s : jsString) :
  validateNationalId (Some s) = sixteenDigits (withoutSpaces s).
Proof. now destruct s. Qed.

(** X30: White space in a national identifier counts for nothing: wherever a
    white-space character is put in, the verdict of [validateNationalId]
    and the identifier that the registration stores stay what they were;
    and an identifier that is accepted is stored as sixteen digits. *)
Theorem validateNationalId_ignores_spaces (before after : jsString) (space : N)
    (Hspace : isWhiteSpace space = true) :
  validateNationalId (Some (before ++ space :: after))
  = validateNationalId (Some (before ++ after))
  /\ withoutSpaces (before ++ space :: after) = withoutSpaces (before ++ after)
  /\ (validateNationalId (Some (before ++ after)) = true ->
      length (withoutSpaces (before ++ after)) = 16%nat
      /\ forallb isDigit (withoutSpaces (before ++ after)) = true).
Proof.
  assert (Hclean : withoutSpaces (before ++ space :: after) = withoutSpaces (before ++ after)).
  { rewrite !withoutSpaces_app. f_equal. unfold withoutSpaces. cbn [List.filter].
    now rewrite Hspace. }
  rewrite !validateNationalId_cleaned, Hclean. split; [reflexivity|]. split; [reflexivity|].
  unfold sixteenDigits. intros [Hl Hd]%andb_true_iff. split; [|exact Hd].
  now apply Nat.eqb_eq.
Qed.

Lemma validateNationalId_ignores_spaces_witness :
  validateNationalId (Some (codes "1199 7800 1234 5678"))
  = validateNationalId (Some (codes "11997800 1234 5678"))
  /\ withoutSpaces (codes "1199 7800 1234 5678") = withoutSpaces (codes "11997800 1234 5678").
Proof.
  destruct (validateNationalId_ignores_spaces (codes "1199") (codes "7800 1234 5678") 32
              eq_refl) as (Hv & Hc & _).
  split; [exact Hv|exact Hc].
Defined.

End AuthExtras.
